(** * Emotion detection service: a shallow embedding of
      [Backend/emotion_service.py] and the properties of its
      detection-and-aggregation pipeline.

    The external collaborators (the Haar cascade face proposer, the YOLO
    classifier, [json.loads], [base64.b64decode], [cv2.imdecode] and the
    printing of a response on the output) are oracles: section variables of the embedding.  A collaborator that can
    raise returns [exn + A].  Python floats are modelled by rationals. *)

From Stdlib Require Import List NArith ZArith QArith Qround String Ascii Bool
  Lia.
Import ListNotations.
Local Open Scope string_scope.
Local Open Scope Z_scope.

(** ** Labels and colours *)

Inductive Emotion : Set :=
  Anger | Contempt | Disgust | Fear | Happy | Neutral | Sad | Surprise.

(** [emotions = ['Anger', 'Contempt', ..., 'Surprise']].  The eight names
    are non-empty strings, so the truth value of a label ([if best_emotion:])
    is its presence. *)
Definition emotions : list Emotion :=
  [Anger; Contempt; Disgust; Fear; Happy; Neutral; Sad; Surprise].

Definition emotion_name (e : Emotion) : string :=
  match e with
  | Anger => "Anger" | Contempt => "Contempt" | Disgust => "Disgust"
  | Fear => "Fear" | Happy => "Happy" | Neutral => "Neutral"
  | Sad => "Sad" | Surprise => "Surprise"
  end.

Definition Emotion_eqb (a b : Emotion) : bool :=
  match a, b with
  | Anger, Anger | Contempt, Contempt | Disgust, Disgust | Fear, Fear
  | Happy, Happy | Neutral, Neutral | Sad, Sad | Surprise, Surprise => true
  | _, _ => false
  end.

Definition colors_bgr (e : Emotion) : N * N * N :=
  match e with
  | Anger => (0, 0, 255)
  | Contempt => (128, 0, 128)
  | Disgust => (0, 128, 0)
  | Fear => (0, 255, 255)
  | Happy => (0, 255, 0)
  | Neutral => (255, 255, 255)
  | Sad => (255, 0, 0)
  | Surprise => (0, 165, 255)
  end%N.

Definition hex_digit (n : N) : ascii :=
  match String.get (N.to_nat n) "0123456789ABCDEF" with
  | Some c => c
  | None => "0"%char
  end.

Fixpoint hex_upper (fuel : nat) (n : N) (acc : string) : string :=
  match fuel with
  | O => acc
  | S fuel' =>
      let acc' := String (hex_digit (n mod 16)) acc in
      if (n / 16 =? 0)%N then acc' else hex_upper fuel' (n / 16)%N acc'
  end.

(** The format specification [:02X]: upper-case hexadecimal, padded with
    zeros to two digits. *)
Definition format_02X (n : N) : string :=
  let s := hex_upper (S (N.to_nat (N.log2 n))) n "" in
  if (String.length s <? 2)%nat then "0" ++ s else s.

Definition bgr_to_rgb_hex (bgr : N * N * N) : string :=
  let '(b, g, r) := bgr in
  "#" ++ format_02X r ++ format_02X g ++ format_02X b.

(** ** Numbers *)

(** [a > b] on floats. *)
Definition Qgtb (a b : Q) : bool := negb (Qle_bool a b).

(** Python's [min(a, b)] and [max(a, b)]: the first argument unless the
    second is strictly smaller (larger). *)
Definition py_min (a b : Q) : Q := if Qgtb a b then b else a.
Definition py_max (a b : Q) : Q := if Qgtb b a then b else a.

(** [int(q)]: truncation towards zero. *)
Definition int_of (q : Q) : Z := Z.quot (Qnum q) (Zpos (Qden q)).

Definition round_half_even (q : Q) : Z :=
  let n := Qnum q in
  let d := Zpos (Qden q) in
  let f := n / d in
  let r2 := 2 * (n mod d) in
  if r2 <? d then f
  else if d <? r2 then f + 1
  else if Z.even f then f else f + 1.

(** [round(q, 4)]. *)
Definition round4 (q : Q) : Q :=
  Qmake (round_half_even (Qmult q (inject_Z 10000))) 10000.

(** ** Frames *)

Definition pixel : Set := (N * N * N)%type.

(** A decoded frame: an array of [nd_rows] by [nd_cols] pixels. *)
Record ndarray : Type := {
  nd_rows : nat;
  nd_cols : nat;
  nd_at : nat -> nat -> pixel
}.

(** The bound [i] of a slice [a[i:j]] over an axis of length [n]: a negative
    bound counts from the end, and both are clamped to the axis. *)
Definition slice_index (n : nat) (i : Z) : Z :=
  if i <? 0 then Z.max 0 (i + Z.of_nat n) else Z.min i (Z.of_nat n).

(** [frame[y1:y2, x1:x2]]. *)
Definition crop (frame : ndarray) (y1 y2 x1 x2 : Z) : ndarray :=
  let ys := slice_index (nd_rows frame) y1 in
  let ye := slice_index (nd_rows frame) y2 in
  let xs := slice_index (nd_cols frame) x1 in
  let xe := slice_index (nd_cols frame) x2 in
  {| nd_rows := Z.to_nat (ye - ys);
     nd_cols := Z.to_nat (xe - xs);
     nd_at := fun i j =>
       nd_at frame (i + Z.to_nat ys)%nat (j + Z.to_nat xs)%nat |}.

(** ** Classifier output *)

(** One localized output.  [b_conf] is [float(box.conf[0])] and [b_cls] is
    [int(box.cls[0])]; [None] when the conversion raises.  [b_xyxy] is
    [box.xyxy[0].tolist()], [None] when the box has no [xyxy] attribute. *)
Record yolo_box : Type := {
  b_conf : option Q;
  b_cls : option Z;
  b_xyxy : option (Q * Q * Q * Q)
}.

(** The region-wide output: [probs.top1] and [probs.top1conf], each possibly
    [None]; [ProbsRaise] when reading or converting them raises. *)
Inductive yolo_probs : Type :=
| Probs (top1 : option Z) (top1conf : option Q)
| ProbsRaise.

(** A result of the classifier: the attributes [boxes] and [probs], [None]
    when absent or [None]. *)
Record yolo_result : Type := {
  boxes : option (list yolo_box);
  probs : option yolo_probs
}.

(** An exception instance; [str(e)] is [exn_msg]. *)
Record exn : Type := { exn_type : string; exn_msg : string }.

Definition str (e : exn) : string := exn_msg e.

(** [emotions[class_id]] under the guard [0 <= class_id < len(emotions)]. *)
Definition label_of (class_id : Z) : option Emotion :=
  if (0 <=? class_id) && (class_id <? Z.of_nat (List.length emotions))
  then nth_error emotions (Z.to_nat class_id)
  else None.

(** ** Region classification (the loop over [results]) *)

Record region_best : Type := {
  best_emotion : option Emotion;
  best_conf : Q;
  roi_box_count : nat;
  classification : bool
}.

Definition region_init : region_best :=
  {| best_emotion := None; best_conf := 0%Q; roi_box_count := 0%nat;
     classification := false |}.

(** The body of [for box in boxes] (and of [for fbox in fboxes], which is
    the same code on the [full_] variables). *)
Definition scan_box (st : region_best) (box : yolo_box) : region_best :=
  match b_conf box, b_cls box with
  | Some confidence, Some class_id =>
      if Qgtb confidence (best_conf st) then
        {| best_emotion :=
             match label_of class_id with
             | Some e => Some e
             | None => best_emotion st
             end;
           best_conf := confidence;
           roi_box_count := S (roi_box_count st);
           classification := classification st |}
      else
        {| best_emotion := best_emotion st;
           best_conf := best_conf st;
           roi_box_count := S (roi_box_count st);
           classification := classification st |}
  | _, _ => st
  end.

(** The classification path: no boxes, look at [probs]. *)
Definition scan_probs (st : region_best) (p : yolo_probs) : region_best :=
  match p with
  | ProbsRaise => st
  | Probs top1 top1conf =>
      let confidence := match top1conf with Some c => c | None => 0%Q end in
      match top1 with
      | None => st
      | Some class_id =>
          match label_of class_id with
          | None => st
          | Some e =>
              if Qgtb confidence (best_conf st) then
                {| best_emotion := Some e;
                   best_conf := confidence;
                   roi_box_count := roi_box_count st;
                   classification := true |}
              else st
          end
      end
  end.

(** The body of [for result in results]. *)
Definition scan_result (st : region_best) (result : yolo_result)
  : region_best :=
  match boxes result with
  | Some (b :: bs) => fold_left scan_box (b :: bs) st
  | _ =>
      match probs result with
      | Some p => scan_probs st p
      | None => st
      end
  end.

Definition classify_region (results : list yolo_result) : region_best :=
  fold_left scan_result results region_init.

(** The body of [for fr in full_results] of the fallback attempt. *)
Definition scan_full_result (st : region_best) (fr : yolo_result)
  : region_best :=
  match boxes fr with
  | None => st
  | Some fboxes => fold_left scan_box fboxes st
  end.

Definition classify_full (full_results : list yolo_result) : region_best :=
  fold_left scan_full_result full_results region_init.

(** ** Detections, diagnostics and the state of [process_frame] *)

(** An element of [results_output]: the dictionary with the keys [x1], [y1],
    [x2], [y2], [emotion], [confidence], [color] and, on the direct path
    only, [source]. *)
Record detection : Type := {
  x1 : Z;
  y1 : Z;
  x2 : Z;
  y2 : Z;
  emotion : option Emotion;
  confidence : Q;
  color : string;
  source : option string
}.

(** The [debug_entry] of one face; an optional key is [None] (for
    [fallbackUsed] and [classification]: [false]) when absent. *)
Record face_debug : Type := {
  faceRect : Z * Z * Z * Z;
  roiBoxes : nat;
  bestConf : Q;
  fallbackFullBoxes : option nat;
  fallbackUsed : bool;
  fallbackBestConf : option Q;
  fallbackError : option string;
  dbg_classification : bool
}.

Inductive debug_record : Type :=
| FaceDebug (d : face_debug)
| DirectDetections (directDetections : nat)
| DirectError (directError : string).

(** The calls made to the external collaborators, by call site. *)
Inductive call : Set :=
| ProposeRegions      (* face_cascade.detectMultiScale(gray, ...) *)
| ClassifyRegion      (* model(face_roi, conf=0.05) *)
| ClassifyFallback    (* model(frame_bgr, conf=0.05) *)
| ClassifyDirect.     (* model(frame_bgr, conf=0.25) *)

(** [emotion_counts[k] = emotion_counts.get(k, 0) + 1] on a dictionary kept
    in insertion order. *)
Fixpoint counts_incr (k : Emotion) (m : list (Emotion * nat))
  : list (Emotion * nat) :=
  match m with
  | [] => [(k, 1%nat)]
  | (k', n) :: m' =>
      if Emotion_eqb k k' then (k', S n) :: m'
      else (k', n) :: counts_incr k m'
  end.

Record loop_state : Type := {
  results_output : list detection;
  emotion_counts : list (Emotion * nat);
  debug_entries : list debug_record;
  calls : list call
}.

Definition log_call (c : call) (st : loop_state) : loop_state :=
  {| results_output := results_output st;
     emotion_counts := emotion_counts st;
     debug_entries := debug_entries st;
     calls := calls st ++ [c] |}.

(** [debug_entry['classification'] = True] on the dictionary that
    [locals().get('debug_entry', {})] returns: the entry of the face
    appended last, which the list [debug_entries] shares; a fresh dictionary,
    dropped at once, when no face was appended yet. *)
Fixpoint mark_classification (entries : list debug_record)
  : list debug_record :=
  match entries with
  | [] => []
  | [FaceDebug d] =>
      [FaceDebug
         {| faceRect := faceRect d; roiBoxes := roiBoxes d;
            bestConf := bestConf d;
            fallbackFullBoxes := fallbackFullBoxes d;
            fallbackUsed := fallbackUsed d;
            fallbackBestConf := fallbackBestConf d;
            fallbackError := fallbackError d;
            dbg_classification := true |}]
  | r :: rest => r :: mark_classification rest
  end.

Definition padding : Z := 20.

(** [max(emotion_counts.items(), key=lambda kv: kv[1])]: the first item of
    the largest count. *)
Fixpoint max_item (best : Emotion * nat) (items : list (Emotion * nat))
  : Emotion * nat :=
  match items with
  | [] => best
  | kv :: rest =>
      if (snd best <? snd kv)%nat then max_item kv rest
      else max_item best rest
  end.

Definition dominant_of (counts : list (Emotion * nat)) : option Emotion :=
  match counts with
  | [] => None
  | kv :: rest => Some (fst (max_item kv rest))
  end.

Definition count_result (counts : list (Emotion * nat)) (r : detection)
  : list (Emotion * nat) :=
  match emotion r with
  | Some e => counts_incr e counts
  | None => counts
  end.

(** The recount of the dominant label from [results_output] when the
    counts of the region loop are empty. *)
Definition recount (results : list detection) (counts : list (Emotion * nat))
  : list (Emotion * nat) :=
  match results with
  | [] => counts
  | _ :: _ =>
      match counts with
      | [] => fold_left count_result results []
      | _ :: _ => counts
      end
  end.

(** What [process_frame] returns: [results_output], [dominant], the
    dimensions [(width, height)] and [debug_entries]. *)
Record frame_result : Type := {
  fr_faces : list detection;
  fr_dominant : option Emotion;
  fr_dims : nat * nat;
  fr_debug : list debug_record
}.

Definition is_some {A : Type} (o : option A) : bool :=
  match o with Some _ => true | None => false end.

Definition is_none {A : Type} (o : option A) : bool := negb (is_some o).

(** The padded and clamped region [(x1, y1, x2, y2)] of a proposed face. *)
Definition region_of (frame_bgr : ndarray) (face : Z * Z * Z * Z)
  : Z * Z * Z * Z :=
  let '(x, y, w, h) := face in
  (Z.max 0 (x - padding),
   Z.max 0 (y - padding),
   Z.min (Z.of_nat (nd_cols frame_bgr)) (x + w + padding),
   Z.min (Z.of_nat (nd_rows frame_bgr)) (y + h + padding)).

(** [face_roi = frame_bgr[y1:y2, x1:x2]]. *)
Definition roi_of (frame_bgr : ndarray) (face : Z * Z * Z * Z) : ndarray :=
  let '(rx1, ry1, rx2, ry2) := region_of frame_bgr face in
  crop frame_bgr ry1 ry2 rx1 rx2.

(** [face_roi.shape[0] < 50 or face_roi.shape[1] < 50]. *)
Definition too_small (face_roi : ndarray) : bool :=
  ((nd_rows face_roi <? 50) || (nd_cols face_roi <? 50))%nat.

Section Pipeline.

(** [face_cascade.detectMultiScale] on the grey image of the frame; each
    face is [(x, y, w, h)]. *)
Variable detectMultiScale : ndarray -> exn + list (Z * Z * Z * Z).

(** [model(image, conf=c, verbose=False)]. *)
Variable model : ndarray -> Q -> exn + list yolo_result.

Variable EMOTION_MODE : string.

Definition mode_in (modes : list string) : bool :=
  existsb (String.eqb EMOTION_MODE) modes.

(** The fallback attempt on the whole frame, for a face whose region gave
    no label: the new [best_emotion], [best_conf] and [debug_entry]. *)
Definition fallback_attempt (frame_bgr : ndarray) (rb : region_best)
    (debug_entry : face_debug) : option Emotion * Q * face_debug :=
  match model frame_bgr (5 # 100) with
  | inr full_results =>
      let fb := classify_full full_results in
      let full_best_conf := best_conf fb in
      let full_best_emotion := best_emotion fb in
      if is_some full_best_emotion && Qgtb full_best_conf (best_conf rb)
      then
        (full_best_emotion, full_best_conf,
         {| faceRect := faceRect debug_entry;
            roiBoxes := roiBoxes debug_entry;
            bestConf := bestConf debug_entry;
            fallbackFullBoxes := Some (roi_box_count fb);
            fallbackUsed := true;
            fallbackBestConf := Some (round4 full_best_conf);
            fallbackError := fallbackError debug_entry;
            dbg_classification := dbg_classification debug_entry |})
      else
        (best_emotion rb, best_conf rb,
         {| faceRect := faceRect debug_entry;
            roiBoxes := roiBoxes debug_entry;
            bestConf := bestConf debug_entry;
            fallbackFullBoxes := Some (roi_box_count fb);
            fallbackUsed := fallbackUsed debug_entry;
            fallbackBestConf := fallbackBestConf debug_entry;
            fallbackError := fallbackError debug_entry;
            dbg_classification := dbg_classification debug_entry |})
  | inl fe =>
      (best_emotion rb, best_conf rb,
       {| faceRect := faceRect debug_entry;
          roiBoxes := roiBoxes debug_entry;
          bestConf := bestConf debug_entry;
          fallbackFullBoxes := fallbackFullBoxes debug_entry;
          fallbackUsed := fallbackUsed debug_entry;
          fallbackBestConf := fallbackBestConf debug_entry;
          fallbackError := Some (str fe);
          dbg_classification := dbg_classification debug_entry |})
  end.

(** The rest of the loop body once the classifier returned [results] for
    the region [(rx1, ry1, rx2, ry2)]. *)
Definition finish_face (frame_bgr : ndarray) (st : loop_state)
    (rx1 ry1 rx2 ry2 : Z) (results : list yolo_result) : loop_state :=
  let h_frame := Z.of_nat (nd_rows frame_bgr) in
  let w_frame := Z.of_nat (nd_cols frame_bgr) in
  let rb := classify_region results in
  let entries :=
    if classification rb then mark_classification (debug_entries st)
    else debug_entries st in
  let debug_entry :=
    {| faceRect := (rx1, ry1, rx2, ry2);
       roiBoxes := roi_box_count rb;
       bestConf := round4 (best_conf rb);
       fallbackFullBoxes := None;
       fallbackUsed := false;
       fallbackBestConf := None;
       fallbackError := None;
       dbg_classification := false |} in
  let '(best_emotion, best_conf, debug_entry, new_calls) :=
    match best_emotion rb with
    | None =>
        let '(e, c, d) := fallback_attempt frame_bgr rb debug_entry in
        (e, c, d, [ClassifyRegion; ClassifyFallback])
    | Some e => (Some e, best_conf rb, debug_entry, [ClassifyRegion])
    end in
  let color_hex :=
    match best_emotion with
    | Some e => bgr_to_rgb_hex (colors_bgr e)
    | None => "#FFFFFF"
    end in
  {| results_output :=
       results_output st ++
       [{| x1 := Z.max 0 (Z.min rx1 (w_frame - 1));
           y1 := Z.max 0 (Z.min ry1 (h_frame - 1));
           x2 := Z.max 0 (Z.min rx2 w_frame);
           y2 := Z.max 0 (Z.min ry2 h_frame);
           emotion := best_emotion;
           confidence := round4 best_conf;
           color := color_hex;
           source := None |}];
     emotion_counts :=
       match best_emotion with
       | Some e => counts_incr e (emotion_counts st)
       | None => emotion_counts st
       end;
     debug_entries := entries ++ [FaceDebug debug_entry];
     calls := calls st ++ new_calls |}.

(** The body of [for (x, y, w, h) in faces]. *)
Definition process_face (frame_bgr : ndarray) (st : loop_state)
    (face : Z * Z * Z * Z) : loop_state :=
  let '(rx1, ry1, rx2, ry2) := region_of frame_bgr face in
  let face_roi := roi_of frame_bgr face in
  if too_small face_roi then st
  else
    match model face_roi (5 # 100) with
    | inl _ => log_call ClassifyRegion st
    | inr results => finish_face frame_bgr st rx1 ry1 rx2 ry2 results
    end.

(** The body of [for dbox in dboxes]. *)
Definition direct_box (frame_bgr : ndarray) (picked : list detection)
    (dbox : yolo_box) : list detection :=
  let h_frame := Z.of_nat (nd_rows frame_bgr) in
  let w_frame := Z.of_nat (nd_cols frame_bgr) in
  match b_conf dbox, b_cls dbox with
  | Some conf, Some cls_id =>
      match label_of cls_id with
      | Some e =>
          let '(x1d, y1d, x2d, y2d) :=
            match b_xyxy dbox with
            | Some bxyxy => bxyxy
            | None => (0%Q, 0%Q, inject_Z w_frame, inject_Z h_frame)
            end in
          picked ++
          [{| x1 := int_of (py_max 0 (py_min x1d (inject_Z (w_frame - 1))));
              y1 := int_of (py_max 0 (py_min y1d (inject_Z (h_frame - 1))));
              x2 := int_of (py_max 0 (py_min x2d (inject_Z w_frame)));
              y2 := int_of (py_max 0 (py_min y2d (inject_Z h_frame)));
              emotion := Some e;
              confidence := round4 conf;
              color := bgr_to_rgb_hex (colors_bgr e);
              source := Some "direct" |}]
      | None => picked
      end
  | _, _ => picked
  end.

(** The body of [for dr in direct_results]. *)
Definition direct_result (frame_bgr : ndarray) (picked : list detection)
    (dr : yolo_result) : list detection :=
  match boxes dr with
  | None => picked
  | Some dboxes => fold_left (direct_box frame_bgr) dboxes picked
  end.

(** The test that opens the direct full-frame attempt. *)
Definition direct_condition (st : loop_state) : bool :=
  (match results_output st with [] => true | _ :: _ => false end
   || forallb (fun r => is_none (emotion r)) (results_output st))
  && mode_in ["direct"; "hybrid"].

(** The list [picked] of the direct attempt. *)
Definition direct_detections (frame_bgr : ndarray)
    (direct_results : list yolo_result) : list detection :=
  fold_left (direct_result frame_bgr) direct_results [].

Definition direct_stage (frame_bgr : ndarray) (st : loop_state)
  : loop_state :=
  if direct_condition st then
    match model frame_bgr (25 # 100) with
    | inr direct_results =>
        let picked := direct_detections frame_bgr direct_results in
        match picked with
        | [] => log_call ClassifyDirect st
        | _ :: _ =>
            {| results_output := picked;
               emotion_counts := emotion_counts st;
               debug_entries :=
                 debug_entries st ++
                 [DirectDetections (List.length picked)];
               calls := calls st ++ [ClassifyDirect] |}
        end
    | inl de =>
        {| results_output := results_output st;
           emotion_counts := emotion_counts st;
           debug_entries := debug_entries st ++ [DirectError (str de)];
           calls := calls st ++ [ClassifyDirect] |}
    end
  else st.

Definition loop_init (log : list call) : loop_state :=
  {| results_output := []; emotion_counts := []; debug_entries := [];
     calls := log |}.

(** The state after the loop over the faces. *)
Definition region_stage (frame_bgr : ndarray) (log : list call)
    (faces : list (Z * Z * Z * Z)) : loop_state :=
  fold_left (process_face frame_bgr) faces (loop_init log).

(** The state after the loop over the faces and the direct attempt. *)
Definition detect (frame_bgr : ndarray) (log : list call)
    (faces : list (Z * Z * Z * Z)) : loop_state :=
  direct_stage frame_bgr (region_stage frame_bgr log faces).

Definition aggregate (frame_bgr : ndarray) (st : loop_state)
  : frame_result :=
  {| fr_faces := results_output st;
     fr_dominant :=
       dominant_of (recount (results_output st) (emotion_counts st));
     fr_dims := (nd_cols frame_bgr, nd_rows frame_bgr);
     fr_debug := debug_entries st |}.

(** [process_frame]: the calls it made, and what it raised or returned. *)
Definition process_frame (frame_bgr : ndarray)
  : list call * (exn + frame_result) :=
  if mode_in ["cascade"; "hybrid"] then
    match detectMultiScale frame_bgr with
    | inl e => ([ProposeRegions], inl e)
    | inr faces =>
        let st := detect frame_bgr [ProposeRegions] faces in
        (calls st, inr (aggregate frame_bgr st))
    end
  else
    let st := detect frame_bgr [] [] in
    (calls st, inr (aggregate frame_bgr st)).

(** The faces that the proposer gave to the loop: none when the mode keeps
    the proposer out. *)
Definition proposed (frame_bgr : ndarray) : list (Z * Z * Z * Z) :=
  if mode_in ["cascade"; "hybrid"] then
    match detectMultiScale frame_bgr with
    | inr faces => faces
    | inl _ => []
    end
  else [].

(** The detections accumulated by the loop over the proposed faces, before
    the direct attempt. *)
Definition accumulated (frame_bgr : ndarray) : list detection :=
  results_output (region_stage frame_bgr [] (proposed frame_bgr)).

End Pipeline.

(** ** The request loop *)

(** A value that [json.loads] returns. *)
#[local] Unset Elimination Schemes.
Inductive json : Type :=
| JNull
| JBool (b : bool)
| JNum (q : Q)
| JStr (s : string)
| JArr (items : list json)
| JObj (members : list (string * json)).
#[local] Set Elimination Schemes.

Definition type_name (v : json) : string :=
  match v with
  | JNull => "NoneType"
  | JBool _ => "bool"
  | JNum q => if (Zpos (Qden q) =? 1) then "int" else "float"
  | JStr _ => "str"
  | JArr _ => "list"
  | JObj _ => "dict"
  end.

(** The truth value of a JSON value ([if not image_data]). *)
Definition truthy (v : json) : bool :=
  match v with
  | JNull => false
  | JBool b => b
  | JNum q => negb (Qeq_bool q 0)
  | JStr s => negb (String.eqb s "")
  | JArr items => match items with [] => false | _ :: _ => true end
  | JObj members => match members with [] => false | _ :: _ => true end
  end.

Definition AttributeError (msg : string) : exn :=
  {| exn_type := "AttributeError"; exn_msg := msg |}.
Definition TypeError (msg : string) : exn :=
  {| exn_type := "TypeError"; exn_msg := msg |}.
Definition ValueError (msg : string) : exn :=
  {| exn_type := "ValueError"; exn_msg := msg |}.

Fixpoint assoc (key : string) (members : list (string * json))
  : option json :=
  match members with
  | [] => None
  | (k, v) :: rest => if String.eqb key k then Some v else assoc key rest
  end.

(** [payload.get(key)]: only a dictionary has the method. *)
Definition dict_get (payload : json) (key : string) : exn + json :=
  match payload with
  | JObj members =>
      inr (match assoc key members with Some v => v | None => JNull end)
  | other =>
      inl (AttributeError
             ("'" ++ type_name other ++ "' object has no attribute 'get'"))
  end.

(** [s.split(",", 1)[1]] when ["," in s]. *)
Fixpoint after_comma (s : string) : option string :=
  match s with
  | EmptyString => None
  | String c rest =>
      if Ascii.eqb c ","%char then Some rest else after_comma rest
  end.

(** A text ([str]) is held as the bytes of its UTF-8 encoding.  The white
    space of [str.strip()] is the characters U+0009..U+000D, U+001C..U+0020,
    U+0085, U+00A0, U+1680, U+2000..U+200A, U+2028, U+2029, U+202F, U+205F
    and U+3000: [is_space] for the ones of one byte, [is_space2] and
    [is_space3] for the ones of two and three bytes. *)
Definition is_space (c : ascii) : bool :=
  let n := nat_of_ascii c in
  (((9 <=? n) && (n <=? 13)) || ((28 <=? n) && (n <=? 32)))%nat.

Definition is_space2 (a b : ascii) : bool :=
  let x := nat_of_ascii a in
  let y := nat_of_ascii b in
  ((x =? 194) && ((y =? 133) || (y =? 160)))%nat.

Definition is_space3 (a b c : ascii) : bool :=
  let x := nat_of_ascii a in
  let y := nat_of_ascii b in
  let z := nat_of_ascii c in
  (((x =? 225) && (y =? 154) && (z =? 128))
   || ((x =? 226) && (y =? 128) &&
       (((128 <=? z) && (z <=? 138)) || (z =? 168) || (z =? 169)
        || (z =? 175)))
   || ((x =? 226) && (y =? 129) && (z =? 159))
   || ((x =? 227) && (y =? 128) && (z =? 128)))%nat.

(** Every character of the text is white space. *)
Fixpoint all_space (s : string) : bool :=
  match s with
  | EmptyString => true
  | String a r1 =>
      if is_space a then all_space r1
      else
        match r1 with
        | EmptyString => false
        | String b r2 =>
            if is_space2 a b then all_space r2
            else
              match r2 with
              | EmptyString => false
              | String c r3 =>
                  if is_space3 a b c then all_space r3 else false
              end
        end
  end.

Fixpoint lstrip (s : string) : string :=
  match s with
  | EmptyString => EmptyString
  | String a r1 =>
      if is_space a then lstrip r1
      else
        match r1 with
        | EmptyString => s
        | String b r2 =>
            if is_space2 a b then lstrip r2
            else
              match r2 with
              | EmptyString => s
              | String c r3 => if is_space3 a b c then lstrip r3 else s
              end
        end
  end.

(** The text without the white space that ends it: nothing when it is all
    white space, and else its first byte and the rest stripped likewise (a
    byte inside a character starts no white space). *)
Fixpoint rstrip (s : string) : string :=
  match s with
  | EmptyString => EmptyString
  | String c rest =>
      if all_space s then EmptyString else String c (rstrip rest)
  end.

Definition strip (s : string) : string := rstrip (lstrip s).

(** The dictionary [out] that is printed: a key that a branch does not set
    is [None]. *)
Record response : Type := {
  resp_id : json;
  resp_error : option string;
  resp_faces : list detection;
  resp_dominantEmotion : option Emotion;
  resp_frame : option (nat * nat);
  resp_debug : option (list debug_record)
}.

Definition bind {A B : Type} (m : exn + A) (k : A -> exn + B) : exn + B :=
  match m with
  | inl e => inl e
  | inr a => k a
  end.

Notation "x <- m ;; k" := (bind m (fun x => k))
  (at level 61, m at next level, right associativity).

Section Service.

Variable detectMultiScale : ndarray -> exn + list (Z * Z * Z * Z).
Variable model : ndarray -> Q -> exn + list yolo_result.
Variable EMOTION_MODE : string.

(** [json.loads], [base64.b64decode] and, on the bytes, [cv2.imdecode]
    (which returns [None] for bytes that are no image). *)
Variable json_loads : string -> exn + json.
Variable b64decode : string -> exn + string.
Variable imdecode : string -> exn + option ndarray.

(** [print(json.dumps(out, ensure_ascii=False))] and [sys.stdout.flush()]:
    they raise when the text of the response cannot be encoded for the
    output (a string with a lone surrogate, or out of the encoding of
    [stdout]) or the output is closed; nothing is then written. *)
Variable print_json : response -> exn + unit.

(** From [image_data] to the decoded frame. *)
Definition decode_image (image_data : json) : exn + ndarray :=
  if negb (truthy image_data) then inl (ValueError "Missing image")
  else
    match image_data with
    | JStr s =>
        let data :=
          match after_comma s with Some rest => rest | None => s end in
        img_bytes <- b64decode data ;;
        frame <- imdecode img_bytes ;;
        match frame with
        | None => inl (ValueError "Failed to decode image")
        | Some f => inr f
        end
    | JArr items =>
        if existsb
             (fun v => match v with JStr s => String.eqb s "," | _ => false end)
             items
        then inl (AttributeError "'list' object has no attribute 'split'")
        else inl (TypeError
               "argument should be a bytes-like object or ASCII string, not 'list'")
    | JObj members =>
        if is_some (assoc "," members)
        then inl (AttributeError "'dict' object has no attribute 'split'")
        else inl (TypeError
               "argument should be a bytes-like object or ASCII string, not 'dict'")
    | other =>
        inl (TypeError
               ("argument of type '" ++ type_name other ++
                "' is not iterable"))
    end.

(** The [try] block once [payload] is bound. *)
Definition serve (payload : json) : exn + response :=
  req_id <- dict_get payload "id" ;;
  image_data <- dict_get payload "image" ;;
  frame <- decode_image image_data ;;
  r <- snd (process_frame detectMultiScale model EMOTION_MODE frame) ;;
  inr {| resp_id := req_id;
         resp_error := None;
         resp_faces := fr_faces r;
         resp_dominantEmotion := fr_dominant r;
         resp_frame := Some (fr_dims r);
         resp_debug := Some (fr_debug r) |}.

Definition error_response (id : json) (e : exn) : response :=
  {| resp_id := id;
     resp_error := Some (str e);
     resp_faces := [];
     resp_dominantEmotion := None;
     resp_frame := None;
     resp_debug := None |}.

(** The [except Exception as e] handler.  [bound] is the local variable
    [payload]: [None] while it is unbound, else the value that the last
    successful [json.loads] gave it, in this iteration or an earlier one.
    The handler itself raises when that value has no [get]. *)
Definition handler (bound : option json) (e : exn) : exn + response :=
  match bound with
  | None => inr (error_response JNull e)
  | Some payload =>
      id <- dict_get payload "id" ;;
      inr (error_response id e)
  end.

(** One iteration on a stripped, non-empty line: the new binding of
    [payload], and the line printed or the exception that leaves the
    loop. *)
Definition handle_line (bound : option json) (line : string)
  : option json * (exn + response) :=
  match json_loads line with
  | inl e => (bound, handler bound e)
  | inr payload =>
      match serve payload with
      | inr out => (Some payload, inr out)
      | inl e => (Some payload, handler (Some payload) e)
      end
  end.

Fixpoint main_loop_from (bound : option json) (stdin : list string)
  : list response * option exn :=
  match stdin with
  | [] => ([], None)
  | line :: rest =>
      let line := strip line in
      if String.eqb line "" then main_loop_from bound rest
      else
        match handle_line bound line with
        | (bound', inr out) =>
            match print_json out with
            | inr _ =>
                let '(outs, raised) := main_loop_from bound' rest in
                (out :: outs, raised)
            | inl e => ([], Some e)
            end
        | (_, inl e) => ([], Some e)
        end
  end.

(** [main_loop]: the lines printed, and the exception that ended the loop,
    if one did.  The printing is outside the [try] block: an exception of
    [print] or of the handler leaves the loop. *)
Definition main_loop (stdin : list string) : list response * option exn :=
  main_loop_from None stdin.

End Service.

(** ** Vocabulary of the properties *)

(** A classifier output that the region loop reads: a localized one (a box
    whose confidence and class convert) or the region-wide one of a result
    without boxes (with confidence 0.0 when [top1conf] is [None]). *)
Inductive output : Type :=
| Localized (conf : Q) (cls : Z)
| RegionWide (conf : Q) (cls : Z).

Definition out_conf (o : output) : Q :=
  match o with Localized c _ | RegionWide c _ => c end.

Definition out_cls (o : output) : Z :=
  match o with Localized _ i | RegionWide _ i => i end.

Definition box_outputs (bs : list yolo_box) : list output :=
  flat_map
    (fun b =>
       match b_conf b, b_cls b with
       | Some c, Some i => [Localized c i]
       | _, _ => []
       end) bs.

Definition result_outputs (r : yolo_result) : list output :=
  match boxes r with
  | Some (b :: bs) => box_outputs (b :: bs)
  | _ =>
      match probs r with
      | Some (Probs (Some i) c) =>
          [RegionWide (match c with Some c => c | None => 0%Q end) i]
      | _ => []
      end
  end.

(** The outputs of one classifier call, in the order of the loop. *)
Definition outputs (results : list yolo_result) : list output :=
  flat_map result_outputs results.

Definition has_label (l : Emotion) (d : detection) : bool :=
  match emotion d with
  | Some e => Emotion_eqb e l
  | None => false
  end.

(** The number of detections labelled [l]. *)
Definition occurrences (l : Emotion) (faces : list detection) : nat :=
  List.length (filter (has_label l) faces).

(** The index of the first detection labelled [l]; the length of the list
    when there is none. *)
Fixpoint first_seen (l : Emotion) (faces : list detection) : nat :=
  match faces with
  | [] => 0%nat
  | d :: rest => if has_label l d then 0%nat else S (first_seen l rest)
  end.

(** The counts of the labels of a list of detections. *)
Definition tally (faces : list detection) : list (Emotion * nat) :=
  fold_left count_result faces [].

(** A line of the input that is not blank once stripped. *)
Definition nonblank (line : string) : bool :=
  negb (String.eqb (strip line) "").

(** The response [out] carries what [process_frame] returned as [r]. *)
Definition response_of (r : frame_result) (out : response) : Prop :=
  resp_error out = None /\
  resp_faces out = fr_faces r /\
  resp_dominantEmotion out = fr_dominant r /\
  resp_frame out = Some (fr_dims r) /\
  resp_debug out = Some (fr_debug r).

(** A response of the failure branch: [error] set, no face, no dominant
    emotion. *)
Definition failure_response (out : response) : Prop :=
  resp_error out <> None /\ resp_faces out = [] /\
  resp_dominantEmotion out = None.

(** The value bound to [payload] has the method [get]. *)
Definition object_bound (bound : option json) : Prop :=
  match bound with
  | None => True
  | Some (JObj _) => True
  | Some _ => False
  end.

(** The line is no JSON text, or the text of a JSON object. *)
Definition object_line (json_loads : string -> exn + json) (line : string)
  : Prop :=
  match json_loads (strip line) with
  | inl _ => True
  | inr (JObj _) => True
  | inr _ => False
  end.

(** Every localized output carries an index of the eight labels. *)
Definition localized_in_range (outs : list output) : Prop :=
  forall c i, In (Localized c i) outs -> label_of i <> None.

(** The label kept by the scan comes from a labelled output of positive
    confidence among [outs]. *)
Definition label_sound (outs : list output) (st : region_best) : Prop :=
  (0 <= best_conf st)%Q /\
  forall l, best_emotion st = Some l ->
            exists o, In o outs /\ label_of (out_cls o) = Some l /\
                      (0 < out_conf o)%Q.

(** The scan holds a best labelled output of [outs]: its confidence bounds
    the confidence of every labelled output, and the label kept is the label
    of an output of that confidence; no label is kept, and the confidence is
    still 0.0, when no labelled output has a positive confidence. *)
Definition best_labelled (outs : list output) (st : region_best) : Prop :=
  (forall o, In o outs -> label_of (out_cls o) <> None ->
             (out_conf o <= best_conf st)%Q) /\
  match best_emotion st with
  | Some l =>
      exists o, In o outs /\ label_of (out_cls o) = Some l /\
                out_conf o = best_conf st /\ (0 < best_conf st)%Q
  | None => best_conf st = 0%Q
  end.

(** The count that the dictionary holds for [k]: [m.get(k, 0)]. *)
Fixpoint count_of (k : Emotion) (m : list (Emotion * nat)) : nat :=
  match m with
  | [] => 0%nat
  | (k', n) :: m' => if Emotion_eqb k k' then n else count_of k m'
  end.

(** What the dictionary of counts [T] is for the detections [fs]: distinct
    keys, positive counts, the count of every label, and keys in the order
    of the labels' first occurrences. *)
Definition tally_ok (fs : list detection) (T : list (Emotion * nat)) : Prop :=
  NoDup (map fst T) /\
  Forall (fun kv => (0 < snd kv)%nat) T /\
  (forall k, count_of k T = occurrences k fs) /\
  (forall KA k KB k' KC,
      map fst T = (KA ++ k :: KB ++ k' :: KC)%list ->
      (first_seen k fs < first_seen k' fs)%nat).

(** [l] is the majority label of [faces]: it occurs, no label occurs more
    often, and every other label that occurs as often is first seen later. *)
Definition majority_first (l : Emotion) (faces : list detection) : Prop :=
  (0 < occurrences l faces)%nat /\
  (forall l', (occurrences l' faces <= occurrences l faces)%nat) /\
  (forall l', l' <> l -> occurrences l' faces = occurrences l faces ->
              (first_seen l faces < first_seen l' faces)%nat).

(** The colour that goes with the label of a detection. *)
Definition color_of (label : option Emotion) : string :=
  match label with
  | Some e => bgr_to_rgb_hex (colors_bgr e)
  | None => "#FFFFFF"
  end.

(** A detection of the region loop: no [source] key, and the colour of its
    label. *)
Definition region_detection (d : detection) : Prop :=
  source d = None /\ color d = color_of (emotion d).

(** A detection of the direct attempt. *)
Definition direct_detection (d : detection) : Prop :=
  source d = Some "direct" /\ color d = color_of (emotion d) /\
  emotion d <> None.




(** The corners of a detection lie in the frame of [dims = (width, height)]
    and are ordered. *)
Definition in_bounds (dims : nat * nat) (d : detection) : Prop :=
  0 <= x1 d <= x2 d /\ x2 d <= Z.of_nat (fst dims) /\
  0 <= y1 d <= y2 d /\ y2 d <= Z.of_nat (snd dims).


(** ** Concrete scenarios *)

Module Scenario.

(** A black frame of 640 by 480 pixels. *)
Definition frame : ndarray :=
  {| nd_rows := 480; nd_cols := 640; nd_at := fun _ _ => (0, 0, 0)%N |}.

Definition is_frame (img : ndarray) : bool :=
  ((nd_rows img =? 480) && (nd_cols img =? 640))%nat.

(** A classifier that answers [roi] on a crop and, on the whole frame,
    [full] at the floor 0.05 and [direct] at the floor 0.25. *)
Definition model_of (roi full direct : exn + list yolo_result)
    (img : ndarray) (conf : Q) : exn + list yolo_result :=
  if is_frame img then
    if Qeq_bool conf (25 # 100) then direct else full
  else roi.

(** A proposer that finds the faces [faces] in every image. *)
Definition proposer_of (faces : list (Z * Z * Z * Z)) (gray : ndarray)
  : exn + list (Z * Z * Z * Z) := inr faces.

Definition one_face : list (Z * Z * Z * Z) := [(100, 100, 120, 120)].

(** A result with the localized outputs [bs] and no [probs]. *)
Definition localized (bs : list yolo_box) : yolo_result :=
  {| boxes := Some bs; probs := None |}.

Definition box_of (conf : Q) (cls : Z) : yolo_box :=
  {| b_conf := Some conf; b_cls := Some cls; b_xyxy := None |}.

Definition RuntimeError (msg : string) : exn :=
  {| exn_type := "RuntimeError"; exn_msg := msg |}.

(** [json.loads] on the few lines of the scenarios. *)
Definition loads_of (table : list (string * json)) (line : string)
  : exn + json :=
  match assoc line table with
  | Some v => inr v
  | None =>
      inl {| exn_type := "JSONDecodeError";
             exn_msg := "Expecting value: line 1 column 1 (char 0)" |}
  end.

(** A decoder pair under which the payload [ok] is the frame [frame]. *)
Definition b64_of (data : string) : exn + string := inr data.
Definition imdecode_of (ok : string) (img_bytes : string)
  : exn + option ndarray :=
  if String.eqb img_bytes ok then inr (Some frame) else inr None.

(** Hybrid mode: the region and the whole frame give nothing at the floor
    0.05, and the direct attempt finds Fear twice, once in a box that
    leaves the frame on the right. *)
Definition hybrid_model : ndarray -> Q -> exn + list yolo_result :=
  model_of (inr []) (inr [])
           (inr [localized
                   [box_of (4 # 10) 3;
                    {| b_conf := Some (5 # 10); b_cls := Some 3;
                       b_xyxy := Some (21 # 2, 81 # 4, 700 # 1, 300 # 1) |}]]).

Definition fear_detection (bx1 by1 bx2 by2 : Z) (conf : Q) : detection :=
  {| x1 := bx1; y1 := by1; x2 := bx2; y2 := by2; emotion := Some Fear;
     confidence := conf; color := "#FFFF00"; source := Some "direct" |}.

Definition hybrid_log : list call :=
  [ProposeRegions; ClassifyRegion; ClassifyFallback; ClassifyDirect].

Definition unlabelled_debug : face_debug :=
  {| faceRect := (80, 80, 240, 240); roiBoxes := 0;
     bestConf := 0 # 10000; fallbackFullBoxes := Some 0%nat;
     fallbackUsed := false; fallbackBestConf := None;
     fallbackError := None; dbg_classification := false |}.

Definition hybrid_result : frame_result :=
  {| fr_faces := [fear_detection 0 0 640 480 (4000 # 10000);
                  fear_detection 10 20 640 300 (5000 # 10000)];
     fr_dominant := Some Fear;
     fr_dims := (640%nat, 480%nat);
     fr_debug := [FaceDebug unlabelled_debug; DirectDetections 2] |}.

(** Cascade mode: neither the region nor the whole frame gives a label. *)
Definition silent_model : ndarray -> Q -> exn + list yolo_result :=
  model_of (inr []) (inr []) (inr []).

Definition unlabelled_detection : detection :=
  {| x1 := 80; y1 := 80; x2 := 240; y2 := 240; emotion := None;
     confidence := 0 # 10000; color := "#FFFFFF"; source := None |}.

Definition silent_log : list call :=
  [ProposeRegions; ClassifyRegion; ClassifyFallback].

Definition silent_result : frame_result :=
  {| fr_faces := [unlabelled_detection];
     fr_dominant := None;
     fr_dims := (640%nat, 480%nat);
     fr_debug := [FaceDebug unlabelled_debug] |}.

(** Outputs of one region: Happy at 0.5 and Sad at 0.8, localized, and in
    a second result a region-wide output of the index 9 at 0.99. *)
Definition labelled_results : list yolo_result :=
  [localized [box_of (5 # 10) 4; box_of (8 # 10) 6];
   {| boxes := None; probs := Some (Probs (Some 9) (Some (99 # 100))) |}].

(** One localized output, of the index 8, at 0.9. *)
Definition out_of_range_results : list yolo_result :=
  [localized [box_of (9 # 10) 8]].

(** Cascade mode: nothing on the region, Sad at 0.4 on the whole frame. *)
Definition fallback_model : ndarray -> Q -> exn + list yolo_result :=
  model_of (inr []) (inr [localized [box_of (4 # 10) 6]]) (inr []).

Definition sad_detection : detection :=
  {| x1 := 80; y1 := 80; x2 := 240; y2 := 240; emotion := Some Sad;
     confidence := 4000 # 10000; color := "#0000FF"; source := None |}.

Definition fallback_debug : face_debug :=
  {| faceRect := (80, 80, 240, 240); roiBoxes := 0;
     bestConf := 0 # 10000; fallbackFullBoxes := Some 1%nat;
     fallbackUsed := true; fallbackBestConf := Some (4000 # 10000);
     fallbackError := None; dbg_classification := false |}.

Definition fallback_result : frame_result :=
  {| fr_faces := [sad_detection];
     fr_dominant := Some Sad;
     fr_dims := (640%nat, 480%nat);
     fr_debug := [FaceDebug fallback_debug] |}.

(** Cascade mode: the classifier raises on the region. *)
Definition failing_model : ndarray -> Q -> exn + list yolo_result :=
  model_of (inl (RuntimeError "boom")) (inr []) (inr []).

Definition failing_result : frame_result :=
  {| fr_faces := [];
     fr_dominant := None;
     fr_dims := (640%nat, 480%nat);
     fr_debug := [] |}.

(** The lines of a session. *)
Definition newline : string := String (ascii_of_nat 10) EmptyString.

Definition quoted (s : string) : string :=
  String (ascii_of_nat 34) s ++ String (ascii_of_nat 34) EmptyString.

(** The text of an object with the members [id] and [image]. *)
Definition request_text : string :=
  "{" ++ quoted "id" ++ ": " ++ quoted "a" ++ ", " ++
  quoted "image" ++ ": " ++ quoted "AAAA" ++ "}".

Definition session_loads : string -> exn + json :=
  loads_of [("null", JNull);
            (request_text, JObj [("id", JStr "a"); ("image", JStr "AAAA")])].

(** The loop of the service on the silent classifier, in cascade mode. *)
(** An output on which every response can be written. *)
Definition print_ok (out : response) : exn + unit := inr tt.

Definition session (stdin : list string) : list response * option exn :=
  main_loop (proposer_of one_face) silent_model "cascade" session_loads
            b64_of (imdecode_of "AAAA") print_ok stdin.

Definition silent_response : response :=
  {| resp_id := JStr "a"; resp_error := None;
     resp_faces := [unlabelled_detection];
     resp_dominantEmotion := None;
     resp_frame := Some (640%nat, 480%nat);
     resp_debug := Some [FaceDebug unlabelled_debug] |}.

End Scenario.

(** ** Vocabulary of the further properties *)

(** The value of an upper-case hexadecimal digit. *)
Definition hex_value (c : ascii) : option N :=
  let n := N_of_ascii c in
  if ((48 <=? n) && (n <=? 57))%N then Some (n - 48)%N
  else if ((65 <=? n) && (n <=? 70))%N then Some (n - 55)%N
  else None.

(** The number that two hexadecimal digits write. *)
Definition parse_hex2 (s : string) : option N :=
  match s with
  | String a (String b EmptyString) =>
      match hex_value a, hex_value b with
      | Some x, Some y => Some (16 * x + y)%N
      | _, _ => None
      end
  | _ => None
  end.

(** The reading of a colour ["#RRGGBB"] back into [(b, g, r)]. *)
Definition rgb_hex_to_bgr (s : string) : option (N * N * N) :=
  match s with
  | String c rest =>
      if (Ascii.eqb c "#"%char && (String.length rest =? 6)%nat)%bool then
        match parse_hex2 (substring 0 2 rest),
              parse_hex2 (substring 2 2 rest),
              parse_hex2 (substring 4 2 rest) with
        | Some r, Some g, Some b => Some (b, g, r)
        | _, _, _ => None
        end
      else None
  | EmptyString => None
  end.

(** The index of a label in [emotions]. *)
Definition emotion_index (e : Emotion) : Z :=
  match e with
  | Anger => 0 | Contempt => 1 | Disgust => 2 | Fear => 3
  | Happy => 4 | Neutral => 5 | Sad => 6 | Surprise => 7
  end.

(** A result without its region-wide output. *)
Definition without_probs (r : yolo_result) : yolo_result :=
  {| boxes := boxes r; probs := None |}.

Definition is_localized (o : output) : bool :=
  match o with Localized _ _ => true | RegionWide _ _ => false end.

(** The text holds no comma. *)
Fixpoint no_comma (s : string) : bool :=
  match s with
  | EmptyString => true
  | String c rest => negb (Ascii.eqb c ","%char) && no_comma rest
  end.

(** The diagnostics record [r] is the one of the detection [det]: a face
    record whose [faceRect], clamped to the frame, is the box of the
    detection, and whose confidence is the confidence of the detection
    ([fallbackBestConf] when the fallback was used, [bestConf] otherwise). *)
Definition entry_of (frame_bgr : ndarray) (det : detection)
    (r : debug_record) : Prop :=
  match r with
  | FaceDebug dbg =>
      let '(rx1, ry1, rx2, ry2) := faceRect dbg in
      x1 det = Z.max 0 (Z.min rx1 (Z.of_nat (nd_cols frame_bgr) - 1)) /\
      y1 det = Z.max 0 (Z.min ry1 (Z.of_nat (nd_rows frame_bgr) - 1)) /\
      x2 det = Z.max 0 (Z.min rx2 (Z.of_nat (nd_cols frame_bgr))) /\
      y2 det = Z.max 0 (Z.min ry2 (Z.of_nat (nd_rows frame_bgr))) /\
      if fallbackUsed dbg
      then emotion det <> None /\
           fallbackBestConf dbg = Some (confidence det)
      else confidence det = bestConf dbg
  | _ => False
  end.

(** [d.get(key)] on the members of a dictionary: [None] for a key that is
    not there. *)
Definition member (key : string) (members : list (string * json)) : json :=
  match assoc key members with
  | Some v => v
  | None => JNull
  end.

(** The encoded payload of an image string: what follows the first comma,
    or the whole string when it has no comma. *)
Definition payload_data (s : string) : string :=
  match after_comma s with
  | Some rest => rest
  | None => s
  end.

(** The response of the success branch. *)
Definition success_response (id : json) (r : frame_result) : response :=
  {| resp_id := id;
     resp_error := None;
     resp_faces := fr_faces r;
     resp_dominantEmotion := fr_dominant r;
     resp_frame := Some (fr_dims r);
     resp_debug := Some (fr_debug r) |}.

(** ** Lines of further sessions *)

Module Lines.

Definition field (key value : string) : string :=
  Scenario.quoted key ++ ": " ++ Scenario.quoted value.

(** A request whose image is a data URL. *)
Definition url_text : string :=
  "{" ++ field "id" "u" ++ ", " ++
  field "image" "data:image/jpeg;base64,AAAA" ++ "}".

(** A request without the member [image]. *)
Definition noimage_text : string := "{" ++ field "id" "b" ++ "}".

(** A request whose payload is no image. *)
Definition badimage_text : string :=
  "{" ++ field "id" "c" ++ ", " ++ field "image" "ZZZZ" ++ "}".

Definition url_members : list (string * json) :=
  [("id", JStr "u"); ("image", JStr "data:image/jpeg;base64,AAAA")].
Definition noimage_members : list (string * json) := [("id", JStr "b")].
Definition badimage_members : list (string * json) :=
  [("id", JStr "c"); ("image", JStr "ZZZZ")].

Definition loads : string -> exn + json :=
  Scenario.loads_of
    [(url_text, JObj url_members);
     (noimage_text, JObj noimage_members);
     (badimage_text, JObj badimage_members)].

Definition JSONDecodeError : exn :=
  {| exn_type := "JSONDecodeError";
     exn_msg := "Expecting value: line 1 column 1 (char 0)" |}.

(** The loop from the binding [bound] of [payload], on the silent
    classifier in cascade mode. *)
Definition loop_from (bound : option json) (stdin : list string)
  : list response * option exn :=
  main_loop_from (Scenario.proposer_of Scenario.one_face)
                 Scenario.silent_model "cascade" loads Scenario.b64_of
                 (Scenario.imdecode_of "AAAA") Scenario.print_ok bound stdin.

(** The same loop with a proposer that raises. *)
Definition failing_proposer (gray : ndarray) : exn + list (Z * Z * Z * Z) :=
  inl (Scenario.RuntimeError "cascade not loaded").

(** A classifier that raises on the whole frame at the floor 0.25 (and
    at the floor 0.05). *)
Definition direct_failing_model : ndarray -> Q -> exn + list yolo_result :=
  Scenario.model_of (inr []) (inr [])
                    (inl (Scenario.RuntimeError "direct down")).

Definition fallback_failing_model : ndarray -> Q -> exn + list yolo_result :=
  Scenario.model_of (inr []) (inl (Scenario.RuntimeError "frame down"))
                    (inr []).

Definition direct_failure_result : frame_result :=
  {| fr_faces := [Scenario.unlabelled_detection];
     fr_dominant := None;
     fr_dims := (640%nat, 480%nat);
     fr_debug := [FaceDebug Scenario.unlabelled_debug;
                  DirectError "direct down"] |}.

(** What the mode [direct] returns on the classifier of the hybrid
    scenario. *)
Definition direct_result : frame_result :=
  {| fr_faces := fr_faces Scenario.hybrid_result;
     fr_dominant := Some Fear;
     fr_dims := (640%nat, 480%nat);
     fr_debug := [DirectDetections 2] |}.

(** A line of a space, U+00A0, U+2003 and the end of line. *)
Definition blank_line : string :=
  " " ++ String (ascii_of_nat 194) (String (ascii_of_nat 160) EmptyString)
      ++ String (ascii_of_nat 226)
           (String (ascii_of_nat 128) (String (ascii_of_nat 131) EmptyString))
      ++ Scenario.newline.
Definition url_line : string := url_text ++ Scenario.newline.
Definition noimage_line : string := noimage_text ++ Scenario.newline.
Definition badimage_line : string := badimage_text ++ Scenario.newline.
Definition garbage_line : string := "not json" ++ Scenario.newline.

(** An output that cannot take the text of any response. *)
Definition UnicodeEncodeError : exn :=
  {| exn_type := "UnicodeEncodeError";
     exn_msg := "'utf-8' codec can't encode character: surrogates not allowed" |}.

Definition print_failing (out : response) : exn + unit :=
  inl UnicodeEncodeError.




End Lines.

(** The localized outputs that the direct attempt reads: the boxes, whose
    confidence and class convert, of the results that have boxes. *)
Definition direct_outputs (direct_results : list yolo_result) : list output :=
  flat_map
    (fun dr =>
       match boxes dr with
       | Some dboxes => box_outputs dboxes
       | None => []
       end) direct_results.

Definition has_valid_label (o : output) : bool := is_some (label_of (out_cls o)).

(** The scan keeps the first of the labelled outputs of the highest
    confidence: the labelled outputs before it have a strictly lower
    confidence, the ones after it a confidence that is not higher. *)
Definition first_best (outs : list output) (st : region_best) : Prop :=
  match best_emotion st with
  | Some l =>
      exists before o after,
        outs = (before ++ o :: after)%list /\
        label_of (out_cls o) = Some l /\
        out_conf o = best_conf st /\
        (forall a, In a before -> label_of (out_cls a) <> None ->
                   (out_conf a < best_conf st)%Q) /\
        (forall a, In a after -> label_of (out_cls a) <> None ->
                   (out_conf a <= best_conf st)%Q)
  | None =>
      forall a, In a outs -> label_of (out_cls a) <> None ->
                (out_conf a <= best_conf st)%Q
  end.

(** What the loop gives when the response [out] is handed to [print] and
    the rest of the input gives [later]: the response and the later ones, or
    nothing and the exception of [print]. *)
Definition printed (print_json : response -> exn + unit) (out : response)
    (later : list response * option exn) : list response * option exn :=
  match print_json out with
  | inr _ => (out :: fst later, snd later)
  | inl e => ([], Some e)
  end.

(** The four coordinates of a detection lie in the frame of
    [dims = (width, height)]. *)
Definition in_frame (dims : nat * nat) (d : detection) : Prop :=
  0 <= x1 d <= Z.of_nat (fst dims) /\ 0 <= x2 d <= Z.of_nat (fst dims) /\
  0 <= y1 d <= Z.of_nat (snd dims) /\ 0 <= y2 d <= Z.of_nat (snd dims).

(** * Properties *)

Local Open Scope list_scope.

(** ** Labels *)

Lemma Emotion_eqb_eq (a b : Emotion) : Emotion_eqb a b = true <-> a = b.
Proof. destruct a, b; simpl; split; intro H; try reflexivity; discriminate H. Qed.

Lemma Emotion_eqb_refl (a : Emotion) : Emotion_eqb a a = true.
Proof. now apply Emotion_eqb_eq. Qed.

Lemma Emotion_eqb_neq (a b : Emotion) : Emotion_eqb a b = false <-> a <> b.
Proof.
  split.
  - intros H E. apply Emotion_eqb_eq in E. congruence.
  - intro H. destruct (Emotion_eqb a b) eqn:E; [|reflexivity].
    apply Emotion_eqb_eq in E. contradiction.
Qed.

Lemma Qgtb_lt (a b : Q) : Qgtb a b = true <-> (b < a)%Q.
Proof.
  unfold Qgtb. rewrite negb_true_iff. split.
  - intro H. apply Qnot_le_lt. intro L. apply Qle_bool_iff in L. congruence.
  - intro H. destruct (Qle_bool a b) eqn:E; [|reflexivity].
    apply Qle_bool_iff in E. exfalso. exact (Qlt_not_le _ _ H E).
Qed.

Lemma Qgtb_le (a b : Q) : Qgtb a b = false <-> (a <= b)%Q.
Proof.
  unfold Qgtb. rewrite negb_false_iff. apply Qle_bool_iff.
Qed.

(** ** The dictionary of counts *)

Lemma counts_incr_keys (k : Emotion) (m : list (Emotion * nat)) :
  map fst (counts_incr k m) =
  if existsb (Emotion_eqb k) (map fst m) then map fst m
  else map fst m ++ [k].
Proof.
  induction m as [|[k' n] m IH]; simpl; [reflexivity|].
  destruct (Emotion_eqb k k') eqn:E; simpl; [reflexivity|].
  rewrite IH. now destruct (existsb (Emotion_eqb k) (map fst m)).
Qed.

Lemma counts_incr_nodup (k : Emotion) (m : list (Emotion * nat)) :
  NoDup (map fst m) -> NoDup (map fst (counts_incr k m)).
Proof.
  intro H. rewrite counts_incr_keys.
  destruct (existsb (Emotion_eqb k) (map fst m)) eqn:E; [exact H|].
  apply NoDup_app; [exact H | repeat constructor; intros [] | ].
  intros x Hx [Hk|[]]. subst x.
  assert (existsb (Emotion_eqb k) (map fst m) = true); [|congruence].
  apply existsb_exists. exists k. split; [exact Hx|apply Emotion_eqb_refl].
Qed.

Lemma counts_incr_positive (k : Emotion) (m : list (Emotion * nat)) :
  Forall (fun kv => (0 < snd kv)%nat) m ->
  Forall (fun kv => (0 < snd kv)%nat) (counts_incr k m).
Proof.
  induction 1 as [|[k' n] m Hn Hm IH]; simpl.
  - repeat constructor.
  - destruct (Emotion_eqb k k'); constructor; simpl in *; auto; lia.
Qed.

Lemma count_of_incr (k k' : Emotion) (m : list (Emotion * nat)) :
  count_of k (counts_incr k' m) =
  if Emotion_eqb k k' then S (count_of k m) else count_of k m.
Proof.
  induction m as [|[k0 n] m IH]; simpl.
  - now destruct (Emotion_eqb k k').
  - destruct (Emotion_eqb k' k0) eqn:E0; simpl.
    + apply Emotion_eqb_eq in E0. subst k0.
      now destruct (Emotion_eqb k k').
    + destruct (Emotion_eqb k k0) eqn:E1.
      * apply Emotion_eqb_eq in E1. subst k0.
        destruct (Emotion_eqb k k') eqn:E2; [|reflexivity].
        apply Emotion_eqb_eq in E2. subst k'.
        rewrite Emotion_eqb_refl in E0. discriminate.
      * exact IH.
Qed.

Lemma count_of_in (k : Emotion) (n : nat) (m : list (Emotion * nat)) :
  NoDup (map fst m) -> In (k, n) m -> count_of k m = n.
Proof.
  induction m as [|[k0 n0] m IH]; simpl; [tauto|].
  intros Hnd [H|H].
  - inversion H; subst. now rewrite Emotion_eqb_refl.
  - inversion Hnd as [|? ? Hk Hm]; subst.
    destruct (Emotion_eqb k k0) eqn:E.
    + apply Emotion_eqb_eq in E. subst k0. exfalso. apply Hk.
      change k with (fst (k, n)). now apply in_map.
    + now apply IH.
Qed.

Lemma count_of_positive_in (k : Emotion) (m : list (Emotion * nat)) :
  (0 < count_of k m)%nat -> In (k, count_of k m) m.
Proof.
  induction m as [|[k0 n0] m IH]; simpl; [lia|].
  destruct (Emotion_eqb k k0) eqn:E.
  - apply Emotion_eqb_eq in E. subst k0. now left.
  - intro H. right. now apply IH.
Qed.

(** ** Occurrences and first occurrences *)

Lemma occurrences_app (l : Emotion) (fs gs : list detection) :
  occurrences l (fs ++ gs) = (occurrences l fs + occurrences l gs)%nat.
Proof. unfold occurrences. now rewrite filter_app, length_app. Qed.

Lemma occurrences_one (l : Emotion) (d : detection) :
  occurrences l [d] = if has_label l d then 1%nat else 0%nat.
Proof. unfold occurrences. simpl. now destruct (has_label l d). Qed.

Lemma first_seen_le (l : Emotion) (fs : list detection) :
  (first_seen l fs <= List.length fs)%nat.
Proof.
  induction fs as [|d fs IH]; simpl; [lia|].
  destruct (has_label l d); lia.
Qed.

Lemma first_seen_occurs (l : Emotion) (fs : list detection) :
  (0 < occurrences l fs)%nat <-> (first_seen l fs < List.length fs)%nat.
Proof.
  unfold occurrences.
  induction fs as [|d fs IH]; simpl; [lia|].
  destruct (has_label l d); simpl; lia.
Qed.

Lemma first_seen_app_seen (l : Emotion) (fs gs : list detection) :
  (first_seen l fs < List.length fs)%nat ->
  first_seen l (fs ++ gs) = first_seen l fs.
Proof.
  induction fs as [|d fs IH]; simpl; [lia|].
  destruct (has_label l d); [reflexivity|].
  intro H. f_equal. apply IH. lia.
Qed.

Lemma first_seen_app_unseen (l : Emotion) (fs gs : list detection) :
  first_seen l fs = List.length fs ->
  first_seen l (fs ++ gs) = (List.length fs + first_seen l gs)%nat.
Proof.
  induction fs as [|d fs IH]; simpl; [reflexivity|].
  destruct (has_label l d); [discriminate|].
  intro H. f_equal. apply IH. lia.
Qed.

Lemma occurrences_in (l : Emotion) (fs : list detection) :
  (0 < occurrences l fs)%nat <-> exists d, In d fs /\ emotion d = Some l.
Proof.
  unfold occurrences. split.
  - intro H. destruct (filter (has_label l) fs) as [|d rest] eqn:E;
      [simpl in H; lia|].
    assert (Hd : In d (filter (has_label l) fs)) by (rewrite E; now left).
    apply filter_In in Hd. destruct Hd as [Hin Hl].
    exists d. split; [exact Hin|].
    unfold has_label in Hl. destruct (emotion d) as [e|]; [|discriminate].
    apply Emotion_eqb_eq in Hl. now subst.
  - intros [d [Hin He]].
    assert (Hd : In d (filter (has_label l) fs)).
    { apply filter_In. split; [exact Hin|].
      unfold has_label. rewrite He. apply Emotion_eqb_refl. }
    destruct (filter (has_label l) fs); [destruct Hd|simpl; lia].
Qed.

(** ** The counts are the tally of the detections *)

Lemma count_of_notin (k : Emotion) (m : list (Emotion * nat)) :
  ~ In k (map fst m) -> count_of k m = 0%nat.
Proof.
  induction m as [|[k0 n0] m IH]; simpl; [reflexivity|].
  intro H. destruct (Emotion_eqb k k0) eqn:E.
  - apply Emotion_eqb_eq in E. subst. tauto.
  - apply IH. tauto.
Qed.

Lemma snoc_split {A : Type} (KA KB KC keys : list A) (k k' e : A) :
  KA ++ k :: KB ++ k' :: KC = keys ++ [e] ->
  (KC = [] /\ k' = e /\ keys = KA ++ k :: KB) \/
  (exists KC', KC = KC' ++ [e] /\ keys = KA ++ k :: KB ++ k' :: KC').
Proof.
  intro H. destruct (exists_last (l := k' :: KC)) as [front [z Hz]];
    [discriminate|].
  destruct KC as [|c KC].
  - left. replace (KA ++ k :: KB ++ [k']) with ((KA ++ k :: KB) ++ [k']) in H
      by (rewrite <- app_assoc; reflexivity).
    apply app_inj_tail in H. destruct H as [H1 H2]. now subst.
  - right. destruct (exists_last (l := c :: KC)) as [KC' [z' Hz']];
      [discriminate|].
    rewrite Hz' in H.
    replace (KA ++ k :: KB ++ k' :: KC' ++ [z'])
      with ((KA ++ k :: KB ++ k' :: KC') ++ [z']) in H
      by (rewrite <- app_assoc; simpl; rewrite <- app_assoc; reflexivity).
    apply app_inj_tail in H. destruct H as [H1 H2]. subst z'.
    exists KC'. split; [exact Hz'|now symmetry].
Qed.

Lemma tally_key_seen (fs : list detection) (T : list (Emotion * nat)) k :
  tally_ok fs T -> In k (map fst T) ->
  (first_seen k fs < List.length fs)%nat.
Proof.
  intros (Hnd & Hpos & Hcount & _) Hk.
  apply in_map_iff in Hk. destruct Hk as [[k0 n] [Hfst Hin]].
  simpl in Hfst. subst k0.
  apply first_seen_occurs. rewrite <- Hcount.
  rewrite (count_of_in k n T Hnd Hin).
  rewrite Forall_forall in Hpos. exact (Hpos _ Hin).
Qed.

Lemma tally_ok_nil : tally_ok [] [].
Proof.
  repeat split; try constructor.
  intros KA k KB k' KC H. simpl in H. destruct KA; discriminate H.
Qed.

Lemma tally_ok_snoc (fs : list detection) (T : list (Emotion * nat)) d :
  tally_ok fs T -> tally_ok (fs ++ [d]) (count_result T d).
Proof.
  intro HT. pose proof HT as (Hnd & Hpos & Hcount & Hord).
  assert (Hkeep : forall KA k KB k' KC,
             map fst T = KA ++ k :: KB ++ k' :: KC ->
             (first_seen k (fs ++ [d]) < first_seen k' (fs ++ [d]))%nat).
  { intros KA k KB k' KC Hs.
    assert (Hk : In k (map fst T))
      by (rewrite Hs; apply in_or_app; right; now left).
    assert (Hk' : In k' (map fst T))
      by (rewrite Hs; apply in_or_app; right; right;
          apply in_or_app; right; now left).
    rewrite !first_seen_app_seen by (eapply tally_key_seen; eauto).
    eapply Hord; eauto. }
  unfold count_result. destruct (emotion d) as [e|] eqn:He.
  - repeat split.
    + now apply counts_incr_nodup.
    + now apply counts_incr_positive.
    + intro k. rewrite count_of_incr, occurrences_app, Hcount.
      rewrite occurrences_one. unfold has_label. rewrite He.
      destruct (Emotion_eqb k e) eqn:E.
      * apply Emotion_eqb_eq in E. subst. rewrite Emotion_eqb_refl.
        simpl. lia.
      * replace (Emotion_eqb e k) with false; [simpl; lia|].
        symmetry. apply Emotion_eqb_neq. apply Emotion_eqb_neq in E.
        congruence.
    + intros KA k KB k' KC Hs. rewrite counts_incr_keys in Hs.
      destruct (existsb (Emotion_eqb e) (map fst T)) eqn:Ex.
      * eapply Hkeep; eauto.
      * symmetry in Hs. apply snoc_split in Hs.
        destruct Hs as [(-> & -> & Hkeys) | (KC' & -> & Hkeys)].
        -- assert (Hk : In k (map fst T))
             by (rewrite Hkeys; apply in_or_app; right; now left).
           rewrite first_seen_app_seen by (eapply tally_key_seen; eauto).
           assert (Hne : ~ In e (map fst T)).
           { intro Hin.
             assert (existsb (Emotion_eqb e) (map fst T) = true);
               [|congruence].
             apply existsb_exists. exists e. split;
               [exact Hin|apply Emotion_eqb_refl]. }
           assert (Hz : first_seen e fs = List.length fs).
           { pose proof (first_seen_le e fs).
             pose proof (proj2 (first_seen_occurs e fs)).
             rewrite <- Hcount, (count_of_notin _ _ Hne) in H0. lia. }
           rewrite (first_seen_app_unseen e fs [d] Hz).
           pose proof (tally_key_seen fs T k HT Hk). lia.
        -- eapply Hkeep; eauto.
  - repeat split; auto.
    intro k. rewrite occurrences_app, Hcount, occurrences_one.
    unfold has_label. rewrite He. lia.
Qed.

Lemma tally_snoc (fs : list detection) (d : detection) :
  tally (fs ++ [d]) = count_result (tally fs) d.
Proof. unfold tally. now rewrite fold_left_app. Qed.

Lemma tally_spec (fs : list detection) : tally_ok fs (tally fs).
Proof.
  induction fs as [|d fs IH] using rev_ind.
  - apply tally_ok_nil.
  - rewrite tally_snoc. now apply tally_ok_snoc.
Qed.

(** ** The first item of the largest count *)

Lemma max_item_split (items : list (Emotion * nat)) :
  forall (P : list (Emotion * nat)) best M,
    (forall x, In x P -> (snd x < snd best)%nat) ->
    (forall x, In x M -> (snd x <= snd best)%nat) ->
    exists A B,
      P ++ best :: M ++ items = A ++ max_item best items :: B /\
      (forall x, In x A -> (snd x < snd (max_item best items))%nat) /\
      (forall x, In x B -> (snd x <= snd (max_item best items))%nat).
Proof.
  induction items as [|kv rest IH]; intros P best M HP HM; simpl.
  - exists P, M. rewrite app_nil_r. auto.
  - destruct (snd best <? snd kv)%nat eqn:E.
    + apply Nat.ltb_lt in E.
      destruct (IH (P ++ best :: M) kv []) as (A & B & Heq & HA & HB).
      * intros x Hx. apply in_app_or in Hx. destruct Hx as [Hx|[Hx|Hx]].
        -- specialize (HP x Hx). lia.
        -- subst x. exact E.
        -- specialize (HM x Hx). lia.
      * intros x [].
      * exists A, B. split; [|auto]. rewrite <- Heq.
        rewrite <- app_assoc. reflexivity.
    + apply Nat.ltb_ge in E.
      destruct (IH P best (M ++ [kv])) as (A & B & Heq & HA & HB).
      * exact HP.
      * intros x Hx. apply in_app_or in Hx. destruct Hx as [Hx|[Hx|[]]].
        -- now apply HM.
        -- subst x. exact E.
      * exists A, B. split; [|auto]. rewrite <- Heq.
        rewrite <- app_assoc. reflexivity.
Qed.

Lemma dominant_of_tally (fs : list detection) (T : list (Emotion * nat)) l :
  tally_ok fs T -> dominant_of T = Some l -> majority_first l fs.
Proof.
  intros (Hnd & Hpos & Hcount & Hord) Hdom.
  destruct T as [|kv rest]; [discriminate|]. simpl in Hdom.
  destruct (max_item_split rest [] kv []) as (A & B & Heq & HA & HB);
    [intros x []|intros x []|].
  simpl in Heq. remember (max_item kv rest) as r eqn:Hr.
  destruct r as [l0 n]. simpl in Hdom. inversion Hdom; subst l0. clear Hdom.
  simpl in HA, HB.
  assert (Hin : In (l, n) (kv :: rest))
    by (rewrite Heq; apply in_or_app; right; now left).
  assert (Hn : occurrences l fs = n)
    by (rewrite <- Hcount; now apply count_of_in).
  assert (Hn0 : (0 < n)%nat)
    by (rewrite Forall_forall in Hpos; exact (Hpos _ Hin)).
  assert (Hany : forall l', (0 < occurrences l' fs)%nat ->
                   In (l', occurrences l' fs) (A ++ (l, n) :: B)).
  { intros l' H. rewrite <- Heq, <- Hcount.
    apply count_of_positive_in. now rewrite Hcount. }
  unfold majority_first. rewrite Hn. repeat split.
  - exact Hn0.
  - intro l'. destruct (Nat.eq_dec (occurrences l' fs) 0) as [Hz|Hz]; [lia|].
    assert (H : In (l', occurrences l' fs) (A ++ (l, n) :: B))
      by (apply Hany; lia).
    apply in_app_or in H. destruct H as [H|[H|H]].
    + specialize (HA _ H). simpl in HA. lia.
    + inversion H. lia.
    + specialize (HB _ H). simpl in HB. lia.
  - intros l' Hne Heqn.
    assert (H : In (l', occurrences l' fs) (A ++ (l, n) :: B))
      by (apply Hany; lia).
    rewrite Heqn in H.
    apply in_app_or in H. destruct H as [H|[H|H]].
    + specialize (HA _ H). simpl in HA. lia.
    + inversion H. congruence.
    + apply in_split in H. destruct H as (B1 & B2 & ->).
      apply (Hord (map fst A) l (map fst B1) l' (map fst B2)).
      rewrite Heq. rewrite map_app. simpl. rewrite map_app. reflexivity.
Qed.

Lemma dominant_of_none (fs : list detection) (T : list (Emotion * nat)) :
  tally_ok fs T -> dominant_of T = None ->
  forall d, In d fs -> emotion d = None.
Proof.
  intros (_ & _ & Hcount & _) Hdom d Hd.
  destruct T as [|kv rest]; [|discriminate].
  destruct (emotion d) as [e|] eqn:He; [|reflexivity].
  assert (H : (0 < occurrences e fs)%nat)
    by (apply occurrences_in; eauto).
  rewrite <- Hcount in H. simpl in H. lia.
Qed.

(** ** Geometry *)













(** ** The loop over the faces *)

Lemma fold_left_invariant {A B : Type} (f : A -> B -> A) (P : A -> Prop)
    (l : list B) :
  forall a, P a -> (forall a b, In b l -> P a -> P (f a b)) ->
            P (fold_left f l a).
Proof.
  induction l as [|b l IH]; intros a Ha Hstep; simpl; [exact Ha|].
  apply IH.
  - apply Hstep; [now left|exact Ha].
  - intros a' b' Hb'. apply Hstep. now right.
Qed.

(** ** The direct attempt *)

Lemma direct_detections_invariant (P : detection -> Prop) frame :
  (forall picked dbox, Forall P picked ->
                       Forall P (direct_box frame picked dbox)) ->
  forall results, Forall P (direct_detections frame results).
Proof.
  intros Hbox results. unfold direct_detections.
  apply (fold_left_invariant (direct_result frame) (Forall P)).
  - constructor.
  - intros picked dr _ Hp. unfold direct_result.
    destruct (boxes dr) as [dboxes|]; [|exact Hp].
    apply (fold_left_invariant (direct_box frame) (Forall P)); auto.
Qed.

Lemma direct_detections_direct frame results :
  Forall direct_detection (direct_detections frame results).
Proof.
  apply direct_detections_invariant. intros picked dbox Hp.
  unfold direct_box.
  destruct (b_conf dbox) as [conf|]; [|exact Hp].
  destruct (b_cls dbox) as [cls_id|]; [|exact Hp].
  destruct (label_of cls_id) as [e|]; [|exact Hp].
  destruct (match b_xyxy dbox with Some t => t | None => _ end)
    as [[[x1d y1d] x2d] y2d].
  apply Forall_app. split; [exact Hp|].
  constructor; [|constructor].
  unfold direct_detection. simpl. repeat split. discriminate.
Qed.


Section PipelineFacts.

#[local] Set Default Proof Using "Type".

Variable model : ndarray -> Q -> exn + list yolo_result.
Variable EMOTION_MODE : string.

Lemma finish_face_shape frame st rx1 ry1 rx2 ry2 results :
  exists d extra,
    results_output (finish_face model frame st rx1 ry1 rx2 ry2 results) =
      results_output st ++ [d] /\
    emotion_counts (finish_face model frame st rx1 ry1 rx2 ry2 results) =
      count_result (emotion_counts st) d /\
    calls (finish_face model frame st rx1 ry1 rx2 ry2 results) =
      calls st ++ extra /\
    (forall c, In c extra -> c = ClassifyRegion \/ c = ClassifyFallback) /\
    region_detection d /\
    x1 d = Z.max 0 (Z.min rx1 (Z.of_nat (nd_cols frame) - 1)) /\
    y1 d = Z.max 0 (Z.min ry1 (Z.of_nat (nd_rows frame) - 1)) /\
    x2 d = Z.max 0 (Z.min rx2 (Z.of_nat (nd_cols frame))) /\
    y2 d = Z.max 0 (Z.min ry2 (Z.of_nat (nd_rows frame))).
Proof.
  unfold finish_face.
  destruct (best_emotion (classify_region results)) as [e|].
  - eexists. exists [ClassifyRegion]. simpl.
    repeat split; try reflexivity.
    intros c [<-|[]]. now left.
  - destruct (fallback_attempt model frame (classify_region results) _)
      as [[e c] dbg].
    eexists. exists [ClassifyRegion; ClassifyFallback]. simpl.
    repeat split; try reflexivity.
    intros c0 [<-|[<-|[]]]; auto.
Qed.

(** One iteration of the loop either leaves the detections as they are or
    appends one region detection, counted under its label. *)
Lemma process_face_step frame st face :
  (results_output (process_face model frame st face) = results_output st /\
   emotion_counts (process_face model frame st face) = emotion_counts st /\
   (calls (process_face model frame st face) = calls st \/
    calls (process_face model frame st face) = calls st ++ [ClassifyRegion]))
  \/
  (too_small (roi_of frame face) = false /\
   exists d extra,
     results_output (process_face model frame st face) =
       results_output st ++ [d] /\
     emotion_counts (process_face model frame st face) =
       count_result (emotion_counts st) d /\
     calls (process_face model frame st face) = calls st ++ extra /\
     (forall c, In c extra -> c = ClassifyRegion \/ c = ClassifyFallback) /\
     region_detection d /\
     let '(rx1, ry1, rx2, ry2) := region_of frame face in
     x1 d = Z.max 0 (Z.min rx1 (Z.of_nat (nd_cols frame) - 1)) /\
     y1 d = Z.max 0 (Z.min ry1 (Z.of_nat (nd_rows frame) - 1)) /\
     x2 d = Z.max 0 (Z.min rx2 (Z.of_nat (nd_cols frame))) /\
     y2 d = Z.max 0 (Z.min ry2 (Z.of_nat (nd_rows frame)))).
Proof.
  unfold process_face.
  destruct (region_of frame face) as [[[rx1 ry1] rx2] ry2] eqn:Hreg.
  destruct (too_small (roi_of frame face)) eqn:Hsmall.
  - left. auto.
  - destruct (model (roi_of frame face) (5 # 100)) as [e|results].
    + left. simpl. auto.
    + right. split; [reflexivity|].
      destruct (finish_face_shape frame st rx1 ry1 rx2 ry2 results)
        as (d & extra & H).
      exists d, extra. tauto.
Qed.

Lemma region_stage_tally frame log faces :
  emotion_counts (region_stage model frame log faces) =
  tally (results_output (region_stage model frame log faces)).
Proof.
  unfold region_stage.
  apply (fold_left_invariant (process_face model frame)
           (fun st => emotion_counts st = tally (results_output st))).
  - reflexivity.
  - intros st face _ Hst.
    destruct (process_face_step frame st face)
      as [(Hr & Hc & _) | (_ & d & extra & Hr & Hc & _)].
    + now rewrite Hr, Hc.
    + now rewrite Hr, Hc, tally_snoc, Hst.
Qed.

Lemma region_stage_detections frame log faces :
  Forall region_detection
         (results_output (region_stage model frame log faces)).
Proof.
  unfold region_stage.
  apply (fold_left_invariant (process_face model frame)
           (fun st => Forall region_detection (results_output st))).
  - constructor.
  - intros st face _ Hst.
    destruct (process_face_step frame st face)
      as [(Hr & _) | (_ & d & extra & Hr & _ & _ & _ & Hd & _)].
    + now rewrite Hr.
    + rewrite Hr. apply Forall_app. split; [exact Hst|].
      constructor; [exact Hd|constructor].
Qed.


Lemma region_stage_calls frame log faces c :
  In c (calls (region_stage model frame log faces)) ->
  In c log \/ c = ClassifyRegion \/ c = ClassifyFallback.
Proof.
  unfold region_stage.
  apply (fold_left_invariant (process_face model frame)
           (fun st => In c (calls st) ->
                      In c log \/ c = ClassifyRegion \/ c = ClassifyFallback)).
  - simpl. auto.
  - intros st face _ Hst.
    destruct (process_face_step frame st face)
      as [(_ & _ & [Hc|Hc]) | (_ & d & extra & _ & _ & Hc & Hex & _)];
      rewrite Hc; try exact Hst; intro Hin; apply in_app_or in Hin;
      destruct Hin as [Hin|Hin]; auto.
    all: try (destruct Hin as [<-|[]]; now auto).
    all: right; now apply Hex.
Qed.

Lemma direct_condition_true st :
  direct_condition EMOTION_MODE st = true ->
  mode_in EMOTION_MODE ["direct"; "hybrid"] = true /\
  forall d, In d (results_output st) -> emotion d = None.
Proof.
  unfold direct_condition. intro H. apply andb_true_iff in H.
  destruct H as [H Hmode]. split; [exact Hmode|].
  intros d Hd. apply orb_true_iff in H. destruct H as [H|H].
  - destruct (results_output st); [destruct Hd|discriminate].
  - rewrite forallb_forall in H. specialize (H d Hd).
    unfold is_none in H. now destruct (emotion d).
Qed.

(** The direct attempt either keeps the detections and the counts, or runs
    and replaces the detections by the ones it picked. *)
Lemma direct_stage_cases frame st :
  (results_output (direct_stage model EMOTION_MODE frame st) =
     results_output st /\
   emotion_counts (direct_stage model EMOTION_MODE frame st) =
     emotion_counts st /\
   ((direct_condition EMOTION_MODE st = false /\
     calls (direct_stage model EMOTION_MODE frame st) = calls st) \/
    (direct_condition EMOTION_MODE st = true /\
     calls (direct_stage model EMOTION_MODE frame st) =
       calls st ++ [ClassifyDirect] /\
     forall results, model frame (25 # 100) = inr results ->
                     direct_detections frame results = [])))
  \/
  (direct_condition EMOTION_MODE st = true /\
   exists results,
     model frame (25 # 100) = inr results /\
     direct_detections frame results <> [] /\
     results_output (direct_stage model EMOTION_MODE frame st) =
       direct_detections frame results /\
     emotion_counts (direct_stage model EMOTION_MODE frame st) =
       emotion_counts st /\
     calls (direct_stage model EMOTION_MODE frame st) =
       calls st ++ [ClassifyDirect]).
Proof.
  unfold direct_stage.
  destruct (direct_condition EMOTION_MODE st) eqn:Hc.
  - destruct (model frame (25 # 100)) as [de|results] eqn:Hm.
    + left. simpl. repeat split. right. repeat split. discriminate.
    + destruct (direct_detections frame results) as [|p picked] eqn:Hp.
      * left. simpl. repeat split. right. repeat split.
        intros results' H. inversion H; subst. exact Hp.
      * right. split; [reflexivity|]. exists results. simpl.
        rewrite Hp. repeat split. discriminate.
  - left. repeat split. left. auto.
Qed.

Lemma tally_unlabelled (fs : list detection) :
  (forall d, In d fs -> emotion d = None) -> tally fs = [].
Proof.
  unfold tally. induction fs as [|d fs IH]; intro H; simpl; [reflexivity|].
  unfold count_result at 2. rewrite (H d) by now left.
  apply IH. intros d' Hd'. apply H. now right.
Qed.

Lemma recount_empty (fs : list detection) : recount fs [] = tally fs.
Proof. now destruct fs. Qed.

Lemma recount_tally (fs : list detection) : recount fs (tally fs) = tally fs.
Proof.
  destruct fs as [|d fs]; [reflexivity|].
  unfold recount. destruct (tally (d :: fs)) eqn:E; [exact E|reflexivity].
Qed.

(** The counts from which the dominant label is taken are the tally of
    the detections that are returned. *)
Lemma detect_counts frame log faces :
  recount (results_output (detect model EMOTION_MODE frame log faces))
          (emotion_counts (detect model EMOTION_MODE frame log faces)) =
  tally (results_output (detect model EMOTION_MODE frame log faces)).
Proof.
  unfold detect.
  pose proof (region_stage_tally frame log faces) as Ht.
  destruct (direct_stage_cases frame (region_stage model frame log faces))
    as [(Hr & Hc & _) | (Hcond & results & _ & _ & Hr & Hc & _)].
  - rewrite Hr, Hc, Ht. apply recount_tally.
  - rewrite Hr, Hc, Ht.
    apply direct_condition_true in Hcond. destruct Hcond as [_ Hnone].
    rewrite (tally_unlabelled _ Hnone). apply recount_empty.
Qed.

(** What [process_frame] returns comes from [detect], on the faces of the
    proposer when the mode lets it run and on no face otherwise. *)
Lemma process_frame_returns
    (detectMultiScale : ndarray -> exn + list (Z * Z * Z * Z)) frame log r :
  process_frame detectMultiScale model EMOTION_MODE frame = (log, inr r) ->
  exists log0 faces,
    r = aggregate frame (detect model EMOTION_MODE frame log0 faces) /\
    log = calls (detect model EMOTION_MODE frame log0 faces) /\
    ((mode_in EMOTION_MODE ["cascade"; "hybrid"] = true /\
      log0 = [ProposeRegions] /\ detectMultiScale frame = inr faces) \/
     (mode_in EMOTION_MODE ["cascade"; "hybrid"] = false /\
      log0 = [] /\ faces = [])).
Proof.
  unfold process_frame.
  destruct (mode_in EMOTION_MODE ["cascade"; "hybrid"]) eqn:Hmode.
  - destruct (detectMultiScale frame) as [e|faces] eqn:Hd.
    + discriminate.
    + intro H. injection H as <- <-. exists [ProposeRegions], faces.
      split; [reflexivity|]. split; [reflexivity|]. left. auto.
  - intro H. injection H as <- <-. exists [], [].
    split; [reflexivity|]. split; [reflexivity|]. right. auto.
Qed.

Lemma region_stage_log frame log faces :
  results_output (region_stage model frame log faces) =
  results_output (region_stage model frame [] faces).
Proof.
  unfold region_stage.
  assert (H : forall st1 st2,
             results_output st1 = results_output st2 ->
             emotion_counts st1 = emotion_counts st2 ->
             debug_entries st1 = debug_entries st2 ->
             results_output (fold_left (process_face model frame) faces st1) =
             results_output (fold_left (process_face model frame) faces st2)).
  { induction faces as [|face faces IH]; intros st1 st2 Hr Hc Hd; simpl;
      [exact Hr|].
    apply IH; unfold process_face;
      destruct (region_of frame face) as [[[rx1 ry1] rx2] ry2];
      destruct (too_small (roi_of frame face)); auto;
      destruct (model (roi_of frame face) (5 # 100)) as [e|results];
      simpl; auto; unfold finish_face; rewrite ?Hr, ?Hc, ?Hd;
      destruct (best_emotion (classify_region results));
      try destruct (fallback_attempt model frame _ _) as [[e c] dbg];
      simpl; rewrite ?Hr, ?Hc, ?Hd; reflexivity. }
  apply H; reflexivity.
Qed.

Lemma detect_colors frame log faces :
  Forall (fun d => color d = color_of (emotion d))
         (results_output (detect model EMOTION_MODE frame log faces)).
Proof.
  unfold detect.
  destruct (direct_stage_cases frame (region_stage model frame log faces))
    as [(Hr & _) | (_ & results & _ & _ & Hr & _)]; rewrite Hr.
  - eapply Forall_impl; [|apply region_stage_detections].
    intros d [_ H]. exact H.
  - eapply Forall_impl; [|apply direct_detections_direct].
    intros d (_ & H & _). exact H.
Qed.

End PipelineFacts.

(** ** Every coordinate lies in the frame *)




(** * The claims *)

Section Claims.

#[local] Set Default Proof Using "Type".

Variable detectMultiScale : ndarray -> exn + list (Z * Z * Z * Z).
Variable model : ndarray -> Q -> exn + list yolo_result.
Variable EMOTION_MODE : string.

(** C2 (dominant consistency).  For every frame that [process_frame]
    processes: when the dominant emotion is present, a returned detection
    carries that label; when no returned detection carries a label (in
    particular when none is returned), the dominant emotion is absent.  The
    frame may be one on which the direct attempt replaced the detections of
    the region loop: the counts are then taken anew from the replacing
    detections. *)
Theorem C2_dominant_consistency frame log r :
  process_frame detectMultiScale model EMOTION_MODE frame = (log, inr r) ->
  (forall l, fr_dominant r = Some l ->
             exists det, In det (fr_faces r) /\ emotion det = Some l) /\
  ((forall det, In det (fr_faces r) -> emotion det = None) ->
   fr_dominant r = None) /\
  (fr_faces r = [] -> fr_dominant r = None).
Proof.
  intro H. apply process_frame_returns in H.
  destruct H as (log0 & faces & -> & _ & _).
  unfold aggregate. simpl. rewrite detect_counts.
  set (fs := results_output (detect model EMOTION_MODE frame log0 faces)).
  assert (Hnone : (forall det, In det fs -> emotion det = None) ->
                  dominant_of (tally fs) = None)
    by (intro Hn; now rewrite (tally_unlabelled fs Hn)).
  split; [|split].
  - intros l Hl.
    destruct (dominant_of_tally fs (tally fs) l (tally_spec fs) Hl)
      as [Hocc _].
    now apply occurrences_in.
  - exact Hnone.
  - intro Hempty. apply Hnone. rewrite Hempty. intros det [].
Qed.

(** C9 (majority vote).  The dominant emotion that [process_frame] returns
    is the label that occurs most often among the returned detections, and
    among the labels that occur most often the one seen first in the order
    of the detections; it is absent only when no returned detection carries
    a label. *)
Theorem C9_majority_first_seen frame log r :
  process_frame detectMultiScale model EMOTION_MODE frame = (log, inr r) ->
  match fr_dominant r with
  | Some l => majority_first l (fr_faces r)
  | None => forall det, In det (fr_faces r) -> emotion det = None
  end.
Proof.
  intro H. apply process_frame_returns in H.
  destruct H as (log0 & faces & -> & _ & _).
  unfold aggregate. simpl. rewrite detect_counts.
  set (fs := results_output (detect model EMOTION_MODE frame log0 faces)).
  destruct (dominant_of (tally fs)) as [l|] eqn:Hd.
  - exact (dominant_of_tally fs (tally fs) l (tally_spec fs) Hd).
  - exact (dominant_of_none fs (tally fs) (tally_spec fs) Hd).
Qed.

(** C10 (colour of an unlabelled detection).  A returned detection whose
    label is absent has the colour "#FFFFFF".  That is the colour of the
    label Neutral in the table, and the colour of every returned detection
    labelled Neutral: the colour does not tell the two apart. *)
Theorem C10_unlabelled_color frame log r det :
  process_frame detectMultiScale model EMOTION_MODE frame = (log, inr r) ->
  In det (fr_faces r) ->
  (emotion det = None -> color det = "#FFFFFF") /\
  (emotion det = Some Neutral -> color det = "#FFFFFF") /\
  bgr_to_rgb_hex (colors_bgr Neutral) = "#FFFFFF".
Proof.
  intros H Hin. apply process_frame_returns in H.
  destruct H as (log0 & faces & -> & _ & _). simpl in Hin.
  pose proof (detect_colors model EMOTION_MODE frame log0 faces) as Hc.
  rewrite Forall_forall in Hc. specialize (Hc det Hin).
  repeat split; intro He; rewrite He in Hc; exact Hc.
Qed.


(** C8 (mode gating).  In the mode [cascade] no returned detection has the
    source [direct], and in the mode [direct] the face proposer is not
    called. *)
Theorem C8_mode_gating frame :
  (forall r,
      snd (process_frame detectMultiScale model "cascade" frame) = inr r ->
      forall det, In det (fr_faces r) -> source det <> Some "direct") /\
  ~ In ProposeRegions
       (fst (process_frame detectMultiScale model "direct" frame)).
Proof.
  split.
  - intros r Hr det Hdet.
    destruct (process_frame detectMultiScale model "cascade" frame)
      as [log out] eqn:H.
    simpl in Hr. subst out. apply process_frame_returns in H.
    destruct H as (log0 & faces & -> & _ & _). simpl in Hdet.
    unfold detect in Hdet.
    destruct (direct_stage_cases model "cascade" frame
                (region_stage model frame log0 faces))
      as [(Hres & _) | (Hcond & _)].
    + rewrite Hres in Hdet.
      pose proof (region_stage_detections model frame log0 faces) as Hreg.
      rewrite Forall_forall in Hreg. destruct (Hreg det Hdet) as [Hs _].
      rewrite Hs. discriminate.
    + apply direct_condition_true in Hcond. destruct Hcond as [Hmode _].
      discriminate Hmode.
  - unfold process_frame. simpl. unfold detect, region_stage. simpl.
    destruct (direct_stage_cases model "direct" frame (loop_init []))
      as [(_ & _ & [(_ & Hc) | (_ & Hc & _)]) | (_ & results & _ & _ & _ & _ & Hc)];
      rewrite Hc; simpl; intuition discriminate.
Qed.

(** C7 (direct frame strategy).  The direct attempt calls the classifier
    only when the mode is [direct] or [hybrid] and no face was proposed or
    every detection accumulated by the region loop lacks a label.  When it
    picks at least one detection, the returned detections are exactly the
    picked ones, all of the source [direct]: none of the accumulated ones is
    kept. *)
Theorem C7_direct_strategy frame :
  (In ClassifyDirect
      (fst (process_frame detectMultiScale model EMOTION_MODE frame)) ->
   mode_in EMOTION_MODE ["direct"; "hybrid"] = true /\
   (proposed detectMultiScale EMOTION_MODE frame = [] \/
    forall det,
      In det (accumulated detectMultiScale model EMOTION_MODE frame) ->
      emotion det = None)) /\
  (forall r results,
      snd (process_frame detectMultiScale model EMOTION_MODE frame) = inr r ->
      In ClassifyDirect
         (fst (process_frame detectMultiScale model EMOTION_MODE frame)) ->
      model frame (25 # 100) = inr results ->
      direct_detections frame results <> [] ->
      fr_faces r = direct_detections frame results /\
      forall det, In det (fr_faces r) -> source det = Some "direct").
Proof.
  destruct (process_frame detectMultiScale model EMOTION_MODE frame)
    as [log [e|r]] eqn:H.
  { split; [|intros r results Hr; discriminate Hr].
    unfold process_frame in H.
    destruct (mode_in EMOTION_MODE ["cascade"; "hybrid"]);
      [|discriminate H].
    destruct (detectMultiScale frame); [|discriminate H].
    injection H as <- _. simpl. intuition discriminate. }
  apply process_frame_returns in H.
  destruct H as (log0 & faces & -> & -> & Hmode). simpl.
  assert (Hacc : accumulated detectMultiScale model EMOTION_MODE frame =
                 results_output (region_stage model frame log0 faces)).
  { unfold accumulated, proposed. rewrite (region_stage_log model frame log0).
    destruct Hmode as [(-> & _ & ->) | (-> & _ & ->)]; reflexivity. }
  assert (Hlog0 : ~ In ClassifyDirect
                      (calls (region_stage model frame log0 faces))).
  { intro Hin. apply region_stage_calls in Hin.
    destruct Hin as [Hin|[Hin|Hin]]; try discriminate Hin.
    destruct Hmode as [(_ & -> & _) | (_ & -> & _)].
    - destruct Hin as [Hin|[]]. discriminate Hin.
    - destruct Hin. }
  unfold detect.
  destruct (direct_stage_cases model EMOTION_MODE frame
              (region_stage model frame log0 faces))
    as [(Hres & _ & [(Hcond & Hc) | (Hcond & Hc & Hnone)])
       | (Hcond & results & Hm & Hne & Hres & _ & Hc)];
    rewrite Hc.
  - split; [intro Hin; contradiction|intros r results _ Hin; contradiction].
  - split.
    + intros _. apply direct_condition_true in Hcond.
      destruct Hcond as [Hm Hu]. split; [exact Hm|]. right.
      rewrite Hacc. exact Hu.
    + intros r results _ _ Hm Hne. specialize (Hnone results Hm).
      contradiction.
  - split.
    + intros _. apply direct_condition_true in Hcond.
      destruct Hcond as [Hm' Hu]. split; [exact Hm'|]. right.
      rewrite Hacc. exact Hu.
    + intros r results' Hr _ Hm' _. rewrite Hm in Hm'. injection Hm' as <-.
      injection Hr as <-. simpl.
      rewrite Hres. split; [reflexivity|].
      intros det Hdet.
      pose proof (direct_detections_direct frame results) as Hd.
      rewrite Forall_forall in Hd. exact (proj1 (Hd det Hdet)).
Qed.

End Claims.

(** ** The claims on the scenarios *)

Lemma hybrid_run :
  process_frame (Scenario.proposer_of Scenario.one_face)
                Scenario.hybrid_model "hybrid" Scenario.frame =
  (Scenario.hybrid_log, inr Scenario.hybrid_result).
Proof. vm_compute. reflexivity. Defined.

Lemma silent_run :
  process_frame (Scenario.proposer_of Scenario.one_face)
                Scenario.silent_model "cascade" Scenario.frame =
  (Scenario.silent_log, inr Scenario.silent_result).
Proof. vm_compute. reflexivity. Defined.

(** C2 on the hybrid scenario, where the direct attempt replaces the
    unlabelled detection of the region loop. *)
Lemma C2_dominant_consistency_witness :
  process_frame (Scenario.proposer_of Scenario.one_face)
                Scenario.hybrid_model "hybrid" Scenario.frame =
  (Scenario.hybrid_log, inr Scenario.hybrid_result) /\
  ((forall l, fr_dominant Scenario.hybrid_result = Some l ->
              exists det, In det (fr_faces Scenario.hybrid_result) /\
                          emotion det = Some l) /\
   ((forall det, In det (fr_faces Scenario.hybrid_result) ->
                 emotion det = None) ->
    fr_dominant Scenario.hybrid_result = None) /\
   (fr_faces Scenario.hybrid_result = [] ->
    fr_dominant Scenario.hybrid_result = None)).
Proof.
  split; [exact hybrid_run|].
  exact (C2_dominant_consistency _ _ _ _ _ _ hybrid_run).
Defined.

Lemma C9_majority_first_seen_witness :
  process_frame (Scenario.proposer_of Scenario.one_face)
                Scenario.hybrid_model "hybrid" Scenario.frame =
  (Scenario.hybrid_log, inr Scenario.hybrid_result) /\
  majority_first Fear (fr_faces Scenario.hybrid_result).
Proof.
  split; [exact hybrid_run|].
  exact (C9_majority_first_seen _ _ _ _ _ _ hybrid_run).
Defined.

Lemma C10_unlabelled_color_witness :
  process_frame (Scenario.proposer_of Scenario.one_face)
                Scenario.silent_model "cascade" Scenario.frame =
  (Scenario.silent_log, inr Scenario.silent_result) /\
  In Scenario.unlabelled_detection (fr_faces Scenario.silent_result) /\
  emotion Scenario.unlabelled_detection = None /\
  color Scenario.unlabelled_detection = "#FFFFFF".
Proof.
  split; [exact silent_run|].
  split; [now left|]. split; [reflexivity|].
  refine (proj1 (C10_unlabelled_color _ _ _ _ _ _
                   Scenario.unlabelled_detection silent_run _) eq_refl).
  now left.
Defined.



(** The hypothesis on the proposed faces is needed as well: in the mode
    [cascade], a proposed rectangle at (100, 100) of width -200 and height
    120 gives a detection with the corners (80, 80) and (0, 240). *)
Lemma region_corners_not_reordered :
  exists r det,
    snd (process_frame (Scenario.proposer_of [(100, 100, -200, 120)])
                       Scenario.silent_model "cascade" Scenario.frame) =
    inr r /\
    In det (fr_faces r) /\ x1 det = 80 /\ x2 det = 0 /\
    in_frame (fr_dims r) det /\ ~ in_bounds (fr_dims r) det.
Proof.
  eexists. eexists.
  split; [vm_compute; reflexivity|]. split; [now left|].
  split; [reflexivity|]. split; [reflexivity|]. split.
  - unfold in_frame. simpl. lia.
  - unfold in_bounds. simpl. lia.
Qed.

Lemma C8_mode_gating_witness :
  snd (process_frame (Scenario.proposer_of Scenario.one_face)
                     Scenario.silent_model "cascade" Scenario.frame) =
  inr Scenario.silent_result /\
  In Scenario.unlabelled_detection (fr_faces Scenario.silent_result) /\
  source Scenario.unlabelled_detection <> Some "direct" /\
  ~ In ProposeRegions
       (fst (process_frame (Scenario.proposer_of Scenario.one_face)
                           Scenario.hybrid_model "direct" Scenario.frame)).
Proof.
  assert (Hrun : snd (process_frame (Scenario.proposer_of Scenario.one_face)
                        Scenario.silent_model "cascade" Scenario.frame) =
                 inr Scenario.silent_result)
    by (vm_compute; reflexivity).
  split; [exact Hrun|]. split; [now left|].
  split.
  - exact (proj1 (C8_mode_gating (Scenario.proposer_of Scenario.one_face)
                    Scenario.silent_model Scenario.frame)
                 _ Hrun _ (or_introl eq_refl)).
  - exact (proj2 (C8_mode_gating (Scenario.proposer_of Scenario.one_face)
                    Scenario.hybrid_model Scenario.frame)).
Defined.

Lemma C7_direct_strategy_witness :
  snd (process_frame (Scenario.proposer_of Scenario.one_face)
                     Scenario.hybrid_model "hybrid" Scenario.frame) =
  inr Scenario.hybrid_result /\
  In ClassifyDirect
     (fst (process_frame (Scenario.proposer_of Scenario.one_face)
                         Scenario.hybrid_model "hybrid" Scenario.frame)) /\
  (mode_in "hybrid" ["direct"; "hybrid"] = true /\
   (proposed (Scenario.proposer_of Scenario.one_face) "hybrid" Scenario.frame
    = [] \/
    forall det,
      In det (accumulated (Scenario.proposer_of Scenario.one_face)
                          Scenario.hybrid_model "hybrid" Scenario.frame) ->
      emotion det = None)) /\
  fr_faces Scenario.hybrid_result =
    direct_detections Scenario.frame
      [Scenario.localized
         [Scenario.box_of (4 # 10) 3;
          {| b_conf := Some (5 # 10); b_cls := Some 3;
             b_xyxy := Some (21 # 2, 81 # 4, 700 # 1, 300 # 1) |}]].
Proof.
  assert (Hrun : snd (process_frame (Scenario.proposer_of Scenario.one_face)
                        Scenario.hybrid_model "hybrid" Scenario.frame) =
                 inr Scenario.hybrid_result)
    by (rewrite hybrid_run; reflexivity).
  assert (Hin : In ClassifyDirect
                   (fst (process_frame
                           (Scenario.proposer_of Scenario.one_face)
                           Scenario.hybrid_model "hybrid" Scenario.frame)))
    by (rewrite hybrid_run; right; right; right; now left).
  split; [exact Hrun|]. split; [exact Hin|].
  destruct (C7_direct_strategy (Scenario.proposer_of Scenario.one_face)
              Scenario.hybrid_model "hybrid" Scenario.frame)
    as [Hruns Hrepl].
  split; [exact (Hruns Hin)|].
  refine (proj1 (Hrepl _ _ Hrun Hin _ _)).
  - vm_compute. reflexivity.
  - vm_compute. discriminate.
Defined.

(** ** Region classification *)

Lemma box_outputs_cons (b : yolo_box) (bs : list yolo_box) :
  box_outputs (b :: bs) = box_outputs [b] ++ box_outputs bs.
Proof. unfold box_outputs. simpl. now rewrite app_nil_r. Qed.

Lemma scan_box_sound outs st b :
  label_sound outs st -> label_sound (outs ++ box_outputs [b]) (scan_box st b).
Proof.
  intros [H0 Hl]. unfold scan_box, box_outputs. simpl.
  destruct (b_conf b) as [c|]; [|rewrite app_nil_r; now split].
  destruct (b_cls b) as [i|]; [|rewrite app_nil_r; now split].
  simpl. destruct (Qgtb c (best_conf st)) eqn:E; split; simpl.
  - apply Qgtb_lt in E. apply Qlt_le_weak. eapply Qle_lt_trans; eauto.
  - apply Qgtb_lt in E. intros l Hsome.
    destruct (label_of i) as [e|] eqn:Hi.
    + injection Hsome as <-. exists (Localized c i).
      split; [apply in_or_app; right; now left|].
      split; [exact Hi|]. simpl. eapply Qle_lt_trans; eauto.
    + destruct (Hl l Hsome) as (o & Ho & Hlab & Hpos).
      exists o. split; [apply in_or_app; now left|auto].
  - exact H0.
  - intros l Hsome. destruct (Hl l Hsome) as (o & Ho & Hlab & Hpos).
    exists o. split; [apply in_or_app; now left|auto].
Qed.

Lemma scan_boxes_sound bs : forall outs st,
  label_sound outs st ->
  label_sound (outs ++ box_outputs bs) (fold_left scan_box bs st).
Proof.
  induction bs as [|b bs IH]; intros outs st H.
  - simpl. now rewrite app_nil_r.
  - rewrite box_outputs_cons, app_assoc. cbn [fold_left].
    apply IH. now apply scan_box_sound.
Qed.

Lemma label_sound_weaken outs more st :
  label_sound outs st -> label_sound (outs ++ more) st.
Proof.
  intros [H0 Hl]. split; [exact H0|]. intros l Hsome.
  destruct (Hl l Hsome) as (o & Ho & Hlab & Hpos).
  exists o. split; [apply in_or_app; now left|auto].
Qed.

Lemma scan_probs_sound outs st i c :
  label_sound outs st ->
  label_sound
    (outs ++ [RegionWide (match c with Some c => c | None => 0%Q end) i])
    (scan_probs st (Probs (Some i) c)).
Proof.
  intro H. unfold scan_probs.
  set (confidence := match c with Some c => c | None => 0%Q end).
  destruct (label_of i) as [e|] eqn:Hi;
    [|now apply label_sound_weaken].
  destruct (Qgtb confidence (best_conf st)) eqn:E;
    [|now apply label_sound_weaken].
  apply Qgtb_lt in E. destruct H as [H0 _].
  assert (Hpos : (0 < confidence)%Q) by (eapply Qle_lt_trans; eauto).
  split; simpl.
  - now apply Qlt_le_weak.
  - intros l Hsome. injection Hsome as <-.
    exists (RegionWide confidence i).
    split; [apply in_or_app; right; now left|]. split; [exact Hi|exact Hpos].
Qed.

Lemma scan_result_sound outs st r :
  label_sound outs st ->
  label_sound (outs ++ result_outputs r) (scan_result st r).
Proof.
  intro H. unfold scan_result, result_outputs.
  destruct (boxes r) as [[|b bs]|].
  2: now apply scan_boxes_sound.
  all: destruct (probs r) as [[[i|] c|]|];
    try (rewrite app_nil_r; exact H); now apply scan_probs_sound.
Qed.

Lemma classify_region_sound results :
  label_sound (outputs results) (classify_region results).
Proof.
  unfold classify_region, outputs.
  assert (H : forall outs st,
             label_sound outs st ->
             label_sound (outs ++ flat_map result_outputs results)
                         (fold_left scan_result results st)).
  { induction results as [|r results IH]; intros outs st Hs; simpl.
    - now rewrite app_nil_r.
    - rewrite app_assoc. apply IH. now apply scan_result_sound. }
  apply (H [] region_init). split; [apply Qle_refl|]. discriminate.
Qed.

Lemma best_labelled_nonneg outs st :
  best_labelled outs st -> (0 <= best_conf st)%Q.
Proof.
  intros [_ H]. destruct (best_emotion st).
  - destruct H as (o & _ & _ & _ & Hpos). now apply Qlt_le_weak.
  - rewrite H. apply Qle_refl.
Qed.

(** Appending outputs whose confidence does not beat the best one, or that
    carry no label, keeps the best labelled output. *)
Lemma best_labelled_keep outs more st st' :
  best_labelled outs st ->
  best_emotion st' = best_emotion st ->
  best_conf st' = best_conf st ->
  (forall o, In o more -> label_of (out_cls o) <> None ->
             (out_conf o <= best_conf st)%Q) ->
  best_labelled (outs ++ more) st'.
Proof.
  intros [Hb Hl] He Hc Hmore. unfold best_labelled. rewrite He, Hc. split.
  - intros o Ho Hlab. apply in_app_or in Ho. destruct Ho as [Ho|Ho]; auto.
  - destruct (best_emotion st); [|exact Hl].
    destruct Hl as (o & Ho & H). exists o.
    split; [apply in_or_app; now left|exact H].
Qed.

(** Appending a labelled output that beats the best one makes it the best
    one. *)
Lemma best_labelled_take outs o e st st' :
  best_labelled outs st ->
  label_of (out_cls o) = Some e ->
  (best_conf st < out_conf o)%Q ->
  best_emotion st' = Some e ->
  best_conf st' = out_conf o ->
  best_labelled (outs ++ [o]) st'.
Proof.
  intros Hbl Hlab Hlt He Hc. pose proof (best_labelled_nonneg _ _ Hbl) as H0.
  destruct Hbl as [Hb _]. unfold best_labelled. rewrite He, Hc. split.
  - intros o' Ho' Hlab'. apply in_app_or in Ho'.
    destruct Ho' as [Ho'|[<-|[]]]; [|apply Qle_refl].
    apply Qlt_le_weak. eapply Qle_lt_trans; [|exact Hlt]. now apply Hb.
  - exists o. split; [apply in_or_app; right; now left|].
    split; [exact Hlab|]. split; [reflexivity|].
    eapply Qle_lt_trans; eauto.
Qed.

Lemma scan_box_best outs st b :
  best_labelled outs st ->
  localized_in_range (box_outputs [b]) ->
  best_labelled (outs ++ box_outputs [b]) (scan_box st b).
Proof.
  intros H Hrange. unfold scan_box, box_outputs in *. simpl in *.
  destruct (b_conf b) as [c|];
    [|eapply best_labelled_keep; eauto; intros o []].
  destruct (b_cls b) as [i|];
    [|eapply best_labelled_keep; eauto; intros o []].
  simpl in *. destruct (label_of i) as [e|] eqn:Hi.
  - destruct (Qgtb c (best_conf st)) eqn:E.
    + apply Qgtb_lt in E.
      eapply (best_labelled_take outs (Localized c i) e); eauto.
    + apply Qgtb_le in E.
      eapply best_labelled_keep; eauto.
      intros o [<-|[]] _. exact E.
  - exfalso. apply (Hrange c i); [now left|exact Hi].
Qed.

Lemma localized_in_range_app outs more :
  localized_in_range (outs ++ more) ->
  localized_in_range outs /\ localized_in_range more.
Proof.
  intro H. split; intros c i Hin; apply (H c i); apply in_or_app; auto.
Qed.

Lemma scan_boxes_best bs : forall outs st,
  best_labelled outs st ->
  localized_in_range (box_outputs bs) ->
  best_labelled (outs ++ box_outputs bs) (fold_left scan_box bs st).
Proof.
  induction bs as [|b bs IH]; intros outs st H Hrange.
  - simpl. now rewrite app_nil_r.
  - rewrite box_outputs_cons in *. rewrite app_assoc. cbn [fold_left].
    apply localized_in_range_app in Hrange. destruct Hrange as [Hb Hbs].
    apply IH; [|exact Hbs]. now apply scan_box_best.
Qed.

Lemma scan_probs_best outs st i c :
  best_labelled outs st ->
  best_labelled
    (outs ++ [RegionWide (match c with Some c => c | None => 0%Q end) i])
    (scan_probs st (Probs (Some i) c)).
Proof.
  intro H. unfold scan_probs.
  set (confidence := match c with Some c => c | None => 0%Q end).
  destruct (label_of i) as [e|] eqn:Hi.
  - destruct (Qgtb confidence (best_conf st)) eqn:E.
    + apply Qgtb_lt in E.
      eapply (best_labelled_take outs (RegionWide confidence i) e); eauto.
    + apply Qgtb_le in E.
      eapply best_labelled_keep; eauto.
      intros o [<-|[]] _. exact E.
  - eapply best_labelled_keep; eauto.
    intros o [<-|[]] Hlab. simpl in Hlab. congruence.
Qed.

Lemma scan_result_best outs st r :
  best_labelled outs st ->
  localized_in_range (result_outputs r) ->
  best_labelled (outs ++ result_outputs r) (scan_result st r).
Proof.
  intros H Hrange. unfold scan_result, result_outputs in *.
  destruct (boxes r) as [[|b bs]|].
  2: now apply scan_boxes_best.
  all: destruct (probs r) as [[[i|] c|]|];
    try (rewrite app_nil_r; exact H); now apply scan_probs_best.
Qed.

Lemma classify_region_best results :
  localized_in_range (outputs results) ->
  best_labelled (outputs results) (classify_region results).
Proof.
  unfold classify_region, outputs.
  assert (H : forall outs st,
             best_labelled outs st ->
             localized_in_range (flat_map result_outputs results) ->
             best_labelled (outs ++ flat_map result_outputs results)
                           (fold_left scan_result results st)).
  { induction results as [|r results IH]; intros outs st Hs Hrange; simpl.
    - now rewrite app_nil_r.
    - simpl in Hrange. apply localized_in_range_app in Hrange.
      destruct Hrange as [Hr Hrs].
      rewrite app_assoc. apply IH; [|exact Hrs].
      now apply scan_result_best. }
  intro Hrange. apply (H [] region_init); [|exact Hrange].
  split; [intros o []|reflexivity].
Qed.

(** C3 (region classification), as the code has it.  The label of a region
    is the label of a classifier output of positive confidence whose index
    is one of the eight labels; an index out of that range raises nothing and
    gives no label.  When every localized output of the region carries an
    index in the range, the label is the label of a labelled output of the
    highest confidence, that confidence being the one kept; and the label
    is absent exactly when no labelled output has a positive confidence,
    the confidence kept being 0.0. *)
Theorem C3_region_label (results : list yolo_result) :
  (forall l, best_emotion (classify_region results) = Some l ->
             exists o, In o (outputs results) /\
                       label_of (out_cls o) = Some l /\
                       (0 < out_conf o)%Q) /\
  (localized_in_range (outputs results) ->
   (forall o, In o (outputs results) -> label_of (out_cls o) <> None ->
              (out_conf o <= best_conf (classify_region results))%Q) /\
   match best_emotion (classify_region results) with
   | Some l =>
       exists o, In o (outputs results) /\
                 label_of (out_cls o) = Some l /\
                 out_conf o = best_conf (classify_region results) /\
                 (0 < best_conf (classify_region results))%Q
   | None => best_conf (classify_region results) = 0%Q
   end).
Proof.
  split.
  - exact (proj2 (classify_region_sound results)).
  - exact (classify_region_best results).
Qed.

Lemma C3_region_label_witness :
  localized_in_range (outputs Scenario.labelled_results) /\
  ((forall o, In o (outputs Scenario.labelled_results) ->
              label_of (out_cls o) <> None ->
              (out_conf o <=
               best_conf (classify_region Scenario.labelled_results))%Q) /\
   exists o, In o (outputs Scenario.labelled_results) /\
             label_of (out_cls o) = Some Sad /\
             out_conf o =
               best_conf (classify_region Scenario.labelled_results) /\
             (0 < best_conf (classify_region Scenario.labelled_results))%Q).
Proof.
  assert (H : localized_in_range (outputs Scenario.labelled_results)).
  { intros c i Hin. vm_compute in Hin.
    destruct Hin as [Hin|[Hin|[Hin|[]]]]; inversion Hin; subst;
      vm_compute; discriminate. }
  split; [exact H|].
  exact (proj2 (C3_region_label Scenario.labelled_results) H).
Defined.

(** C3 as the claim states it fails: a region whose only classifier
    output carries the index 8 has one output and no label. *)
Lemma C3_counterexample :
  ~ (forall results,
        best_emotion (classify_region results) = None ->
        outputs results = []).
Proof.
  intro H. specialize (H Scenario.out_of_range_results eq_refl).
  vm_compute in H. discriminate H.
Qed.

(** An output of an index out of the range that beats the confidence kept
    raises that confidence without giving a label: the labelled outputs that
    follow it at a lower confidence are passed over. *)
Lemma out_of_range_shadows :
  best_emotion
    (classify_region
       [Scenario.localized
          [Scenario.box_of (9 # 10) 8; Scenario.box_of (5 # 10) 4]]) = None.
Proof. reflexivity. Qed.

Section FaceClaims.

#[local] Set Default Proof Using "Type".

Variable model : ndarray -> Q -> exn + list yolo_result.

(** C4 (fallback), as the code has it.  For a face whose region gives no
    label, the label and the confidence of the whole-frame scan are adopted
    exactly when that scan kept a label and its confidence is strictly
    above the confidence kept for the region; the adoption is marked in the
    diagnostics record of the face ([fallbackUsed], [fallbackBestConf]), and
    the detection has no [source] key either way.  The confidence kept for
    the region is 0.0 when every localized output of the region carries an
    index of the eight labels. *)
Theorem C4_fallback_adoption frame st face results full_results :
  too_small (roi_of frame face) = false ->
  model (roi_of frame face) (5 # 100) = inr results ->
  best_emotion (classify_region results) = None ->
  model frame (5 # 100) = inr full_results ->
  exists det dbg entries,
    results_output (process_face model frame st face) =
      results_output st ++ [det] /\
    debug_entries (process_face model frame st face) =
      entries ++ [FaceDebug dbg] /\
    source det = None /\
    ((is_some (best_emotion (classify_full full_results)) = true /\
      (best_conf (classify_region results) <
       best_conf (classify_full full_results))%Q) ->
     emotion det = best_emotion (classify_full full_results) /\
     confidence det = round4 (best_conf (classify_full full_results)) /\
     fallbackUsed dbg = true /\
     fallbackBestConf dbg =
       Some (round4 (best_conf (classify_full full_results)))) /\
    (~ (is_some (best_emotion (classify_full full_results)) = true /\
        (best_conf (classify_region results) <
         best_conf (classify_full full_results))%Q) ->
     emotion det = None /\
     confidence det = round4 (best_conf (classify_region results)) /\
     fallbackUsed dbg = false /\ fallbackBestConf dbg = None) /\
    (localized_in_range (outputs results) ->
     best_conf (classify_region results) = 0%Q).
Proof.
  intros Hsmall Hroi Hnone Hfull.
  unfold process_face.
  destruct (region_of frame face) as [[[rx1 ry1] rx2] ry2].
  rewrite Hsmall, Hroi. unfold finish_face. rewrite Hnone.
  unfold fallback_attempt. rewrite Hfull, Hnone.
  assert (Hzero : localized_in_range (outputs results) ->
                  best_conf (classify_region results) = 0%Q).
  { intro Hrange. pose proof (classify_region_best results Hrange) as [_ H].
    now rewrite Hnone in H. }
  destruct (is_some (best_emotion (classify_full full_results))) eqn:Hsome;
    destruct (Qgtb (best_conf (classify_full full_results))
                   (best_conf (classify_region results))) eqn:Hgt;
    simpl; do 3 eexists; (split; [reflexivity|]); (split; [reflexivity|]);
    (split; [reflexivity|]); simpl;
    (split; [|split; [|exact Hzero]]).
  all: try (intros _; repeat split; reflexivity).
  all: try (intros [Hs Hlt]; try discriminate Hs;
            apply Qgtb_lt in Hlt; congruence).
  all: intro Hneg; exfalso; apply Hneg; split;
    [reflexivity|now apply Qgtb_lt].
Qed.

(** C5 (failure of the classifier on a region), as the code has it.  When
    the call of the classifier on the region of a face raises, the loop goes
    on to the next face: the detections, the counts and the diagnostics are
    what they were before the face, so that the failure is recorded
    nowhere. *)
Theorem C5_region_failure_unrecorded frame st face e :
  too_small (roi_of frame face) = false ->
  model (roi_of frame face) (5 # 100) = inl e ->
  results_output (process_face model frame st face) = results_output st /\
  emotion_counts (process_face model frame st face) = emotion_counts st /\
  debug_entries (process_face model frame st face) = debug_entries st /\
  calls (process_face model frame st face) = calls st ++ [ClassifyRegion].
Proof.
  intros Hsmall Hroi. unfold process_face.
  destruct (region_of frame face) as [[[rx1 ry1] rx2] ry2].
  rewrite Hsmall, Hroi. simpl. auto.
Qed.

End FaceClaims.

Lemma fallback_run :
  process_frame (Scenario.proposer_of Scenario.one_face)
                Scenario.fallback_model "cascade" Scenario.frame =
  (Scenario.silent_log, inr Scenario.fallback_result).
Proof. vm_compute. reflexivity. Defined.

(** C4 as the claim states it fails: the whole-frame result (Sad at 0.4)
    is adopted for the face, the diagnostics record says so, and the
    detection is not marked as coming from the fallback. *)
Lemma C4_counterexample :
  process_frame (Scenario.proposer_of Scenario.one_face)
                Scenario.fallback_model "cascade" Scenario.frame =
  (Scenario.silent_log, inr Scenario.fallback_result) /\
  fr_faces Scenario.fallback_result = [Scenario.sad_detection] /\
  fr_debug Scenario.fallback_result = [FaceDebug Scenario.fallback_debug] /\
  emotion Scenario.sad_detection = Some Sad /\
  fallbackUsed Scenario.fallback_debug = true /\
  source Scenario.sad_detection <> Some "fallback".
Proof.
  split; [exact fallback_run|]. repeat split. discriminate.
Qed.

Lemma C4_fallback_adoption_witness :
  too_small (roi_of Scenario.frame (100, 100, 120, 120)) = false /\
  Scenario.fallback_model (roi_of Scenario.frame (100, 100, 120, 120))
                          (5 # 100) = inr [] /\
  best_emotion (classify_region []) = None /\
  Scenario.fallback_model Scenario.frame (5 # 100) =
    inr [Scenario.localized [Scenario.box_of (4 # 10) 6]] /\
  exists det dbg entries,
    results_output
      (process_face Scenario.fallback_model Scenario.frame
                    (loop_init [ProposeRegions]) (100, 100, 120, 120)) =
      [] ++ [det] /\
    debug_entries
      (process_face Scenario.fallback_model Scenario.frame
                    (loop_init [ProposeRegions]) (100, 100, 120, 120)) =
      entries ++ [FaceDebug dbg] /\
    source det = None /\
    emotion det = Some Sad /\
    fallbackUsed dbg = true.
Proof.
  assert (H1 : too_small (roi_of Scenario.frame (100, 100, 120, 120)) = false)
    by reflexivity.
  assert (H2 : Scenario.fallback_model
                 (roi_of Scenario.frame (100, 100, 120, 120)) (5 # 100) =
               inr []) by reflexivity.
  assert (H3 : best_emotion (classify_region []) = None) by reflexivity.
  assert (H4 : Scenario.fallback_model Scenario.frame (5 # 100) =
               inr [Scenario.localized [Scenario.box_of (4 # 10) 6]])
    by reflexivity.
  split; [exact H1|]. split; [exact H2|]. split; [exact H3|].
  split; [exact H4|].
  destruct (C4_fallback_adoption Scenario.fallback_model Scenario.frame
              (loop_init [ProposeRegions]) (100, 100, 120, 120) _ _
              H1 H2 H3 H4)
    as (det & dbg & entries & Hr & Hd & Hs & Hadopt & _ & _).
  exists det, dbg, entries.
  split; [exact Hr|]. split; [exact Hd|]. split; [exact Hs|].
  assert (Hcond : is_some (best_emotion
                             (classify_full
                                [Scenario.localized
                                   [Scenario.box_of (4 # 10) 6]])) = true /\
                  (best_conf (classify_region []) <
                   best_conf (classify_full
                                [Scenario.localized
                                   [Scenario.box_of (4 # 10) 6]]))%Q)
    by (split; reflexivity).
  destruct (Hadopt Hcond) as (He & _ & Hu & _).
  split; [exact He|exact Hu].
Defined.

Lemma failing_run :
  process_frame (Scenario.proposer_of Scenario.one_face)
                Scenario.failing_model "cascade" Scenario.frame =
  ([ProposeRegions; ClassifyRegion], inr Scenario.failing_result).
Proof. vm_compute. reflexivity. Defined.

Lemma C5_region_failure_unrecorded_witness :
  too_small (roi_of Scenario.frame (100, 100, 120, 120)) = false /\
  Scenario.failing_model (roi_of Scenario.frame (100, 100, 120, 120))
                         (5 # 100) = inl (Scenario.RuntimeError "boom") /\
  debug_entries
    (process_face Scenario.failing_model Scenario.frame
                  (loop_init [ProposeRegions]) (100, 100, 120, 120)) = [] /\
  fr_debug Scenario.failing_result = [].
Proof.
  assert (H1 : too_small (roi_of Scenario.frame (100, 100, 120, 120)) = false)
    by reflexivity.
  assert (H2 : Scenario.failing_model
                 (roi_of Scenario.frame (100, 100, 120, 120)) (5 # 100) =
               inl (Scenario.RuntimeError "boom")) by reflexivity.
  split; [exact H1|]. split; [exact H2|]. split; [|reflexivity].
  exact (proj1 (proj2 (proj2
           (C5_region_failure_unrecorded Scenario.failing_model
              Scenario.frame (loop_init [ProposeRegions])
              (100, 100, 120, 120) _ H1 H2)))).
Defined.

(** ** The request loop *)

Section ServiceFacts.

#[local] Set Default Proof Using "Type".

Variable detectMultiScale : ndarray -> exn + list (Z * Z * Z * Z).
Variable model : ndarray -> Q -> exn + list yolo_result.
Variable EMOTION_MODE : string.
Variable json_loads : string -> exn + json.
Variable b64decode : string -> exn + string.
Variable imdecode : string -> exn + option ndarray.
Variable print_json : response -> exn + unit.

Lemma dict_get_non_object payload key :
  (forall members, payload <> JObj members) ->
  dict_get payload key =
  inl (AttributeError
         ("'" ++ type_name payload ++ "' object has no attribute 'get'")).
Proof.
  intro H. destruct payload; try reflexivity.
  exfalso. exact (H members eq_refl).
Qed.

(** C1 (one response per request), where the code breaks it.  When a line
    is the text of a JSON value that is not an object, the [try] block
    raises on [payload.get], and so does the handler, which calls
    [payload.get] again: the exception leaves [main_loop], which prints no
    response for the line and reads no later line. *)
Theorem C1_non_object_payload bound line rest payload :
  strip line <> "" ->
  json_loads (strip line) = inr payload ->
  (forall members, payload <> JObj members) ->
  main_loop_from detectMultiScale model EMOTION_MODE json_loads b64decode
                 imdecode print_json bound (line :: rest) =
  ([], Some (AttributeError
               ("'" ++ type_name payload ++
                "' object has no attribute 'get'"))).
Proof.
  intros Hline Hloads Hobj. simpl.
  destruct (String.eqb (strip line) "") eqn:E.
  - apply String.eqb_eq in E. contradiction.
  - unfold handle_line. rewrite Hloads. unfold serve, handler.
    rewrite (dict_get_non_object payload "id" Hobj). reflexivity.
Qed.

Lemma handler_object bound e :
  object_bound bound ->
  exists out,
    handler bound e = inr out /\ failure_response out.
Proof.
  intro Hb. unfold handler.
  destruct bound as [[| | | | |members]|]; try contradiction; simpl.
  - eexists. split; [reflexivity|]. repeat split. discriminate.
  - eexists. split; [reflexivity|]. repeat split. discriminate.
Qed.

(** On a line that is no JSON text or the text of an object, one iteration
    prints one response: that of the frame, or a failure response. *)
Lemma handle_line_object bound line :
  object_bound bound ->
  object_line json_loads line ->
  exists bound' out,
    handle_line detectMultiScale model EMOTION_MODE json_loads b64decode
                imdecode bound (strip line) = (bound', inr out) /\
    object_bound bound' /\
    (resp_error out = None \/ failure_response out).
Proof.
  intros Hb Hl. unfold handle_line, object_line in *.
  destruct (json_loads (strip line)) as [e|payload].
  - destruct (handler_object bound e Hb) as (out & Hout & Hf).
    exists bound, out. rewrite Hout. auto.
  - destruct payload as [| | | | |members]; try contradiction.
    destruct (serve detectMultiScale model EMOTION_MODE b64decode imdecode
                    (JObj members)) as [e|out] eqn:Hs.
    + destruct (handler_object (Some (JObj members)) e I)
        as (out & Hout & Hf).
      exists (Some (JObj members)), out. rewrite Hout. simpl. auto.
    + exists (Some (JObj members)), out. split; [reflexivity|].
      split; [exact I|]. left.
      unfold serve, bind in Hs.
      repeat match type of Hs with
             | match ?x with _ => _ end = _ => destruct x; try discriminate
             end.
      injection Hs as <-. reflexivity.
Qed.

(** X23.  When every line is no JSON text or the text of an object, and
    [print] raises on no response, [main_loop] prints one response for each
    line that is not blank, and ends with the input. *)
Lemma one_response_per_object_line stdin : forall bound,
  object_bound bound ->
  (forall line, In line stdin -> object_line json_loads line) ->
  (forall out, print_json out = inr tt) ->
  exists outs,
    main_loop_from detectMultiScale model EMOTION_MODE json_loads b64decode
                   imdecode print_json bound stdin = (outs, None) /\
    List.length outs = List.length (filter nonblank stdin) /\
    forall out, In out outs -> resp_error out = None \/ failure_response out.
Proof.
  induction stdin as [|line rest IH]; intros bound Hb Hlines Hprint.
  - exists []. simpl. repeat split. intros out [].
  - cbn [main_loop_from filter]. unfold nonblank at 1.
    destruct (String.eqb (strip line) "") eqn:E; simpl negb; cbv iota.
    + apply IH; [exact Hb| |exact Hprint].
      intros l Hl. apply Hlines. now right.
    + destruct (handle_line_object bound line Hb (Hlines line (or_introl eq_refl)))
        as (bound' & out & Hh & Hb' & Hout).
      rewrite Hh, Hprint.
      destruct (IH bound' Hb') as (outs & Hm & Hlen & Houts);
        [intros l Hl; apply Hlines; now right|exact Hprint|].
      rewrite Hm. exists (out :: outs). split; [reflexivity|].
      split; [simpl; now rewrite Hlen|].
      intros o [<-|Ho]; auto.
Qed.

(** A printed response is a failure response, or carries what
    [process_frame] returned for the frame of the request: the properties of
    the detections of [process_frame] are properties of the [faces] of
    every response. *)
Lemma handle_line_response bound line bound' out :
  handle_line detectMultiScale model EMOTION_MODE json_loads b64decode
              imdecode bound line = (bound', inr out) ->
  failure_response out \/
  exists frame log r,
    process_frame detectMultiScale model EMOTION_MODE frame = (log, inr r) /\
    response_of r out.
Proof.
  assert (Hfail : forall b e o, handler b e = inr o -> failure_response o).
  { intros b e o. unfold handler, bind.
    destruct b as [p|]; [destruct (dict_get p "id"); [discriminate|]|];
      intro H; injection H as <-; repeat split; discriminate. }
  unfold handle_line.
  destruct (json_loads line) as [e|payload].
  - intro H. injection H as _ H. left. eapply Hfail; eauto.
  - destruct (serve detectMultiScale model EMOTION_MODE b64decode imdecode
                    payload) as [e|o] eqn:Hs.
    + intro H. injection H as _ H. left.
      apply (Hfail (Some payload) e). exact H.
    + intro H. injection H as _ <-. right.
      unfold serve, bind in Hs.
      destruct (dict_get payload "id"); [discriminate|].
      destruct (dict_get payload "image"); [discriminate|].
      destruct (decode_image b64decode imdecode j0) as [|frame];
        [discriminate|].
      destruct (process_frame detectMultiScale model EMOTION_MODE frame)
        as [log [e|r]] eqn:Hp; simpl in Hs; [discriminate|].
      injection Hs as <-. exists frame, log, r.
      split; [exact Hp|]. repeat split.
Qed.

(** X24.  Every response that [main_loop] prints is a failure response (an
    [error], no face, no dominant emotion) or carries, with no [error], what
    [process_frame] returned for a frame: its detections, dominant emotion,
    dimensions and diagnostics. *)
Lemma main_loop_response stdin : forall bound outs raised out,
  main_loop_from detectMultiScale model EMOTION_MODE json_loads b64decode
                 imdecode print_json bound stdin = (outs, raised) ->
  In out outs ->
  failure_response out \/
  exists frame log r,
    process_frame detectMultiScale model EMOTION_MODE frame = (log, inr r) /\
    response_of r out.
Proof.
  induction stdin as [|line rest IH]; intros bound outs raised out H Hin.
  - injection H as <- _. destruct Hin.
  - cbn [main_loop_from] in H.
    destruct (String.eqb (strip line) ""); [eapply IH; eauto|].
    destruct (handle_line detectMultiScale model EMOTION_MODE json_loads
                b64decode imdecode bound (strip line))
      as [bound' [e|o]] eqn:Hh.
    + injection H as <- _. destruct Hin.
    + destruct (print_json o); [injection H as <- _; destruct Hin|].
      destruct (main_loop_from detectMultiScale model EMOTION_MODE json_loads
                  b64decode imdecode print_json bound' rest) as [outs' raised'] eqn:Hm.
      injection H as <- _. destruct Hin as [<-|Hin].
      * eapply handle_line_response; eauto.
      * eapply IH; eauto.
Qed.

End ServiceFacts.

(** A session of a request, a line that is no JSON text and a blank line:
    two responses, the second one a failure that carries the [id] of the
    request before it, since [payload] is still bound to that request. *)
Lemma object_lines_run :
  Scenario.session
    [Scenario.request_text ++ Scenario.newline;
     "not json" ++ Scenario.newline;
     Scenario.newline]%string =
  ([Scenario.silent_response;
    {| resp_id := JStr "a";
       resp_error := Some "Expecting value: line 1 column 1 (char 0)";
       resp_faces := []; resp_dominantEmotion := None;
       resp_frame := None; resp_debug := None |}],
   None).
Proof. vm_compute. reflexivity. Qed.

(** C1 on the session of the line [null] followed by a request: nothing is
    printed, for either line. *)
Lemma C1_non_object_payload_witness :
  strip ("null" ++ Scenario.newline)%string <> "" /\
  Scenario.session_loads (strip ("null" ++ Scenario.newline)%string) =
    inr JNull /\
  (forall members, JNull <> JObj members) /\
  Scenario.session
    [("null" ++ Scenario.newline)%string;
     (Scenario.request_text ++ Scenario.newline)%string] =
  ([], Some (AttributeError "'NoneType' object has no attribute 'get'")).
Proof.
  assert (H1 : strip ("null" ++ Scenario.newline)%string <> "")
    by (vm_compute; discriminate).
  assert (H2 : Scenario.session_loads
                 (strip ("null" ++ Scenario.newline)%string) = inr JNull)
    by (vm_compute; reflexivity).
  assert (H3 : forall members, JNull <> JObj members)
    by (intros members; discriminate).
  split; [exact H1|]. split; [exact H2|]. split; [exact H3|].
  exact (C1_non_object_payload
           (Scenario.proposer_of Scenario.one_face) Scenario.silent_model
           "cascade" Scenario.session_loads Scenario.b64_of
           (Scenario.imdecode_of "AAAA") Scenario.print_ok None
           ("null" ++ Scenario.newline)%string
           [(Scenario.request_text ++ Scenario.newline)%string]
           JNull H1 H2 H3).
Defined.

(** * Further properties *)

(** ** Colours and labels *)

Lemma bytes_below_256 (P : N -> bool) :
  forallb P (map N.of_nat (seq 0 256)) = true ->
  forall n, (n < 256)%N -> P n = true.
Proof.
  intros H n Hn. rewrite forallb_forall in H. apply H.
  apply in_map_iff. exists (N.to_nat n). split; [apply N2Nat.id|].
  apply in_seq. lia.
Qed.

Lemma format_02X_byte (n : N) :
  (n < 256)%N ->
  String.length (format_02X n) = 2%nat /\ parse_hex2 (format_02X n) = Some n.
Proof.
  intro Hn.
  assert (H : ((String.length (format_02X n) =? 2)%nat &&
               match parse_hex2 (format_02X n) with
               | Some m => (m =? n)%N
               | None => false
               end)%bool = true).
  { apply (bytes_below_256
             (fun n => ((String.length (format_02X n) =? 2)%nat &&
                        match parse_hex2 (format_02X n) with
                        | Some m => (m =? n)%N
                        | None => false
                        end)%bool)); [vm_compute; reflexivity|exact Hn]. }
  apply andb_true_iff in H. destruct H as [Hl Hp].
  apply Nat.eqb_eq in Hl. split; [exact Hl|].
  destruct (parse_hex2 (format_02X n)) as [m|]; [|discriminate].
  apply N.eqb_eq in Hp. now subst.
Qed.

Lemma two_characters (s : string) :
  String.length s = 2%nat ->
  exists a b, s = String a (String b EmptyString).
Proof.
  destruct s as [|a [|b [|c s]]]; simpl; intro H; try discriminate.
  now exists a, b.
Qed.

(** X1.  [bgr_to_rgb_hex] on three bytes writes seven characters, "#" and
    two upper-case hexadecimal digits for each of red, green and blue, from
    which the three bytes are read back. *)
Theorem bgr_to_rgb_hex_round_trip (b g r : N) :
  (b < 256)%N -> (g < 256)%N -> (r < 256)%N ->
  String.length (bgr_to_rgb_hex (b, g, r)) = 7%nat /\
  rgb_hex_to_bgr (bgr_to_rgb_hex (b, g, r)) = Some (b, g, r).
Proof.
  intros Hb Hg Hr.
  destruct (format_02X_byte b Hb) as [Lb Pb].
  destruct (format_02X_byte g Hg) as [Lg Pg].
  destruct (format_02X_byte r Hr) as [Lr Pr].
  unfold bgr_to_rgb_hex.
  destruct (two_characters _ Lb) as (b1 & b2 & Eb).
  destruct (two_characters _ Lg) as (g1 & g2 & Eg).
  destruct (two_characters _ Lr) as (r1 & r2 & Er).
  rewrite Eb, Eg, Er in *. simpl.
  split; [reflexivity|].
  simpl in Pb, Pg, Pr. unfold parse_hex2.
  destruct (hex_value r1), (hex_value r2); try discriminate.
  destruct (hex_value g1), (hex_value g2); try discriminate.
  destruct (hex_value b1), (hex_value b2); try discriminate.
  congruence.
Qed.

Lemma bgr_to_rgb_hex_round_trip_witness :
  (0 < 256)%N /\ (165 < 256)%N /\ (255 < 256)%N /\
  rgb_hex_to_bgr (bgr_to_rgb_hex (0, 165, 255)%N) = Some (0, 165, 255)%N.
Proof.
  assert (H0 : (0 < 256)%N) by reflexivity.
  assert (H1 : (165 < 256)%N) by reflexivity.
  assert (H2 : (255 < 256)%N) by reflexivity.
  split; [exact H0|]. split; [exact H1|]. split; [exact H2|].
  exact (proj2 (bgr_to_rgb_hex_round_trip 0 165 255 H0 H1 H2)).
Defined.

(** X2.  The colours of the table tell the labels apart: two labels of the
    same colour string are the same label. *)
Theorem label_colors_distinct (a b : Emotion) :
  bgr_to_rgb_hex (colors_bgr a) = bgr_to_rgb_hex (colors_bgr b) -> a = b.
Proof.
  destruct a, b; intro H; try reflexivity; vm_compute in H; discriminate H.
Qed.

Lemma label_colors_distinct_witness :
  bgr_to_rgb_hex (colors_bgr Sad) = bgr_to_rgb_hex (colors_bgr Sad) /\
  Sad = Sad.
Proof.
  split; [reflexivity|].
  exact (label_colors_distinct Sad Sad eq_refl).
Defined.

(** X3.  The class index of the classifier and the label determine each
    other: [label_of] gives a label exactly on the eight indices 0..7, the
    label of the index of a label is that label, and an index that gives a
    label is the index of that label. *)
Theorem label_of_index (i : Z) (e : Emotion) :
  label_of (emotion_index e) = Some e /\
  (label_of i = Some e <-> i = emotion_index e) /\
  (label_of i = None <-> i < 0 \/ 8 <= i).
Proof.
  split; [now destruct e|].
  assert (Hcases : 0 <= i < 8 ->
                   i = 0 \/ i = 1 \/ i = 2 \/ i = 3 \/
                   i = 4 \/ i = 5 \/ i = 6 \/ i = 7) by lia.
  unfold label_of. change (Z.of_nat (List.length emotions)) with 8.
  destruct (0 <=? i) eqn:E0; destruct (i <? 8) eqn:E8; simpl;
    try apply Z.leb_le in E0; try apply Z.leb_gt in E0;
    try apply Z.ltb_lt in E8; try apply Z.ltb_ge in E8.
  - destruct (Hcases (conj E0 E8)) as [->|[->|[->|[->|[->|[->|[->| ->]]]]]]];
      simpl; (split; [split; intro H;
                        [injection H as <-; reflexivity
                        |destruct e; simpl in H; try discriminate H; reflexivity]
                     |split; intro H; [discriminate H|lia]]).
  - split; [split; intro H; [discriminate H|destruct e; simpl in H; lia]|].
    split; [lia|reflexivity].
  - split; [split; intro H; [discriminate H|destruct e; simpl in H; lia]|].
    split; [lia|reflexivity].
  - lia.
Qed.

(** ** The two scans of the classifier output *)

Lemma scan_box_count st b :
  roi_box_count (scan_box st b) =
  (roi_box_count st + List.length (box_outputs [b]))%nat.
Proof.
  unfold scan_box, box_outputs. simpl.
  destruct (b_conf b) as [c|]; [|simpl; lia].
  destruct (b_cls b) as [i|]; [|simpl; lia].
  destruct (Qgtb c (best_conf st)); simpl; lia.
Qed.

Lemma scan_boxes_count bs : forall st,
  roi_box_count (fold_left scan_box bs st) =
  (roi_box_count st + List.length (box_outputs bs))%nat.
Proof.
  induction bs as [|b bs IH]; intro st.
  - simpl. lia.
  - rewrite box_outputs_cons, length_app. cbn [fold_left].
    rewrite IH, scan_box_count. lia.
Qed.

Lemma box_outputs_localized bs :
  filter is_localized (box_outputs bs) = box_outputs bs.
Proof.
  induction bs as [|b bs IH]; [reflexivity|].
  rewrite box_outputs_cons, filter_app, IH. f_equal.
  unfold box_outputs. simpl.
  destruct (b_conf b); [|reflexivity]. now destruct (b_cls b).
Qed.

(** X4.  The count [roiBoxes] of the diagnostics is the number of localized
    outputs of the region: the boxes whose confidence and class convert, in
    the results that have boxes.  A region-wide output is not counted. *)
Theorem roi_box_count_localized (results : list yolo_result) :
  roi_box_count (classify_region results) =
  List.length (filter is_localized (outputs results)).
Proof.
  unfold classify_region, outputs.
  assert (H : forall st,
             roi_box_count (fold_left scan_result results st) =
             (roi_box_count st +
              List.length
                (filter is_localized (flat_map result_outputs results)))%nat).
  { induction results as [|r results IH]; intro st; simpl; [lia|].
    rewrite IH, filter_app, length_app.
    assert (Hr : roi_box_count (scan_result st r) =
                 (roi_box_count st +
                  List.length (filter is_localized (result_outputs r)))%nat).
    { unfold scan_result, result_outputs.
      destruct (boxes r) as [[|b bs]|].
      2: now rewrite box_outputs_localized, scan_boxes_count.
      all: destruct (probs r) as [[[i|] c|]|]; simpl; try lia.
      all: destruct (label_of i); simpl; try lia.
      all: match goal with
           | |- context [Qgtb ?q ?b] => destruct (Qgtb q b)
           end; simpl; lia. }
    rewrite Hr. lia. }
  rewrite H. reflexivity.
Qed.

(** X5.  The scan of the fallback attempt is the scan of the region loop
    on the localized outputs alone: it gives what [classify_region] gives on
    the results stripped of their region-wide output. *)
Theorem classify_full_ignores_probs (full_results : list yolo_result) :
  classify_full full_results =
  classify_region (map without_probs full_results).
Proof.
  unfold classify_full, classify_region.
  generalize region_init.
  induction full_results as [|fr rest IH]; intro st; [reflexivity|].
  simpl. rewrite IH. f_equal.
  unfold scan_full_result, scan_result, without_probs. simpl.
  destruct (boxes fr) as [[|b bs]|]; reflexivity.
Qed.

(** ** The region loop and its diagnostics *)

Lemma mark_classification_entry frame : forall dets entries,
  Forall2 (entry_of frame) dets entries ->
  Forall2 (entry_of frame) dets (mark_classification entries).
Proof.
  intros dets entries H. induction H as [|det r dets entries Hr Hrest IH].
  - constructor.
  - destruct entries as [|r' entries].
    + destruct r as [dbg| |]; simpl; constructor; auto.
    + replace (mark_classification (r :: r' :: entries))
        with (r :: mark_classification (r' :: entries))
        by (destruct r; reflexivity).
      constructor; assumption.
Qed.

Lemma roi_cols frame x y w h :
  nd_cols (roi_of frame (x, y, w, h)) =
  Z.to_nat
    (slice_index (nd_cols frame)
                 (Z.min (Z.of_nat (nd_cols frame)) (x + w + padding)) -
     slice_index (nd_cols frame) (Z.max 0 (x - padding))).
Proof. reflexivity. Qed.

Lemma roi_rows frame x y w h :
  nd_rows (roi_of frame (x, y, w, h)) =
  Z.to_nat
    (slice_index (nd_rows frame)
                 (Z.min (Z.of_nat (nd_rows frame)) (y + h + padding)) -
     slice_index (nd_rows frame) (Z.max 0 (y - padding))).
Proof. reflexivity. Qed.

Lemma axis_small (n : nat) (x w : Z) :
  0 <= x + w + padding -> w < 10 ->
  (Z.to_nat
     (slice_index n (Z.min (Z.of_nat n) (x + w + padding)) -
      slice_index n (Z.max 0 (x - padding))) < 50)%nat.
Proof.
  unfold slice_index, padding. intros H0 Hw.
  destruct (Z.min (Z.of_nat n) (x + w + 20) <? 0) eqn:E2;
    destruct (Z.max 0 (x - 20) <? 0) eqn:E1;
    try apply Z.ltb_lt in E1; try apply Z.ltb_ge in E1;
    try apply Z.ltb_lt in E2; try apply Z.ltb_ge in E2; lia.
Qed.

Lemma axis_large (n : nat) (x w : Z) :
  0 <= x -> 50 <= w -> x + w <= Z.of_nat n ->
  (50 <= Z.to_nat
           (slice_index n (Z.min (Z.of_nat n) (x + w + padding)) -
            slice_index n (Z.max 0 (x - padding))))%nat.
Proof.
  unfold slice_index, padding. intros H0 Hw Hn.
  destruct (Z.min (Z.of_nat n) (x + w + 20) <? 0) eqn:E2;
    destruct (Z.max 0 (x - 20) <? 0) eqn:E1;
    try apply Z.ltb_lt in E1; try apply Z.ltb_ge in E1;
    try apply Z.ltb_lt in E2; try apply Z.ltb_ge in E2; lia.
Qed.

Section LoopProperties.

#[local] Set Default Proof Using "Type".

Variable model : ndarray -> Q -> exn + list yolo_result.

(** X6.  A proposed face that is under 10 pixels wide or high (and does not
    end left of or above the padding) gives a region under 50 pixels: the
    loop passes it over, without a call of the classifier, a detection or a
    diagnostics record. *)
Theorem small_face_skipped frame st x y w h :
  (0 <= x + w + padding /\ w < 10) \/ (0 <= y + h + padding /\ h < 10) ->
  process_face model frame st (x, y, w, h) = st.
Proof.
  intro H. unfold process_face.
  destruct (region_of frame (x, y, w, h)) as [[[rx1 ry1] rx2] ry2].
  assert (Hs : too_small (roi_of frame (x, y, w, h)) = true).
  { unfold too_small. apply orb_true_iff.
    destruct H as [[H0 Hw]|[H0 Hh]].
    - right. apply Nat.ltb_lt. rewrite roi_cols. now apply axis_small.
    - left. apply Nat.ltb_lt. rewrite roi_rows. now apply axis_small. }
  now rewrite Hs.
Qed.

(** X7.  A proposed face that lies in the frame and is at least 50 pixels
    wide and high is never passed over: the classifier is called on its
    region. *)
Theorem large_face_classified frame st x y w h :
  0 <= x -> 0 <= y -> 50 <= w -> 50 <= h ->
  x + w <= Z.of_nat (nd_cols frame) ->
  y + h <= Z.of_nat (nd_rows frame) ->
  too_small (roi_of frame (x, y, w, h)) = false /\
  exists extra,
    calls (process_face model frame st (x, y, w, h)) =
    calls st ++ ClassifyRegion :: extra.
Proof.
  intros Hx Hy Hw Hh Hcols Hrows.
  assert (Hs : too_small (roi_of frame (x, y, w, h)) = false).
  { unfold too_small. apply orb_false_iff. split; apply Nat.ltb_ge.
    - rewrite roi_rows. now apply axis_large.
    - rewrite roi_cols. now apply axis_large. }
  split; [exact Hs|]. unfold process_face.
  destruct (region_of frame (x, y, w, h)) as [[[rx1 ry1] rx2] ry2].
  rewrite Hs.
  destruct (model (roi_of frame (x, y, w, h)) (5 # 100)) as [e|results].
  - exists []. reflexivity.
  - unfold finish_face.
    destruct (best_emotion (classify_region results)).
    + exists []. reflexivity.
    + destruct (fallback_attempt model frame _ _) as [[e c] dbg].
      exists [ClassifyFallback]. reflexivity.
Qed.

(** X8.  When the fallback call of the classifier raises, the face still
    gives a detection, without a label and of the colour "#FFFFFF"; the
    counts are unchanged, and the diagnostics record of the face holds the
    message of the exception under [fallbackError]. *)
Theorem fallback_failure_recorded frame st face results fe :
  too_small (roi_of frame face) = false ->
  model (roi_of frame face) (5 # 100) = inr results ->
  best_emotion (classify_region results) = None ->
  model frame (5 # 100) = inl fe ->
  exists det dbg entries,
    results_output (process_face model frame st face) =
      results_output st ++ [det] /\
    emotion det = None /\ color det = "#FFFFFF" /\
    emotion_counts (process_face model frame st face) = emotion_counts st /\
    debug_entries (process_face model frame st face) =
      entries ++ [FaceDebug dbg] /\
    fallbackError dbg = Some (str fe) /\
    fallbackUsed dbg = false /\ fallbackFullBoxes dbg = None.
Proof.
  intros Hsmall Hroi Hnone Hfull. unfold process_face.
  destruct (region_of frame face) as [[[rx1 ry1] rx2] ry2].
  rewrite Hsmall, Hroi. unfold finish_face. rewrite Hnone.
  unfold fallback_attempt. rewrite Hfull, Hnone. simpl.
  do 3 eexists. repeat split; reflexivity.
Qed.

Lemma finish_face_entry frame st rx1 ry1 rx2 ry2 results :
  Forall2 (entry_of frame) (results_output st) (debug_entries st) ->
  Forall2 (entry_of frame)
    (results_output (finish_face model frame st rx1 ry1 rx2 ry2 results))
    (debug_entries (finish_face model frame st rx1 ry1 rx2 ry2 results)).
Proof.
  intro H. unfold finish_face.
  assert (Hentries :
            Forall2 (entry_of frame) (results_output st)
              (if classification (classify_region results)
               then mark_classification (debug_entries st)
               else debug_entries st)).
  { destruct (classification (classify_region results)); [|exact H].
    now apply mark_classification_entry. }
  destruct (best_emotion (classify_region results)) as [e|] eqn:He.
  - simpl. apply Forall2_app; [exact Hentries|].
    constructor; [|constructor]. simpl. repeat split.
  - unfold fallback_attempt.
    destruct (model frame (5 # 100)) as [fe|full_results].
    + simpl. apply Forall2_app; [exact Hentries|].
      constructor; [|constructor]. simpl. repeat split.
    + destruct (is_some (best_emotion (classify_full full_results)) &&
                Qgtb (best_conf (classify_full full_results))
                     (best_conf (classify_region results))) eqn:Hc.
      * simpl. apply Forall2_app; [exact Hentries|].
        constructor; [|constructor]. simpl. repeat split.
        apply andb_true_iff in Hc. destruct Hc as [Hs _].
        destruct (best_emotion (classify_full full_results));
          [discriminate|discriminate Hs].
      * simpl. apply Forall2_app; [exact Hentries|].
        constructor; [|constructor]. simpl. repeat split.
Qed.

Lemma region_stage_entries frame log faces :
  Forall2 (entry_of frame)
    (results_output (region_stage model frame log faces))
    (debug_entries (region_stage model frame log faces)).
Proof.
  unfold region_stage.
  apply (fold_left_invariant (process_face model frame)
           (fun st => Forall2 (entry_of frame) (results_output st)
                              (debug_entries st))).
  - constructor.
  - intros st face _ Hst. unfold process_face.
    destruct (region_of frame face) as [[[rx1 ry1] rx2] ry2].
    destruct (too_small (roi_of frame face)); [exact Hst|].
    destruct (model (roi_of frame face) (5 # 100)) as [e|results];
      [exact Hst|].
    now apply finish_face_entry.
Qed.

Lemma process_face_sizes frame st face :
  (List.length (results_output (process_face model frame st face)) <=
   S (List.length (results_output st)))%nat /\
  (List.length (calls (process_face model frame st face)) <=
   2 + List.length (calls st))%nat.
Proof.
  destruct (process_face_step model frame st face)
    as [(Hr & _ & [Hc|Hc]) | (_ & d & extra & Hr & _ & _)].
  - rewrite Hr, Hc. lia.
  - rewrite Hr, Hc, length_app. simpl. lia.
  - rewrite Hr, length_app. simpl. split; [lia|].
    unfold process_face.
    destruct (region_of frame face) as [[[rx1 ry1] rx2] ry2].
    destruct (too_small (roi_of frame face)); [lia|].
    destruct (model (roi_of frame face) (5 # 100)) as [e|results];
      [simpl; rewrite length_app; simpl; lia|].
    unfold finish_face.
    destruct (best_emotion (classify_region results));
      [|destruct (fallback_attempt model frame _ _) as [[e c] dbg]];
      simpl; rewrite length_app; simpl; lia.
Qed.

Lemma region_stage_sizes frame faces : forall st,
  (List.length
     (results_output (fold_left (process_face model frame) faces st)) <=
   List.length faces + List.length (results_output st))%nat /\
  (List.length (calls (fold_left (process_face model frame) faces st)) <=
   2 * List.length faces + List.length (calls st))%nat.
Proof.
  induction faces as [|face faces IH]; intro st; simpl; [lia|].
  destruct (IH (process_face model frame st face)) as [Hr Hc].
  destruct (process_face_sizes frame st face) as [Hr' Hc']. lia.
Qed.

End LoopProperties.

(** ** The whole of [process_frame] *)

Section FrameProperties.

#[local] Set Default Proof Using "Type".

Variable detectMultiScale : ndarray -> exn + list (Z * Z * Z * Z).
Variable model : ndarray -> Q -> exn + list yolo_result.
Variable EMOTION_MODE : string.

(** X9.  [process_frame] raises exactly when the mode lets the face
    proposer run and the proposer raises, with the exception of the
    proposer; no failure of the classifier, on a region, on the fallback or
    on the direct attempt, makes it raise. *)
Theorem process_frame_raises frame e :
  snd (process_frame detectMultiScale model EMOTION_MODE frame) = inl e <->
  mode_in EMOTION_MODE ["cascade"; "hybrid"] = true /\
  detectMultiScale frame = inl e.
Proof.
  unfold process_frame.
  destruct (mode_in EMOTION_MODE ["cascade"; "hybrid"]).
  - destruct (detectMultiScale frame) as [e'|faces]; simpl.
    + split; [intro H; injection H as <-; auto|].
      intros [_ H]. injection H as <-. reflexivity.
    + split; [discriminate|]. intros [_ H]. discriminate H.
  - simpl. split; [discriminate|]. intros [H _]. discriminate H.
Qed.

Lemma accumulated_region_stage frame log r :
  process_frame detectMultiScale model EMOTION_MODE frame = (log, inr r) ->
  exists log0,
    r = aggregate frame
          (direct_stage model EMOTION_MODE frame
             (region_stage model frame log0
                (proposed detectMultiScale EMOTION_MODE frame))) /\
    log = calls (direct_stage model EMOTION_MODE frame
                   (region_stage model frame log0
                      (proposed detectMultiScale EMOTION_MODE frame))) /\
    (List.length log0 <= 1)%nat /\
    (forall c, In c log0 -> c = ProposeRegions) /\
    accumulated detectMultiScale model EMOTION_MODE frame =
    results_output (region_stage model frame log0
                      (proposed detectMultiScale EMOTION_MODE frame)).
Proof.
  intro H. apply process_frame_returns in H.
  destruct H as (log0 & faces & Hr & Hlog & Hmode).
  assert (Hp : proposed detectMultiScale EMOTION_MODE frame = faces).
  { unfold proposed.
    destruct Hmode as [(-> & _ & ->) | (-> & _ & ->)]; reflexivity. }
  exists log0. rewrite Hp. split; [exact Hr|]. split; [exact Hlog|].
  split; [|split].
  - destruct Hmode as [(_ & -> & _) | (_ & -> & _)]; simpl; lia.
  - destruct Hmode as [(_ & -> & _) | (_ & -> & _)]; simpl;
      intros c Hc; [destruct Hc as [<-|[]]; reflexivity|destruct Hc].
  - unfold accumulated. rewrite Hp. symmetry. apply region_stage_log.
Qed.

(** X10.  The classifier and the proposer are called at most twice per
    proposed face (region, fallback) and twice more (proposer, direct
    attempt) for one frame. *)
Theorem calls_bounded frame :
  (List.length (fst (process_frame detectMultiScale model EMOTION_MODE frame))
   <= 2 * List.length (proposed detectMultiScale EMOTION_MODE frame) + 2)%nat.
Proof.
  destruct (process_frame detectMultiScale model EMOTION_MODE frame)
    as [log [e|r]] eqn:H.
  - unfold process_frame in H.
    destruct (mode_in EMOTION_MODE ["cascade"; "hybrid"]);
      [|discriminate H].
    destruct (detectMultiScale frame); [|discriminate H].
    injection H as <- _. simpl. lia.
  - apply accumulated_region_stage in H.
    destruct H as (log0 & _ & -> & Hlog0 & _ & _). simpl.
    set (faces := proposed detectMultiScale EMOTION_MODE frame).
    pose proof (proj2 (region_stage_sizes model frame faces (loop_init log0)))
      as Hc.
    fold (region_stage model frame log0 faces) in Hc. simpl in Hc.
    destruct (direct_stage_cases model EMOTION_MODE frame
                (region_stage model frame log0 faces))
      as [(_ & _ & [(_ & Hd) | (_ & Hd & _)])
         | (_ & results & _ & _ & _ & _ & Hd)];
      rewrite Hd, ?length_app; simpl; lia.
Qed.

(** X11.  The returned detections are never a mix: they are all
    detections of the region loop (no [source], at most one per proposed
    face, in the order of the faces' diagnostics records) or all detections
    of the direct attempt (labelled, of the source [direct]). *)
Theorem detections_homogeneous frame log r :
  process_frame detectMultiScale model EMOTION_MODE frame = (log, inr r) ->
  (Forall region_detection (fr_faces r) /\
   (List.length (fr_faces r) <=
    List.length (proposed detectMultiScale EMOTION_MODE frame))%nat /\
   fr_faces r = accumulated detectMultiScale model EMOTION_MODE frame) \/
  (Forall direct_detection (fr_faces r) /\ fr_faces r <> [] /\
   In ClassifyDirect log).
Proof.
  intro H. apply accumulated_region_stage in H.
  destruct H as (log0 & -> & -> & _ & _ & Hacc). simpl.
  set (faces := proposed detectMultiScale EMOTION_MODE frame) in *.
  destruct (direct_stage_cases model EMOTION_MODE frame
              (region_stage model frame log0 faces))
    as [(Hres & _) | (_ & results & _ & Hne & Hres & _ & Hc)].
  - left. rewrite Hres. split; [apply region_stage_detections|].
    split; [|now rewrite Hacc].
    pose proof (proj1 (region_stage_sizes model frame faces (loop_init log0)))
      as Hl.
    simpl in Hl. unfold region_stage. lia.
  - right. rewrite Hres, Hc. split; [apply direct_detections_direct|].
    split; [exact Hne|]. apply in_or_app. right. now left.
Qed.

(** X12.  When the direct call of the classifier raises, the detections
    accumulated by the region loop are returned as they are, and the
    message of the exception is the last diagnostics record, under
    [directError]. *)
Theorem direct_failure_recorded frame log r de :
  process_frame detectMultiScale model EMOTION_MODE frame = (log, inr r) ->
  In ClassifyDirect log ->
  model frame (25 # 100) = inl de ->
  fr_faces r = accumulated detectMultiScale model EMOTION_MODE frame /\
  (forall det, In det (fr_faces r) -> emotion det = None) /\
  fr_dominant r = None /\
  exists entries, fr_debug r = entries ++ [DirectError (str de)].
Proof.
  intros H Hin Hm. apply accumulated_region_stage in H.
  destruct H as (log0 & -> & -> & _ & Hlog0 & Hacc).
  set (faces := proposed detectMultiScale EMOTION_MODE frame) in *.
  set (st := region_stage model frame log0 faces) in *.
  assert (Hnot : ~ In ClassifyDirect (calls st)).
  { intro Hc. apply region_stage_calls in Hc.
    destruct Hc as [Hc|[Hc|Hc]]; try discriminate Hc.
    specialize (Hlog0 _ Hc). discriminate Hlog0. }
  unfold aggregate. simpl.
  unfold direct_stage in *.
  destruct (direct_condition EMOTION_MODE st) eqn:Hcond;
    [|contradiction].
  rewrite Hm. simpl.
  apply direct_condition_true in Hcond. destruct Hcond as [_ Hnone].
  split; [now rewrite Hacc|]. split; [exact Hnone|].
  split; [|eexists; reflexivity].
  pose proof (region_stage_tally model frame log0 faces) as Ht.
  fold st in Ht. rewrite Ht, (tally_unlabelled _ Hnone).
  now rewrite recount_empty, (tally_unlabelled _ Hnone).
Qed.

End FrameProperties.

Section ModeProperties.

#[local] Set Default Proof Using "Type".

Variable detectMultiScale : ndarray -> exn + list (Z * Z * Z * Z).
Variable model : ndarray -> Q -> exn + list yolo_result.

(** X13.  When the direct attempt did not run (as in the mode [cascade]),
    the diagnostics are the records of the returned detections, one for
    one and in their order: the [faceRect] of a record, clamped to the
    frame, is the box of its detection, and the confidence of the detection
    is the [fallbackBestConf] of the record when [fallbackUsed] is set (the
    detection is then labelled) and its [bestConf] otherwise. *)
Theorem diagnostics_match_detections EMOTION_MODE frame log r :
  process_frame detectMultiScale model EMOTION_MODE frame = (log, inr r) ->
  ~ In ClassifyDirect log ->
  Forall2 (entry_of frame) (fr_faces r) (fr_debug r).
Proof.
  intros H Hnot. apply process_frame_returns in H.
  destruct H as (log0 & faces & -> & -> & _). simpl.
  unfold detect in *.
  destruct (direct_stage_cases model EMOTION_MODE frame
              (region_stage model frame log0 faces))
    as [(_ & _ & [(Hcond & _) | (_ & Hc & _)])
       | (_ & results & _ & _ & _ & _ & Hc)].
  - unfold direct_stage. rewrite Hcond. apply region_stage_entries.
  - exfalso. apply Hnot. rewrite Hc. apply in_or_app. right. now left.
  - exfalso. apply Hnot. rewrite Hc. apply in_or_app. right. now left.
Qed.

(** X14.  In the mode [direct] the classifier is called once, on the whole
    frame at the floor 0.25, and nothing else is called; every returned
    detection is labelled and of the source [direct]; and the dominant
    emotion is absent exactly when no detection is returned. *)
Theorem direct_mode_detections frame r :
  snd (process_frame detectMultiScale model "direct" frame) = inr r ->
  fst (process_frame detectMultiScale model "direct" frame) =
    [ClassifyDirect] /\
  Forall direct_detection (fr_faces r) /\
  (fr_dominant r = None <-> fr_faces r = []).
Proof.
  intro H.
  assert (Hpf : process_frame detectMultiScale model "direct" frame =
                (calls (detect model "direct" frame [] []),
                 inr (aggregate frame (detect model "direct" frame [] []))))
    by reflexivity.
  rewrite Hpf in *. simpl in H. injection H as <-. simpl.
  rewrite detect_counts.
  unfold detect, region_stage. simpl.
  unfold direct_stage, direct_condition. simpl.
  destruct (model frame (25 # 100)) as [de|results].
  - simpl. repeat split; constructor.
  - destruct (direct_detections frame results) as [|p picked] eqn:Hp.
    + simpl. repeat split; constructor.
    + simpl. split; [reflexivity|].
      pose proof (direct_detections_direct frame results) as Hd.
      rewrite Hp in Hd. split; [exact Hd|].
      split; [|discriminate].
      intro Hnone. exfalso.
      inversion Hd as [|? ? (_ & _ & Hlab) _]; subst.
      pose proof (tally_spec (p :: picked)) as Hok.
      apply (Hlab (dominant_of_none _ _ Hok Hnone p (or_introl eq_refl))).
Qed.

End ModeProperties.

(** ** The request loop, line by line *)

Lemma string_strong_ind (P : string -> Prop) :
  (forall s, (forall t, (String.length t < String.length s)%nat -> P t) ->
             P s) ->
  forall s, P s.
Proof.
  intros H s. remember (String.length s) as n eqn:Hn. revert s Hn.
  induction n as [n IH] using lt_wf_ind. intros s Hn. apply H.
  intros t Ht. apply (IH (String.length t)); [lia|reflexivity].
Qed.

Lemma lstrip_cons a r1 :
  lstrip (String a r1) =
  if is_space a then lstrip r1
  else
    match r1 with
    | EmptyString => String a r1
    | String b r2 =>
        if is_space2 a b then lstrip r2
        else
          match r2 with
          | EmptyString => String a r1
          | String c r3 =>
              if is_space3 a b c then lstrip r3 else String a r1
          end
    end.
Proof. destruct r1 as [|b [|c r3]]; reflexivity. Qed.

Lemma all_space_cons a r1 :
  all_space (String a r1) =
  if is_space a then all_space r1
  else
    match r1 with
    | EmptyString => false
    | String b r2 =>
        if is_space2 a b then all_space r2
        else
          match r2 with
          | EmptyString => false
          | String c r3 => if is_space3 a b c then all_space r3 else false
          end
    end.
Proof. destruct r1 as [|b [|c r3]]; reflexivity. Qed.

Lemma lstrip_all_space (s : string) :
  all_space s = true <-> lstrip s = "".
Proof.
  induction s as [s IH] using string_strong_ind.
  destruct s as [|a r1]; [simpl; tauto|].
  rewrite lstrip_cons, all_space_cons.
  destruct (is_space a); [apply IH; simpl; lia|].
  destruct r1 as [|b r2]; [split; discriminate|].
  destruct (is_space2 a b); [apply IH; simpl; lia|].
  destruct r2 as [|c r3]; [split; discriminate|].
  destruct (is_space3 a b c); [apply IH; simpl; lia|split; discriminate].
Qed.

Lemma all_space_of_lstrip (s : string) :
  all_space (lstrip s) = true -> all_space s = true.
Proof.
  induction s as [s IH] using string_strong_ind.
  destruct s as [|a r1]; [simpl; tauto|].
  rewrite lstrip_cons.
  destruct (is_space a) eqn:Ea.
  { intro H. rewrite all_space_cons, Ea. apply IH; [simpl; lia|exact H]. }
  destruct r1 as [|b r2]; [tauto|].
  destruct (is_space2 a b) eqn:Eb.
  { intro H. rewrite all_space_cons, Ea, Eb.
    apply IH; [simpl; lia|exact H]. }
  destruct r2 as [|c r3]; [tauto|].
  destruct (is_space3 a b c) eqn:Ec; [|tauto].
  intro H. rewrite all_space_cons, Ea, Eb, Ec.
  apply IH; [simpl; lia|exact H].
Qed.

Lemma rstrip_all_space (s : string) :
  rstrip s = "" <-> all_space s = true.
Proof.
  destruct s as [|a r]; [simpl; tauto|].
  change (rstrip (String a r))
    with (if all_space (String a r) then "" else String a (rstrip r)).
  destruct (all_space (String a r)); split; try reflexivity; discriminate.
Qed.

(** [strip] leaves nothing exactly of the texts that hold white space
    only. *)
Lemma strip_blank (s : string) : strip s = "" <-> all_space s = true.
Proof.
  unfold strip. rewrite rstrip_all_space. split.
  - apply all_space_of_lstrip.
  - intro H. apply lstrip_all_space in H. now rewrite H.
Qed.

Section LineProperties.

#[local] Set Default Proof Using "Type".

Variable detectMultiScale : ndarray -> exn + list (Z * Z * Z * Z).
Variable model : ndarray -> Q -> exn + list yolo_result.
Variable EMOTION_MODE : string.
Variable json_loads : string -> exn + json.
Variable b64decode : string -> exn + string.
Variable imdecode : string -> exn + option ndarray.
Variable print_json : response -> exn + unit.

Local Notation "'loop'" :=
  (main_loop_from detectMultiScale model EMOTION_MODE json_loads b64decode
                  imdecode print_json) (only parsing).
Local Notation "'handle'" :=
  (handle_line detectMultiScale model EMOTION_MODE json_loads b64decode
               imdecode) (only parsing).

Lemma loop_step bound line rest bound' out :
  strip line <> "" ->
  handle bound (strip line) = (bound', inr out) ->
  loop bound (line :: rest) = printed print_json out (loop bound' rest).
Proof.
  intros Hline Hh. cbn [main_loop_from]. unfold printed.
  destruct (String.eqb (strip line) "") eqn:E.
  - apply String.eqb_eq in E. contradiction.
  - rewrite Hh. destruct (print_json out); [reflexivity|].
    now destruct (loop bound' rest).
Qed.

(** X15.  A line made of white space only (the white space of
    [str.strip()], of one byte or more) is passed over: nothing is printed
    for it, and the rest of the input is handled as if the line were not
    there. *)
Theorem blank_line_skipped bound line rest :
  all_space line = true ->
  loop bound (line :: rest) = loop bound rest.
Proof.
  intro H. apply strip_blank in H. cbn [main_loop_from].
  rewrite H. reflexivity.
Qed.

Lemma handle_object_failure bound line members e :
  json_loads line = inr (JObj members) ->
  serve detectMultiScale model EMOTION_MODE b64decode imdecode
        (JObj members) = inl e ->
  handle bound line =
  (Some (JObj members), inr (error_response (member "id" members) e)).
Proof.
  intros Hl Hs. unfold handle_line. rewrite Hl, Hs. reflexivity.
Qed.

(** X16.  For a request without the member [image], or whose [image] is
    null, false, zero or empty, the response handed to [print] is the
    failure response of the message "Missing image", with the [id] of the
    request; the decoders and [process_frame] are not reached.  When [print]
    writes it, the loop goes on with the next line; when [print] raises, the
    loop ends with that exception and nothing printed for the line. *)
Theorem missing_image_response bound line rest members :
  strip line <> "" ->
  json_loads (strip line) = inr (JObj members) ->
  truthy (member "image" members) = false ->
  loop bound (line :: rest) =
  printed print_json
    (error_response (member "id" members) (ValueError "Missing image"))
    (loop (Some (JObj members)) rest).
Proof.
  intros Hline Hl Himg. apply loop_step; [exact Hline|].
  apply handle_object_failure; [exact Hl|].
  unfold serve, bind, dict_get. fold (member "id" members).
  fold (member "image" members). unfold decode_image. now rewrite Himg.
Qed.

(** X17.  For a request whose image string decodes to bytes that are no
    image, the response handed to [print] is the failure response of the
    message "Failed to decode image", with the [id] of the request.  When
    [print] writes it, the loop goes on; when [print] raises, the loop ends
    with that exception. *)
Theorem undecodable_image_response bound line rest members s img_bytes :
  strip line <> "" ->
  json_loads (strip line) = inr (JObj members) ->
  member "image" members = JStr s ->
  s <> "" ->
  b64decode (payload_data s) = inr img_bytes ->
  imdecode img_bytes = inr None ->
  loop bound (line :: rest) =
  printed print_json
    (error_response (member "id" members)
                    (ValueError "Failed to decode image"))
    (loop (Some (JObj members)) rest).
Proof.
  intros Hline Hl Himg Hs Hb Hi. apply loop_step; [exact Hline|].
  apply handle_object_failure; [exact Hl|].
  unfold serve, bind, dict_get. fold (member "image" members).
  fold (member "id" members). rewrite Himg. unfold decode_image, bind.
  simpl truthy. destruct (String.eqb s "") eqn:E;
    [apply String.eqb_eq in E; contradiction|].
  simpl. fold (payload_data s). now rewrite Hb, Hi.
Qed.

Lemma serve_frame members s img_bytes frame :
  member "image" members = JStr s ->
  s <> "" ->
  b64decode (payload_data s) = inr img_bytes ->
  imdecode img_bytes = inr (Some frame) ->
  serve detectMultiScale model EMOTION_MODE b64decode imdecode
        (JObj members) =
  match snd (process_frame detectMultiScale model EMOTION_MODE frame) with
  | inr r => inr (success_response (member "id" members) r)
  | inl e => inl e
  end.
Proof.
  intros Himg Hs Hb Hi.
  unfold serve, bind, dict_get. fold (member "image" members).
  fold (member "id" members). rewrite Himg. unfold decode_image, bind.
  simpl truthy. destruct (String.eqb s "") eqn:E;
    [apply String.eqb_eq in E; contradiction|].
  simpl. fold (payload_data s). rewrite Hb, Hi.
  now destruct (snd (process_frame detectMultiScale model EMOTION_MODE frame)).
Qed.

(** X18.  For a request whose image decodes to a frame on which
    [process_frame] returns, the response handed to [print] is the response
    of that frame: the [id] of the request, the detections, the dominant
    emotion, the dimensions and the diagnostics, and no [error].  When
    [print] writes it, the loop goes on; when [print] raises, the loop ends
    with that exception and nothing printed for the line. *)
Theorem decoded_frame_response
    bound line rest members s img_bytes frame log r :
  strip line <> "" ->
  json_loads (strip line) = inr (JObj members) ->
  member "image" members = JStr s ->
  s <> "" ->
  b64decode (payload_data s) = inr img_bytes ->
  imdecode img_bytes = inr (Some frame) ->
  process_frame detectMultiScale model EMOTION_MODE frame = (log, inr r) ->
  loop bound (line :: rest) =
  printed print_json (success_response (member "id" members) r)
          (loop (Some (JObj members)) rest).
Proof.
  intros Hline Hl Himg Hs Hb Hi Hp. apply loop_step; [exact Hline|].
  unfold handle_line. rewrite Hl.
  rewrite (serve_frame members s img_bytes frame Himg Hs Hb Hi), Hp.
  reflexivity.
Qed.

(** X19.  For a request on whose frame the face proposer raises, the
    response handed to [print] is a failure response whose [error] is the
    message of that exception, with the [id] of the request.  When [print]
    writes it, the loop goes on; when [print] raises, the loop ends with the
    exception of [print]. *)
Theorem proposer_failure_response
    bound line rest members s img_bytes frame e :
  strip line <> "" ->
  json_loads (strip line) = inr (JObj members) ->
  member "image" members = JStr s ->
  s <> "" ->
  b64decode (payload_data s) = inr img_bytes ->
  imdecode img_bytes = inr (Some frame) ->
  mode_in EMOTION_MODE ["cascade"; "hybrid"] = true ->
  detectMultiScale frame = inl e ->
  loop bound (line :: rest) =
  printed print_json (error_response (member "id" members) e)
          (loop (Some (JObj members)) rest).
Proof.
  intros Hline Hl Himg Hs Hb Hi Hmode Hd. apply loop_step; [exact Hline|].
  apply handle_object_failure; [exact Hl|].
  rewrite (serve_frame members s img_bytes frame Himg Hs Hb Hi).
  unfold process_frame. now rewrite Hmode, Hd.
Qed.

(** X20.  The failure response to a line that is no JSON text carries the
    [id] of the last request that was parsed, since [payload] is still
    bound to it; before any request was parsed its [id] is null.  Each
    response is handed to [print], and the loop goes on only when [print]
    writes it. *)
Theorem unparsable_line_echoes_last_id line1 line2 rest members e :
  strip line1 <> "" ->
  strip line2 <> "" ->
  json_loads (strip line1) = inr (JObj members) ->
  json_loads (strip line2) = inl e ->
  (forall bound, exists out1,
      loop bound (line1 :: line2 :: rest) =
      printed print_json out1
        (printed print_json (error_response (member "id" members) e)
                 (loop (Some (JObj members)) rest))) /\
  loop None (line2 :: rest) =
  printed print_json (error_response JNull e) (loop None rest).
Proof.
  intros H1 H2 Hl1 Hl2.
  assert (Hsecond : forall bound out,
             handler bound e = inr out ->
             loop bound (line2 :: rest) =
             printed print_json out (loop bound rest)).
  { intros bound out Hh. apply loop_step; [exact H2|].
    unfold handle_line. now rewrite Hl2, Hh. }
  split; [|now apply Hsecond].
  intro bound.
  assert (Hfirst : exists out1,
             handle bound (strip line1) = (Some (JObj members), inr out1)).
  { unfold handle_line. rewrite Hl1.
    destruct (serve detectMultiScale model EMOTION_MODE b64decode imdecode
                    (JObj members)) as [e1|out1].
    - eexists. reflexivity.
    - exists out1. reflexivity. }
  destruct Hfirst as [out1 Hfirst]. exists out1.
  rewrite (loop_step bound line1 (line2 :: rest) _ out1 H1 Hfirst).
  rewrite (Hsecond (Some (JObj members))
                   (error_response (member "id" members) e) eq_refl).
  reflexivity.
Qed.

(** X21.  The responses to a prefix of the input are a prefix of the
    responses to the whole input, and when the loop ends on the prefix with
    an exception, the rest of the input changes nothing. *)
Theorem responses_of_prefix stdin more : forall bound,
  (exists later,
      fst (main_loop_from detectMultiScale model EMOTION_MODE json_loads
                          b64decode imdecode print_json bound
                          (stdin ++ more)) =
      fst (main_loop_from detectMultiScale model EMOTION_MODE json_loads
                          b64decode imdecode print_json bound stdin)
      ++ later) /\
  (snd (main_loop_from detectMultiScale model EMOTION_MODE json_loads
                       b64decode imdecode print_json bound stdin) <> None ->
   main_loop_from detectMultiScale model EMOTION_MODE json_loads
                  b64decode imdecode print_json bound (stdin ++ more) =
   main_loop_from detectMultiScale model EMOTION_MODE json_loads
                  b64decode imdecode print_json bound stdin).
Proof.
  induction stdin as [|line rest IH]; intro bound.
  - split; [exists (fst (loop bound more)); reflexivity|].
    simpl. congruence.
  - cbn [app main_loop_from].
    destruct (String.eqb (strip line) ""); [apply IH|].
    destruct (handle bound (strip line)) as [bound' [e|out]].
    + split; [exists []; reflexivity|reflexivity].
    + destruct (print_json out);
        [split; [exists []; reflexivity|reflexivity]|].
      destruct (IH bound') as [[later Hl] Hc].
      destruct (loop bound' (rest ++ more)) as [outs' raised'] eqn:E1.
      destruct (loop bound' rest) as [outs raised] eqn:E2.
      simpl in *. split.
      * exists later. now rewrite Hl.
      * intro Hr. specialize (Hc Hr). now inversion Hc.
Qed.

End LineProperties.

(** X22.  An image given as a data URL is decoded as the raw payload that
    follows its first comma: what stands before the comma is dropped. *)
Theorem data_url_prefix_dropped
    (b64decode : string -> exn + string)
    (imdecode : string -> exn + option ndarray) (prefix data : string) :
  no_comma prefix = true -> no_comma data = true -> data <> "" ->
  decode_image b64decode imdecode (JStr (prefix ++ "," ++ data)%string) =
  decode_image b64decode imdecode (JStr data).
Proof.
  intros Hp Hd Hne.
  assert (Ha : after_comma (prefix ++ "," ++ data)%string = Some data).
  { induction prefix as [|c p IH]; simpl; [reflexivity|].
    simpl in Hp. apply andb_true_iff in Hp. destruct Hp as [Hc Hp].
    apply negb_true_iff in Hc. rewrite Hc. now apply IH. }
  assert (Hb : after_comma data = None).
  { clear Ha Hne. induction data as [|c d IH]; simpl; [reflexivity|].
    simpl in Hd. apply andb_true_iff in Hd. destruct Hd as [Hc Hd].
    apply negb_true_iff in Hc. rewrite Hc. now apply IH. }
  assert (Ht : forall s, s <> "" -> truthy (JStr s) = true).
  { intros s Hs. simpl. destruct (String.eqb s "") eqn:E; [|reflexivity].
    apply String.eqb_eq in E. contradiction. }
  unfold decode_image. rewrite Ha, Hb, (Ht data Hne), Ht; [reflexivity|].
  destruct prefix; discriminate.
Qed.

(** ** The further properties on the scenarios *)

Lemma small_face_skipped_witness :
  ((0 <= 100 + 5 + padding /\ 5 < 10) \/
   (0 <= 100 + 120 + padding /\ 120 < 10)) /\
  process_face Scenario.silent_model Scenario.frame
               (loop_init [ProposeRegions]) (100, 100, 5, 120) =
  loop_init [ProposeRegions].
Proof.
  assert (H : (0 <= 100 + 5 + padding /\ 5 < 10) \/
              (0 <= 100 + 120 + padding /\ 120 < 10))
    by (left; split; [discriminate|reflexivity]).
  split; [exact H|].
  exact (small_face_skipped Scenario.silent_model Scenario.frame
           (loop_init [ProposeRegions]) 100 100 5 120 H).
Defined.

Lemma large_face_classified_witness :
  0 <= 100 /\ 50 <= 120 /\
  100 + 120 <= Z.of_nat (nd_cols Scenario.frame) /\
  100 + 120 <= Z.of_nat (nd_rows Scenario.frame) /\
  too_small (roi_of Scenario.frame (100, 100, 120, 120)) = false.
Proof.
  assert (H0 : 0 <= 100) by discriminate.
  assert (H1 : 50 <= 120) by discriminate.
  assert (H2 : 100 + 120 <= Z.of_nat (nd_cols Scenario.frame))
    by discriminate.
  assert (H3 : 100 + 120 <= Z.of_nat (nd_rows Scenario.frame))
    by discriminate.
  split; [exact H0|]. split; [exact H1|]. split; [exact H2|].
  split; [exact H3|].
  exact (proj1 (large_face_classified Scenario.silent_model Scenario.frame
                  (loop_init [ProposeRegions]) 100 100 120 120
                  H0 H0 H1 H1 H2 H3)).
Defined.

Lemma fallback_failure_recorded_witness :
  too_small (roi_of Scenario.frame (100, 100, 120, 120)) = false /\
  Lines.fallback_failing_model
    (roi_of Scenario.frame (100, 100, 120, 120)) (5 # 100) = inr [] /\
  best_emotion (classify_region []) = None /\
  Lines.fallback_failing_model Scenario.frame (5 # 100) =
    inl (Scenario.RuntimeError "frame down") /\
  exists det dbg entries,
    results_output
      (process_face Lines.fallback_failing_model Scenario.frame
                    (loop_init [ProposeRegions]) (100, 100, 120, 120)) =
      [] ++ [det] /\
    emotion det = None /\
    debug_entries
      (process_face Lines.fallback_failing_model Scenario.frame
                    (loop_init [ProposeRegions]) (100, 100, 120, 120)) =
      entries ++ [FaceDebug dbg] /\
    fallbackError dbg = Some "frame down".
Proof.
  assert (H1 : too_small (roi_of Scenario.frame (100, 100, 120, 120)) = false)
    by reflexivity.
  assert (H2 : Lines.fallback_failing_model
                 (roi_of Scenario.frame (100, 100, 120, 120)) (5 # 100) =
               inr []) by reflexivity.
  assert (H3 : best_emotion (classify_region []) = None) by reflexivity.
  assert (H4 : Lines.fallback_failing_model Scenario.frame (5 # 100) =
               inl (Scenario.RuntimeError "frame down")) by reflexivity.
  split; [exact H1|]. split; [exact H2|]. split; [exact H3|].
  split; [exact H4|].
  destruct (fallback_failure_recorded Lines.fallback_failing_model
              Scenario.frame (loop_init [ProposeRegions])
              (100, 100, 120, 120) _ _ H1 H2 H3 H4)
    as (det & dbg & entries & Hr & He & _ & _ & Hd & Hf & _).
  exists det, dbg, entries. auto.
Defined.

Lemma detections_homogeneous_witness :
  process_frame (Scenario.proposer_of Scenario.one_face)
                Scenario.hybrid_model "hybrid" Scenario.frame =
  (Scenario.hybrid_log, inr Scenario.hybrid_result) /\
  ((Forall region_detection (fr_faces Scenario.hybrid_result) /\
    (List.length (fr_faces Scenario.hybrid_result) <=
     List.length (proposed (Scenario.proposer_of Scenario.one_face)
                           "hybrid" Scenario.frame))%nat /\
    fr_faces Scenario.hybrid_result =
    accumulated (Scenario.proposer_of Scenario.one_face)
                Scenario.hybrid_model "hybrid" Scenario.frame) \/
   (Forall direct_detection (fr_faces Scenario.hybrid_result) /\
    fr_faces Scenario.hybrid_result <> [] /\
    In ClassifyDirect Scenario.hybrid_log)).
Proof.
  split; [exact hybrid_run|].
  exact (detections_homogeneous _ _ _ _ _ _ hybrid_run).
Defined.

Lemma direct_failure_run :
  process_frame (Scenario.proposer_of Scenario.one_face)
                Lines.direct_failing_model "hybrid" Scenario.frame =
  (Scenario.hybrid_log, inr Lines.direct_failure_result).
Proof. vm_compute. reflexivity. Defined.

Lemma direct_failure_recorded_witness :
  process_frame (Scenario.proposer_of Scenario.one_face)
                Lines.direct_failing_model "hybrid" Scenario.frame =
  (Scenario.hybrid_log, inr Lines.direct_failure_result) /\
  In ClassifyDirect Scenario.hybrid_log /\
  Lines.direct_failing_model Scenario.frame (25 # 100) =
    inl (Scenario.RuntimeError "direct down") /\
  fr_dominant Lines.direct_failure_result = None /\
  exists entries,
    fr_debug Lines.direct_failure_result =
    entries ++ [DirectError "direct down"].
Proof.
  assert (Hin : In ClassifyDirect Scenario.hybrid_log)
    by (right; right; right; now left).
  assert (Hm : Lines.direct_failing_model Scenario.frame (25 # 100) =
               inl (Scenario.RuntimeError "direct down")) by reflexivity.
  split; [exact direct_failure_run|]. split; [exact Hin|].
  split; [exact Hm|].
  destruct (direct_failure_recorded _ _ _ _ _ _ _
              direct_failure_run Hin Hm) as (_ & _ & Hd & He).
  split; [exact Hd|exact He].
Defined.

Lemma diagnostics_match_detections_witness :
  process_frame (Scenario.proposer_of Scenario.one_face)
                Scenario.silent_model "cascade" Scenario.frame =
  (Scenario.silent_log, inr Scenario.silent_result) /\
  ~ In ClassifyDirect Scenario.silent_log /\
  Forall2 (entry_of Scenario.frame) (fr_faces Scenario.silent_result)
          (fr_debug Scenario.silent_result).
Proof.
  assert (Hnot : ~ In ClassifyDirect Scenario.silent_log)
    by (intros [H|[H|[H|[]]]]; discriminate H).
  split; [exact silent_run|]. split; [exact Hnot|].
  exact (diagnostics_match_detections _ _ _ _ _ _ silent_run Hnot).
Defined.

Lemma direct_mode_detections_witness :
  snd (process_frame (Scenario.proposer_of Scenario.one_face)
                     Scenario.hybrid_model "direct" Scenario.frame) =
  inr Lines.direct_result /\
  fst (process_frame (Scenario.proposer_of Scenario.one_face)
                     Scenario.hybrid_model "direct" Scenario.frame) =
  [ClassifyDirect] /\
  Forall direct_detection (fr_faces Lines.direct_result).
Proof.
  assert (H : snd (process_frame (Scenario.proposer_of Scenario.one_face)
                     Scenario.hybrid_model "direct" Scenario.frame) =
              inr Lines.direct_result) by (vm_compute; reflexivity).
  split; [exact H|].
  destruct (direct_mode_detections (Scenario.proposer_of Scenario.one_face)
              Scenario.hybrid_model Scenario.frame _ H) as (Hc & Hd & _).
  split; [exact Hc|exact Hd].
Defined.

Lemma blank_line_skipped_witness :
  all_space Lines.blank_line = true /\
  Lines.loop_from None [Lines.blank_line; Lines.url_line] =
  Lines.loop_from None [Lines.url_line].
Proof.
  assert (H : all_space Lines.blank_line = true) by reflexivity.
  split; [exact H|].
  exact (blank_line_skipped _ _ _ _ _ _ Scenario.print_ok None
           Lines.blank_line
           [Lines.url_line] H).
Defined.

Lemma missing_image_response_witness :
  strip Lines.noimage_line <> "" /\
  Lines.loads (strip Lines.noimage_line) = inr (JObj Lines.noimage_members) /\
  truthy (member "image" Lines.noimage_members) = false /\
  Lines.loop_from None [Lines.noimage_line] =
  ([error_response (JStr "b") (ValueError "Missing image")], None) /\
  main_loop_from (Scenario.proposer_of Scenario.one_face)
                 Scenario.silent_model "cascade" Lines.loads Scenario.b64_of
                 (Scenario.imdecode_of "AAAA") Lines.print_failing None
                 [Lines.noimage_line; Lines.url_line] =
  ([], Some Lines.UnicodeEncodeError).
Proof.
  assert (H1 : strip Lines.noimage_line <> "") by (vm_compute; discriminate).
  assert (H2 : Lines.loads (strip Lines.noimage_line) =
               inr (JObj Lines.noimage_members)) by (vm_compute; reflexivity).
  assert (H3 : truthy (member "image" Lines.noimage_members) = false)
    by reflexivity.
  split; [exact H1|]. split; [exact H2|]. split; [exact H3|].
  split.
  - exact (missing_image_response (Scenario.proposer_of Scenario.one_face)
             Scenario.silent_model "cascade" Lines.loads Scenario.b64_of
             (Scenario.imdecode_of "AAAA") Scenario.print_ok None
             Lines.noimage_line [] Lines.noimage_members H1 H2 H3).
  - exact (missing_image_response (Scenario.proposer_of Scenario.one_face)
             Scenario.silent_model "cascade" Lines.loads Scenario.b64_of
             (Scenario.imdecode_of "AAAA") Lines.print_failing None
             Lines.noimage_line [Lines.url_line] Lines.noimage_members
             H1 H2 H3).
Defined.

Lemma undecodable_image_response_witness :
  strip Lines.badimage_line <> "" /\
  Lines.loads (strip Lines.badimage_line) =
    inr (JObj Lines.badimage_members) /\
  member "image" Lines.badimage_members = JStr "ZZZZ" /\
  "ZZZZ" <> "" /\
  Scenario.b64_of (payload_data "ZZZZ") = inr "ZZZZ" /\
  Scenario.imdecode_of "AAAA" "ZZZZ" = inr None /\
  Lines.loop_from None [Lines.badimage_line] =
  ([error_response (JStr "c") (ValueError "Failed to decode image")], None).
Proof.
  assert (H1 : strip Lines.badimage_line <> "") by (vm_compute; discriminate).
  assert (H2 : Lines.loads (strip Lines.badimage_line) =
               inr (JObj Lines.badimage_members))
    by (vm_compute; reflexivity).
  assert (H3 : member "image" Lines.badimage_members = JStr "ZZZZ")
    by reflexivity.
  assert (H4 : "ZZZZ" <> "") by discriminate.
  assert (H5 : Scenario.b64_of (payload_data "ZZZZ") = inr "ZZZZ")
    by reflexivity.
  assert (H6 : Scenario.imdecode_of "AAAA" "ZZZZ" = inr None) by reflexivity.
  split; [exact H1|]. split; [exact H2|]. split; [exact H3|].
  split; [exact H4|]. split; [exact H5|]. split; [exact H6|].
  exact (undecodable_image_response (Scenario.proposer_of Scenario.one_face)
           Scenario.silent_model "cascade" Lines.loads Scenario.b64_of
           (Scenario.imdecode_of "AAAA") Scenario.print_ok None Lines.badimage_line []
           Lines.badimage_members "ZZZZ" "ZZZZ" H1 H2 H3 H4 H5 H6).
Defined.

Lemma decoded_frame_response_witness :
  strip Lines.url_line <> "" /\
  Lines.loads (strip Lines.url_line) = inr (JObj Lines.url_members) /\
  member "image" Lines.url_members = JStr "data:image/jpeg;base64,AAAA" /\
  "data:image/jpeg;base64,AAAA" <> "" /\
  Scenario.b64_of (payload_data "data:image/jpeg;base64,AAAA") = inr "AAAA" /\
  Scenario.imdecode_of "AAAA" "AAAA" = inr (Some Scenario.frame) /\
  process_frame (Scenario.proposer_of Scenario.one_face)
                Scenario.silent_model "cascade" Scenario.frame =
  (Scenario.silent_log, inr Scenario.silent_result) /\
  Lines.loop_from None [Lines.url_line] =
  ([success_response (JStr "u") Scenario.silent_result], None).
Proof.
  assert (H1 : strip Lines.url_line <> "") by (vm_compute; discriminate).
  assert (H2 : Lines.loads (strip Lines.url_line) =
               inr (JObj Lines.url_members)) by (vm_compute; reflexivity).
  assert (H3 : member "image" Lines.url_members =
               JStr "data:image/jpeg;base64,AAAA") by reflexivity.
  assert (H4 : "data:image/jpeg;base64,AAAA" <> "") by discriminate.
  assert (H5 : Scenario.b64_of (payload_data "data:image/jpeg;base64,AAAA") =
               inr "AAAA") by reflexivity.
  assert (H6 : Scenario.imdecode_of "AAAA" "AAAA" = inr (Some Scenario.frame))
    by reflexivity.
  split; [exact H1|]. split; [exact H2|]. split; [exact H3|].
  split; [exact H4|]. split; [exact H5|]. split; [exact H6|].
  split; [exact silent_run|].
  exact (decoded_frame_response (Scenario.proposer_of Scenario.one_face)
           Scenario.silent_model "cascade" Lines.loads Scenario.b64_of
           (Scenario.imdecode_of "AAAA") Scenario.print_ok None Lines.url_line []
           Lines.url_members "data:image/jpeg;base64,AAAA" "AAAA"
           Scenario.frame Scenario.silent_log Scenario.silent_result
           H1 H2 H3 H4 H5 H6 silent_run).
Defined.

Lemma proposer_failure_response_witness :
  strip Lines.url_line <> "" /\
  Lines.loads (strip Lines.url_line) = inr (JObj Lines.url_members) /\
  member "image" Lines.url_members = JStr "data:image/jpeg;base64,AAAA" /\
  "data:image/jpeg;base64,AAAA" <> "" /\
  Scenario.b64_of (payload_data "data:image/jpeg;base64,AAAA") = inr "AAAA" /\
  Scenario.imdecode_of "AAAA" "AAAA" = inr (Some Scenario.frame) /\
  mode_in "cascade" ["cascade"; "hybrid"] = true /\
  Lines.failing_proposer Scenario.frame =
    inl (Scenario.RuntimeError "cascade not loaded") /\
  main_loop_from Lines.failing_proposer Scenario.silent_model "cascade"
                 Lines.loads Scenario.b64_of (Scenario.imdecode_of "AAAA")
                 Scenario.print_ok None [Lines.url_line] =
  ([error_response (JStr "u") (Scenario.RuntimeError "cascade not loaded")],
   None).
Proof.
  assert (H1 : strip Lines.url_line <> "") by (vm_compute; discriminate).
  assert (H2 : Lines.loads (strip Lines.url_line) =
               inr (JObj Lines.url_members)) by (vm_compute; reflexivity).
  assert (H3 : member "image" Lines.url_members =
               JStr "data:image/jpeg;base64,AAAA") by reflexivity.
  assert (H4 : "data:image/jpeg;base64,AAAA" <> "") by discriminate.
  assert (H5 : Scenario.b64_of (payload_data "data:image/jpeg;base64,AAAA") =
               inr "AAAA") by reflexivity.
  assert (H6 : Scenario.imdecode_of "AAAA" "AAAA" = inr (Some Scenario.frame))
    by reflexivity.
  assert (H7 : mode_in "cascade" ["cascade"; "hybrid"] = true) by reflexivity.
  assert (H8 : Lines.failing_proposer Scenario.frame =
               inl (Scenario.RuntimeError "cascade not loaded"))
    by reflexivity.
  split; [exact H1|]. split; [exact H2|]. split; [exact H3|].
  split; [exact H4|]. split; [exact H5|]. split; [exact H6|].
  split; [exact H7|]. split; [exact H8|].
  exact (proposer_failure_response Lines.failing_proposer
           Scenario.silent_model "cascade" Lines.loads Scenario.b64_of
           (Scenario.imdecode_of "AAAA") Scenario.print_ok None Lines.url_line []
           Lines.url_members "data:image/jpeg;base64,AAAA" "AAAA"
           Scenario.frame (Scenario.RuntimeError "cascade not loaded")
           H1 H2 H3 H4 H5 H6 H7 H8).
Defined.

Lemma unparsable_line_echoes_last_id_witness :
  strip Lines.url_line <> "" /\
  strip Lines.garbage_line <> "" /\
  Lines.loads (strip Lines.url_line) = inr (JObj Lines.url_members) /\
  Lines.loads (strip Lines.garbage_line) = inl Lines.JSONDecodeError /\
  (exists out1,
      Lines.loop_from None [Lines.url_line; Lines.garbage_line] =
      ([out1; error_response (JStr "u") Lines.JSONDecodeError], None)) /\
  Lines.loop_from None [Lines.garbage_line] =
  ([error_response JNull Lines.JSONDecodeError], None).
Proof.
  assert (H1 : strip Lines.url_line <> "") by (vm_compute; discriminate).
  assert (H2 : strip Lines.garbage_line <> "") by (vm_compute; discriminate).
  assert (H3 : Lines.loads (strip Lines.url_line) =
               inr (JObj Lines.url_members)) by (vm_compute; reflexivity).
  assert (H4 : Lines.loads (strip Lines.garbage_line) =
               inl Lines.JSONDecodeError) by (vm_compute; reflexivity).
  split; [exact H1|]. split; [exact H2|]. split; [exact H3|].
  split; [exact H4|].
  destruct (unparsable_line_echoes_last_id
              (Scenario.proposer_of Scenario.one_face)
              Scenario.silent_model "cascade" Lines.loads Scenario.b64_of
              (Scenario.imdecode_of "AAAA") Scenario.print_ok
              Lines.url_line Lines.garbage_line []
              Lines.url_members Lines.JSONDecodeError H1 H2 H3 H4)
    as [Hboth Hfirst].
  split; [exact (Hboth None)|exact Hfirst].
Defined.

Lemma data_url_prefix_dropped_witness :
  no_comma "data:image/jpeg;base64" = true /\
  no_comma "AAAA" = true /\
  "AAAA" <> "" /\
  decode_image Scenario.b64_of (Scenario.imdecode_of "AAAA")
               (JStr "data:image/jpeg;base64,AAAA") =
  decode_image Scenario.b64_of (Scenario.imdecode_of "AAAA") (JStr "AAAA").
Proof.
  assert (H1 : no_comma "data:image/jpeg;base64" = true) by reflexivity.
  assert (H2 : no_comma "AAAA" = true) by reflexivity.
  assert (H3 : "AAAA" <> "") by discriminate.
  split; [exact H1|]. split; [exact H2|]. split; [exact H3|].
  exact (data_url_prefix_dropped Scenario.b64_of (Scenario.imdecode_of "AAAA")
           "data:image/jpeg;base64" "AAAA" H1 H2 H3).
Defined.

Lemma one_response_per_object_line_witness :
  object_bound None /\
  (forall line,
      In line [Lines.url_line; Lines.garbage_line; Lines.blank_line;
               Lines.noimage_line] ->
      object_line Lines.loads line) /\
  (forall out, Scenario.print_ok out = inr tt) /\
  exists outs,
    Lines.loop_from None
      [Lines.url_line; Lines.garbage_line; Lines.blank_line;
       Lines.noimage_line] = (outs, None) /\
    List.length outs = 3%nat.
Proof.
  assert (H1 : object_bound None) by exact I.
  assert (H2 : forall line,
             In line [Lines.url_line; Lines.garbage_line; Lines.blank_line;
                      Lines.noimage_line] ->
             object_line Lines.loads line).
  { intros line [<-|[<-|[<-|[<-|[]]]]]; vm_compute; exact I. }
  assert (H3 : forall out, Scenario.print_ok out = inr tt)
    by (intro out; reflexivity).
  split; [exact H1|]. split; [exact H2|]. split; [exact H3|].
  destruct (one_response_per_object_line
              (Scenario.proposer_of Scenario.one_face)
              Scenario.silent_model "cascade" Lines.loads Scenario.b64_of
              (Scenario.imdecode_of "AAAA") Scenario.print_ok
              [Lines.url_line; Lines.garbage_line; Lines.blank_line;
               Lines.noimage_line] None H1 H2 H3)
    as (outs & Hrun & Hlen & _).
  exists outs. split; [exact Hrun|exact Hlen].
Defined.

Lemma main_loop_response_witness :
  Lines.loop_from None [Lines.url_line; Lines.noimage_line] =
  ([success_response (JStr "u") Scenario.silent_result;
    error_response (JStr "b") (ValueError "Missing image")], None) /\
  In (success_response (JStr "u") Scenario.silent_result)
     [success_response (JStr "u") Scenario.silent_result;
      error_response (JStr "b") (ValueError "Missing image")] /\
  (failure_response (success_response (JStr "u") Scenario.silent_result) \/
   exists frame log r,
     process_frame (Scenario.proposer_of Scenario.one_face)
                   Scenario.silent_model "cascade" frame = (log, inr r) /\
     response_of r (success_response (JStr "u") Scenario.silent_result)).
Proof.
  assert (H1 : Lines.loop_from None [Lines.url_line; Lines.noimage_line] =
               ([success_response (JStr "u") Scenario.silent_result;
                 error_response (JStr "b") (ValueError "Missing image")],
                None)) by (vm_compute; reflexivity).
  assert (H2 : In (success_response (JStr "u") Scenario.silent_result)
                  [success_response (JStr "u") Scenario.silent_result;
                   error_response (JStr "b") (ValueError "Missing image")])
    by (now left).
  split; [exact H1|]. split; [exact H2|].
  exact (main_loop_response (Scenario.proposer_of Scenario.one_face)
           Scenario.silent_model "cascade" Lines.loads Scenario.b64_of
           (Scenario.imdecode_of "AAAA") Scenario.print_ok
           [Lines.url_line; Lines.noimage_line] None _ _ _ H1 H2).
Defined.

(** ** The first of the best outputs *)

Lemma first_best_keep outs o st st' :
  first_best outs st ->
  best_emotion st' = best_emotion st ->
  best_conf st' = best_conf st ->
  (label_of (out_cls o) <> None -> (out_conf o <= best_conf st)%Q) ->
  first_best (outs ++ [o]) st'.
Proof.
  unfold first_best. intros H He Hc Ho. rewrite He, Hc.
  destruct (best_emotion st) as [l|].
  - destruct H as (before & o0 & after & -> & Hl & Hconf & Hb & Ha).
    exists before, o0, (after ++ [o]).
    split; [now rewrite <- app_assoc|]. repeat split; auto.
    intros a Hin Hlab. apply in_app_or in Hin.
    destruct Hin as [Hin|[<-|[]]]; auto.
  - intros a Hin Hlab. apply in_app_or in Hin.
    destruct Hin as [Hin|[<-|[]]]; auto.
Qed.

Lemma first_best_take outs o e st st' :
  first_best outs st ->
  (forall a, In a outs -> label_of (out_cls a) <> None ->
             (out_conf a <= best_conf st)%Q) ->
  label_of (out_cls o) = Some e ->
  (best_conf st < out_conf o)%Q ->
  best_emotion st' = Some e ->
  best_conf st' = out_conf o ->
  first_best (outs ++ [o]) st'.
Proof.
  unfold first_best. intros _ Hbound Hl Hlt He Hc. rewrite He, Hc.
  exists outs, o, []. repeat split; auto.
  - intros a Hin Hlab. eapply Qle_lt_trans; [|exact Hlt]. now apply Hbound.
  - intros a [].
Qed.

Lemma first_best_nil outs st : first_best outs st -> first_best (outs ++ []) st.
Proof. now rewrite app_nil_r. Qed.

Lemma scan_box_first outs st b :
  best_labelled outs st -> first_best outs st ->
  localized_in_range (box_outputs [b]) ->
  first_best (outs ++ box_outputs [b]) (scan_box st b).
Proof.
  intros [Hbound _] H Hrange. unfold scan_box, box_outputs in *. simpl in *.
  destruct (b_conf b) as [c|]; [|now apply first_best_nil].
  destruct (b_cls b) as [i|]; [|now apply first_best_nil].
  simpl in *. destruct (label_of i) as [e|] eqn:Hi.
  - destruct (Qgtb c (best_conf st)) eqn:E.
    + apply Qgtb_lt in E.
      eapply (first_best_take outs (Localized c i) e); eauto.
    + apply Qgtb_le in E. eapply first_best_keep; eauto.
  - exfalso. apply (Hrange c i); [now left|exact Hi].
Qed.

Lemma scan_boxes_first bs : forall outs st,
  best_labelled outs st -> first_best outs st ->
  localized_in_range (box_outputs bs) ->
  first_best (outs ++ box_outputs bs) (fold_left scan_box bs st).
Proof.
  induction bs as [|b bs IH]; intros outs st Hb H Hrange.
  - simpl. now apply first_best_nil.
  - rewrite box_outputs_cons in *. rewrite app_assoc. cbn [fold_left].
    apply localized_in_range_app in Hrange. destruct Hrange as [Hr Hrs].
    apply IH; [now apply scan_box_best|now apply scan_box_first|exact Hrs].
Qed.

Lemma scan_probs_first outs st i c :
  best_labelled outs st -> first_best outs st ->
  first_best
    (outs ++ [RegionWide (match c with Some c => c | None => 0%Q end) i])
    (scan_probs st (Probs (Some i) c)).
Proof.
  intros [Hbound _] H. unfold scan_probs.
  set (confidence := match c with Some c => c | None => 0%Q end).
  destruct (label_of i) as [e|] eqn:Hi.
  - destruct (Qgtb confidence (best_conf st)) eqn:E.
    + apply Qgtb_lt in E.
      eapply (first_best_take outs (RegionWide confidence i) e); eauto.
    + apply Qgtb_le in E. eapply first_best_keep; eauto.
  - eapply first_best_keep; eauto. simpl. congruence.
Qed.

Lemma scan_result_first outs st r :
  best_labelled outs st -> first_best outs st ->
  localized_in_range (result_outputs r) ->
  first_best (outs ++ result_outputs r) (scan_result st r).
Proof.
  intros Hb H Hrange. unfold scan_result, result_outputs in *.
  destruct (boxes r) as [[|b bs]|].
  2: now apply scan_boxes_first.
  all: destruct (probs r) as [[[i|] c|]|];
    try (now apply first_best_nil); now apply scan_probs_first.
Qed.

(** X25.  When every localized output of a region carries an index of the
    eight labels, the label of the region is the label of the first output,
    in the order of the loop, among the labelled outputs of the highest
    confidence: an output of the same confidence that comes later does not
    replace it. *)
Theorem classify_region_first_best (results : list yolo_result) :
  localized_in_range (outputs results) ->
  first_best (outputs results) (classify_region results).
Proof.
  unfold classify_region, outputs.
  assert (H : forall outs st,
             best_labelled outs st -> first_best outs st ->
             localized_in_range (flat_map result_outputs results) ->
             first_best (outs ++ flat_map result_outputs results)
                        (fold_left scan_result results st)).
  { induction results as [|r results IH]; intros outs st Hb Hs Hrange; simpl.
    - now apply first_best_nil.
    - simpl in Hrange. apply localized_in_range_app in Hrange.
      destruct Hrange as [Hr Hrs].
      rewrite app_assoc. apply IH; [| |exact Hrs].
      + now apply scan_result_best.
      + now apply scan_result_first. }
  intro Hrange. apply (H [] region_init); [| |exact Hrange].
  - split; [intros o []|reflexivity].
  - intros a [].
Qed.

Lemma classify_region_first_best_witness :
  localized_in_range
    (outputs [Scenario.localized
                [Scenario.box_of (8 # 10) 6; Scenario.box_of (8 # 10) 4]]) /\
  best_emotion
    (classify_region
       [Scenario.localized
          [Scenario.box_of (8 # 10) 6; Scenario.box_of (8 # 10) 4]]) =
  Some Sad /\
  first_best
    (outputs [Scenario.localized
                [Scenario.box_of (8 # 10) 6; Scenario.box_of (8 # 10) 4]])
    (classify_region
       [Scenario.localized
          [Scenario.box_of (8 # 10) 6; Scenario.box_of (8 # 10) 4]]).
Proof.
  assert (H : localized_in_range
                (outputs [Scenario.localized
                            [Scenario.box_of (8 # 10) 6;
                             Scenario.box_of (8 # 10) 4]])).
  { intros c i Hin. vm_compute in Hin.
    destruct Hin as [Hin|[Hin|[]]]; inversion Hin; subst;
      vm_compute; discriminate. }
  split; [exact H|]. split; [reflexivity|].
  exact (classify_region_first_best _ H).
Defined.

(** ** The detections of the direct attempt *)

Lemma direct_box_labels frame picked dbox :
  map (fun d => (emotion d, confidence d)) (direct_box frame picked dbox) =
  map (fun d => (emotion d, confidence d)) picked ++
  map (fun o => (label_of (out_cls o), round4 (out_conf o)))
      (filter has_valid_label (box_outputs [dbox])).
Proof.
  unfold direct_box, box_outputs. simpl.
  destruct (b_conf dbox) as [conf|]; [|now rewrite app_nil_r].
  destruct (b_cls dbox) as [cls_id|]; [|now rewrite app_nil_r].
  simpl. unfold has_valid_label. simpl.
  destruct (label_of cls_id) as [e|] eqn:He; simpl;
    [|now rewrite app_nil_r].
  destruct (match b_xyxy dbox with Some t => t | None => _ end)
    as [[[x1d y1d] x2d] y2d].
  rewrite map_app. simpl. now rewrite He.
Qed.

Lemma direct_boxes_labels frame dboxes : forall picked,
  map (fun d => (emotion d, confidence d))
      (fold_left (direct_box frame) dboxes picked) =
  map (fun d => (emotion d, confidence d)) picked ++
  map (fun o => (label_of (out_cls o), round4 (out_conf o)))
      (filter has_valid_label (box_outputs dboxes)).
Proof.
  induction dboxes as [|dbox dboxes IH]; intro picked.
  - simpl. now rewrite app_nil_r.
  - cbn [fold_left]. rewrite IH, direct_box_labels.
    rewrite (box_outputs_cons dbox dboxes), filter_app, map_app, app_assoc.
    reflexivity.
Qed.

(** X26.  The direct attempt picks one detection for each localized output
    of the whole frame whose index is one of the eight labels, in the order
    of the outputs, with the label of that index and the confidence of the
    output rounded to four decimals; an output of another index is dropped.
    *)
Theorem direct_detections_labels frame (direct_results : list yolo_result) :
  map (fun d => (emotion d, confidence d))
      (direct_detections frame direct_results) =
  map (fun o => (label_of (out_cls o), round4 (out_conf o)))
      (filter has_valid_label (direct_outputs direct_results)).
Proof.
  unfold direct_detections, direct_outputs.
  assert (H : forall picked,
             map (fun d => (emotion d, confidence d))
                 (fold_left (direct_result frame) direct_results picked) =
             map (fun d => (emotion d, confidence d)) picked ++
             map (fun o => (label_of (out_cls o), round4 (out_conf o)))
                 (filter has_valid_label
                    (flat_map
                       (fun dr => match boxes dr with
                                  | Some dboxes => box_outputs dboxes
                                  | None => []
                                  end) direct_results))).
  { induction direct_results as [|dr rest IH]; intro picked.
    - simpl. now rewrite app_nil_r.
    - cbn [fold_left flat_map]. rewrite IH, filter_app, map_app, app_assoc.
      f_equal. unfold direct_result.
      destruct (boxes dr) as [dboxes|];
        [apply direct_boxes_labels|simpl; now rewrite app_nil_r]. }
  apply (H []).
Qed.

(** ** The box of a region detection *)

Lemma axis_region (n : nat) (x w : Z) :
  0 <= w -> 0 <= x + w + padding ->
  (50 <= Z.to_nat
           (slice_index n (Z.min (Z.of_nat n) (x + w + padding)) -
            slice_index n (Z.max 0 (x - padding))))%nat ->
  Z.max 0 (Z.min (Z.max 0 (x - padding)) (Z.of_nat n - 1)) =
    Z.max 0 (x - padding) /\
  Z.max 0 (Z.min (Z.min (Z.of_nat n) (x + w + padding)) (Z.of_nat n)) =
    Z.min (Z.of_nat n) (x + w + padding).
Proof.
  unfold slice_index, padding. intros Hw H0 Hlen.
  destruct (Z.min (Z.of_nat n) (x + w + 20) <? 0) eqn:E2;
    destruct (Z.max 0 (x - 20) <? 0) eqn:E1;
    try apply Z.ltb_lt in E1; try apply Z.ltb_ge in E1;
    try apply Z.ltb_lt in E2; try apply Z.ltb_ge in E2; lia.
Qed.

(** X27.  For a proposed face of a width and a height that are not
    negative, that does not end left of or above the padding and whose region
    is not under 50 pixels, the box of the detection is the region itself,
    the face padded by 20 pixels and cut to the frame: the second clamping
    changes nothing, and the box is the [faceRect] of the diagnostics. *)
Theorem detection_box_is_region
    (model : ndarray -> Q -> exn + list yolo_result)
    frame st x y w h results :
  0 <= w -> 0 <= h ->
  0 <= x + w + padding -> 0 <= y + h + padding ->
  too_small (roi_of frame (x, y, w, h)) = false ->
  model (roi_of frame (x, y, w, h)) (5 # 100) = inr results ->
  exists det,
    results_output (process_face model frame st (x, y, w, h)) =
      results_output st ++ [det] /\
    (x1 det, y1 det, x2 det, y2 det) = region_of frame (x, y, w, h).
Proof.
  intros Hw Hh Hx Hy Hsmall Hm.
  destruct (process_face_step model frame st (x, y, w, h))
    as [(Hr & _) | (_ & det & extra & Hr & _ & _ & _ & _ & Hxy)].
  - exfalso. unfold process_face in Hr.
    destruct (region_of frame (x, y, w, h)) as [[[rx1 ry1] rx2] ry2].
    rewrite Hsmall, Hm in Hr.
    destruct (finish_face_shape model frame st rx1 ry1 rx2 ry2 results)
      as (d & ex & Hd & _).
    rewrite Hd in Hr.
    apply (f_equal (@List.length detection)) in Hr.
    rewrite length_app in Hr. simpl in Hr. lia.
  - exists det. split; [exact Hr|].
    unfold too_small in Hsmall. apply orb_false_iff in Hsmall.
    destruct Hsmall as [Hrows Hcols].
    apply Nat.ltb_ge in Hrows, Hcols.
    rewrite roi_rows in Hrows. rewrite roi_cols in Hcols.
    destruct (axis_region (nd_cols frame) x w Hw Hx Hcols) as [Ex1 Ex2].
    destruct (axis_region (nd_rows frame) y h Hh Hy Hrows) as [Ey1 Ey2].
    simpl in Hxy. destruct Hxy as (H1 & H2 & H3 & H4). simpl.
    rewrite H1, H2, H3, H4, Ex1, Ex2, Ey1, Ey2. reflexivity.
Qed.

Lemma detection_box_is_region_witness :
  0 <= 120 /\ 0 <= 100 + 120 + padding /\
  too_small (roi_of Scenario.frame (100, 100, 120, 120)) = false /\
  Scenario.silent_model (roi_of Scenario.frame (100, 100, 120, 120))
                        (5 # 100) = inr [] /\
  exists det,
    results_output
      (process_face Scenario.silent_model Scenario.frame
                    (loop_init [ProposeRegions]) (100, 100, 120, 120)) =
      [] ++ [det] /\
    (x1 det, y1 det, x2 det, y2 det) = (80, 80, 240, 240).
Proof.
  assert (H1 : 0 <= 120) by discriminate.
  assert (H2 : 0 <= 100 + 120 + padding) by discriminate.
  assert (H3 : too_small (roi_of Scenario.frame (100, 100, 120, 120)) = false)
    by reflexivity.
  assert (H4 : Scenario.silent_model
                 (roi_of Scenario.frame (100, 100, 120, 120)) (5 # 100) =
               inr []) by reflexivity.
  split; [exact H1|]. split; [exact H2|]. split; [exact H3|].
  split; [exact H4|].
  exact (detection_box_is_region Scenario.silent_model Scenario.frame
           (loop_init [ProposeRegions]) 100 100 120 120 []
           H1 H1 H2 H2 H3 H4).
Defined.
